(** * Verification of the BOMBARDIER ml-service analyzers

    A shallow embedding of the four rule-based analyzers of
    [backend/ml-service/src/analyzers] (bot detection, sentiment,
    interest extraction and profile scoring) together with the
    properties their specification states about them.

    Modelling conventions.
    - A Python [str] is a list of Unicode code points ([list N]).
      Character classes and case mapping ([isalpha], [lower], [\w], [\d],
      whitespace) are the ASCII ones; code points above 127 are kept as
      they are and belong to no class.
    - A Python [int] is a [Z]; a Python [float] is an exact rational [Q],
      so results are compared with [==].
    - The [/] operator raises [ZeroDivisionError] on a zero divisor; code
      that divides lives in the [result] monad below.  [TypeError] and
      [OverflowError] are raised on input that nothing has checked only
      (a value [None], datetimes of two kinds, an [int] beyond the floats);
      [Untyped] follows the bot detector there.
    - [set] values are lists without duplicates, in first-occurrence
      order; Python leaves the iteration order of a set unspecified, so
      statements about such lists are made up to membership or
      permutation. *)

From Stdlib Require Import String Ascii DecimalString.
From Stdlib Require Import ZArith QArith Qround Qminmax Qabs List Bool.
From Stdlib Require Import Lia Lqa Permutation Sorted.
Import ListNotations.

Local Open Scope Z_scope.

(** ** Strings *)

Definition char := N.
Definition str := list char.

(** The code points of an ASCII literal. *)
Definition lit (x : String.string) : str :=
  map N_of_ascii (String.list_ascii_of_string x).
Arguments lit x%_string.
(** The code point of a one-character literal. *)
Definition ch (x : string) : char := hd 0%N (lit x).
Arguments ch x%_string.

Definition in_range (lo hi c : N) : bool := (N.leb lo c && N.leb c hi)%bool.

Definition is_digit (c : char) : bool := in_range 48 57 c.
Definition is_upper (c : char) : bool := in_range 65 90 c.
Definition is_lower (c : char) : bool := in_range 97 122 c.
Definition isalpha (c : char) : bool := (is_upper c || is_lower c)%bool.
(** [\w]: letters, digits and the underscore. *)
Definition is_word (c : char) : bool := (isalpha c || is_digit c || N.eqb c (ch "_"))%bool.
(** Whitespace as [str.split()] and [str.strip()] see it. *)
Definition is_space (c : char) : bool := (in_range 9 13 c || in_range 28 32 c)%bool.

Definition lower_char (c : char) : char := if is_upper c then (c + 32)%N else c.
Definition lower (x : str) : str := map lower_char x.

(** [x.isascii()].  On such text the classes above, [isalpha] and [lower]
    are Python's.  Beyond it Python knows the letters of every script, and
    its [lower] may even change the length of a text; a property that
    needs more than that of the case mapping is stated for ASCII text. *)
Definition isascii (x : str) : bool := forallb (fun c => (c <? 128)%N) x.

Fixpoint str_eqb (a b : str) : bool :=
  match a, b with
  | [], [] => true
  | x :: a', y :: b' => (N.eqb x y && str_eqb a' b')%bool
  | _, _ => false
  end.

(** [x.startswith(p)] *)
Fixpoint startswith (p x : str) : bool :=
  match p, x with
  | [], _ => true
  | c :: p', d :: x' => (N.eqb c d && startswith p' x')%bool
  | _ :: _, [] => false
  end.

(** [needle in hay] *)
Fixpoint str_in (needle hay : str) : bool :=
  (startswith needle hay ||
   match hay with
   | [] => false
   | _ :: hay' => str_in needle hay'
   end)%bool.

(** [x.count(c)] for a one-character [c]. *)
Definition count_char (c : char) (x : str) : Z :=
  Z.of_nat (length (filter (N.eqb c) x)).

Definition len {A : Type} (l : list A) : Z := Z.of_nat (length l).

(** [x.strip()] *)
Fixpoint lstrip (x : str) : str :=
  match x with
  | c :: x' => if is_space c then lstrip x' else x
  | [] => []
  end.
Definition strip (x : str) : str := rev (lstrip (rev (lstrip x))).

(** [x.split()]: maximal runs of non-whitespace characters.  [cur] is
    the run being read, reversed. *)
Fixpoint split_acc (cur : str) (x : str) : list str :=
  match x with
  | [] => match cur with [] => [] | _ => [rev cur] end
  | c :: x' =>
      if is_space c
      then match cur with [] => split_acc [] x' | _ => rev cur :: split_acc [] x' end
      else split_acc (c :: cur) x'
  end.
Definition split (x : str) : list str := split_acc [] x.

(** [w.isupper()]: some cased character, and no lowercase one. *)
Definition isupper (w : str) : bool :=
  (existsb is_upper w && negb (existsb is_lower w))%bool.

(** [x.replace(c, by)] for a one-character [c]. *)
Definition replace_char (c : char) (by_ : str) (x : str) : str :=
  flat_map (fun d => if N.eqb d c then by_ else [d]) x.

(** [set(l)] as the list of distinct elements, first occurrences kept. *)
Fixpoint mem (x : str) (l : list str) : bool :=
  match l with
  | [] => false
  | y :: l' => (str_eqb x y || mem x l')%bool
  end.
Fixpoint set_of_acc (seen : list str) (l : list str) : list str :=
  match l with
  | [] => []
  | x :: l' => if mem x seen then set_of_acc seen l' else x :: set_of_acc (x :: seen) l'
  end.
Definition set_of (l : list str) : list str := set_of_acc [] l.

(** A dictionary with string keys, as the list of its items in insertion
    order: [d.get(key)] and [d[key] = v]. *)
Fixpoint lookup {V : Type} (key : str) (d : list (str * V)) : option V :=
  match d with
  | [] => None
  | (k, v) :: d' => if str_eqb key k then Some v else lookup key d'
  end.
Fixpoint dict_set {V : Type} (key : str) (v : V) (d : list (str * V)) : list (str * V) :=
  match d with
  | [] => [(key, v)]
  | (k, w) :: d' => if str_eqb key k then (key, v) :: d' else (k, w) :: dict_set key v d'
  end.

(** [str(n)] for a non-negative integer. *)
Definition str_of_Z (n : Z) : str :=
  lit (NilEmpty.string_of_uint (N.to_uint (Z.to_N n))).

(** [hay.count(needle)] for a non-empty [needle]: its occurrences, left to
    right, without overlap.  [skip] counts the characters still inside the
    last occurrence. *)
Fixpoint count_from (needle : str) (skip : nat) (hay : str) : nat :=
  match hay with
  | [] => O
  | _ :: hay' =>
      match skip with
      | Datatypes.S k => count_from needle k hay'
      | O =>
          if startswith needle hay
          then Datatypes.S (count_from needle (pred (length needle)) hay')
          else count_from needle O hay'
      end
  end.
Definition count (needle hay : str) : Z :=
  match needle with
  | [] => len hay + 1
  | _ => Z.of_nat (count_from needle O hay)
  end.

(** [x.endswith(c)] for a one-character [c]. *)
Definition endswith_char (c : char) (x : str) : bool :=
  match rev x with
  | d :: _ => N.eqb d c
  | [] => false
  end.

(** [sep.join(parts)] *)
Fixpoint join (sep : str) (parts : list str) : str :=
  match parts with
  | [] => []
  | [x] => x
  | x :: parts' => x ++ sep ++ join sep parts'
  end.

(** ** Regular expressions

    The fragment of Python's [re] syntax the analyzers use, with the
    backtracking semantics of [re]: alternatives are tried left to
    right and repetitions are greedy. *)

Inductive re : Type :=
| Eps                                   (* the empty pattern *)
| Cls (p : char -> bool)                (* one character of a class *)
| Seq (a b : re)                        (* ab *)
| Alt (a b : re)                        (* a|b *)
| Rep (a : re) (lo : nat) (hi : option nat)   (* a{lo,hi}; [None] is unbounded *)
| Bol                                   (* ^ *)
| Eol                                   (* $ *)
| Wb.                                   (* \b *)

Definition is_word_opt (c : option char) : bool :=
  match c with Some d => is_word d | None => false end.

(** [$] holds at the end of the text and before a final newline. *)
Definition at_eol (inp : str) : bool :=
  match inp with
  | [] => true
  | [c] => N.eqb c 10%N
  | _ => false
  end.

Definition below (hi : option nat) (n : nat) : bool :=
  match hi with Some h => Nat.ltb n h | None => true end.

(** [rmatch r prev inp k] matches [r] at the head of [inp], [prev] being
    the character before it, and hands the character before the rest
    and the rest to [k]; the first success in priority order wins. *)
Fixpoint rmatch {A : Type} (r : re) (prev : option char) (inp : str)
    (k : option char -> str -> option A) {struct r} : option A :=
  match r with
  | Eps => k prev inp
  | Cls p =>
      match inp with
      | c :: rest => if p c then k (Some c) rest else None
      | [] => None
      end
  | Seq a b => rmatch a prev inp (fun prev' inp' => rmatch b prev' inp' k)
  | Alt a b =>
      match rmatch a prev inp k with
      | Some x => Some x
      | None => rmatch b prev inp k
      end
  | Rep a lo hi =>
      (fix rep (fuel done : nat) (prev : option char) (inp : str) {struct fuel} : option A :=
         let stop := if Nat.leb lo done then k prev inp else None in
         match fuel with
         | O => stop
         | S fuel' =>
             if below hi done then
               match rmatch a prev inp
                       (fun prev' inp' =>
                          if Nat.ltb (length inp') (length inp)
                          then rep fuel' (S done) prev' inp'
                          else None) with
               | Some x => Some x
               | None => stop
               end
             else stop
         end) (length inp) O prev inp
  | Bol => match prev with None => k prev inp | Some _ => None end
  | Eol => if at_eol inp then k prev inp else None
  | Wb =>
      if xorb (is_word_opt prev) (is_word_opt (hd_error inp))
      then k prev inp else None
  end.

(** The text left after the first-priority match of [r] at this place. *)
Definition match_here (r : re) (prev : option char) (inp : str) : option str :=
  rmatch r prev inp (fun _ rest => Some rest).

(** [re.search(r, x)] is not [None]. *)
Fixpoint search_from (r : re) (prev : option char) (inp : str) : bool :=
  match match_here r prev inp with
  | Some _ => true
  | None =>
      match inp with
      | [] => false
      | c :: rest => search_from r (Some c) rest
      end
  end.
Definition search (r : re) (x : str) : bool := search_from r None x.

(** [re.search(r, x, re.IGNORECASE)] for a pattern written in lowercase. *)
Definition search_ignorecase (r : re) (x : str) : bool := search r (lower x).

(** [re.findall(r, x)] for a pattern without groups: the matched texts,
    left to right, without overlap.  [skip] counts the characters still
    inside the last match. *)
Fixpoint findall_from (r : re) (skip : nat) (prev : option char) (inp : str) : list str :=
  let here :=
    match skip with
    | O =>
        match match_here r prev inp with
        | Some rest => Some (length inp - length rest)%nat
        | None => None
        end
    | S _ => None
    end in
  let out := match here with Some n => [firstn n inp] | None => [] end in
  let skip' := match here with Some n => pred n | None => pred skip end in
  match inp with
  | [] => out
  | c :: rest => out ++ findall_from r skip' (Some c) rest
  end.
Definition findall (r : re) (x : str) : list str := findall_from r O None x.

(** Pattern builders. *)
Definition chr (c : string) : re := Cls (N.eqb (ch c)).
Fixpoint word (x : str) : re :=
  match x with
  | [] => Eps
  | [c] => Cls (N.eqb c)
  | c :: x' => Seq (Cls (N.eqb c)) (word x')
  end.
Definition text (x : string) : re := word (lit x).
Fixpoint alts (l : list re) : re :=
  match l with
  | [] => Cls (fun _ => false)
  | [a] => a
  | a :: l' => Alt a (alts l')
  end.
Fixpoint seqs (l : list re) : re :=
  match l with
  | [] => Eps
  | [a] => a
  | a :: l' => Seq a (seqs l')
  end.
Definition plus (a : re) : re := Rep a 1 None.
Definition opt (a : re) : re := Rep a 0 (Some 1%nat).
Definition one_of (l : list N) : re := Cls (fun c => existsb (N.eqb c) l).

(** ** Errors and numbers *)

Inductive result (A : Type) : Type :=
| Ok (a : A)
| ZeroDivisionError
| TypeError
| OverflowError.
Arguments Ok {A} a.
Arguments ZeroDivisionError {A}.
Arguments TypeError {A}.
Arguments OverflowError {A}.

Definition bind {A B : Type} (m : result A) (f : A -> result B) : result B :=
  match m with
  | Ok a => f a
  | ZeroDivisionError => ZeroDivisionError
  | TypeError => TypeError
  | OverflowError => OverflowError
  end.

Notation "x <- m ;; k" := (bind m (fun x => k))
  (at level 61, m at next level, right associativity).
Notation "' pat <- m ;; k" := (bind m (fun x => match x with pat => k end))
  (at level 61, pat pattern, m at next level, right associativity).

Fixpoint mapM {A B : Type} (f : A -> result B) (l : list A) : result (list B) :=
  match l with
  | [] => Ok []
  | x :: l' => y <- f x ;; ys <- mapM f l' ;; Ok (y :: ys)
  end.

Local Open Scope Q_scope.

(** [a / b] on numbers. *)
Definition pydiv (a b : Q) : result Q :=
  if Qeq_bool b 0 then ZeroDivisionError else Ok (a / b).

Definition Qltb (a b : Q) : bool := negb (Qle_bool b a).
Definition Qgtb (a b : Q) : bool := Qltb b a.

(** Rounding to the nearest integer, ties to the even one. *)
Definition round_half_even (q : Q) : Z :=
  let f := Qfloor q in
  match Qcompare (q - inject_Z f) (1 # 2) with
  | Lt => f
  | Gt => (f + 1)%Z
  | Eq => if Z.even f then f else (f + 1)%Z
  end.

(** [round(q, n)] *)
Definition round (q : Q) (n : nat) : Q :=
  inject_Z (round_half_even (q * inject_Z (10 ^ Z.of_nat n))) / inject_Z (10 ^ Z.of_nat n).

Definition sumQ (l : list Q) : Q := fold_left Qplus l 0.
Definition Q_of_Z (z : Z) : Q := inject_Z z.

(** [l.sort()] with a comparison [le x y] read as: [x] may stand before
    [y].  Python's sort is stable; so is this insertion sort, which puts an
    element before the first one it may precede. *)
Section Sort.
Context {A : Type} (le : A -> A -> bool).

Fixpoint insert (x : A) (l : list A) : list A :=
  match l with
  | [] => [x]
  | y :: l' => if le x y then x :: l else y :: insert x l'
  end.

Fixpoint sort (l : list A) : list A :=
  match l with
  | [] => []
  | x :: l' => insert x (sort l')
  end.
End Sort.

(** ** The profile data model

    The dictionaries the analyzers read, when they hold what the type
    hints and the tests of the repository give them: a count is an [int],
    [verified] a [bool], and [None] below stands for a missing key.  A key
    that holds the value [None], as in the dictionaries [main.py] builds
    with [model_dump()], makes the analyzers raise; that input is the
    subject of [Untyped]. *)

Record Metadata : Type := mkMetadata {
  followers : option Z;
  following : option Z;
  posts_count : option Z;
  verified : option bool
}.

Record Post : Type := mkPost {
  content : option str;
  timestamp : option str
}.

Record Profile : Type := mkProfile {
  username : option str;
  bio : option str;
  metadata : option Metadata;
  posts : option (list Post)
}.

(** [d.get(key, default)] *)
Definition get {A : Type} (field : option A) (default : A) : A :=
  match field with Some v => v | None => default end.

Definition empty_metadata : Metadata := mkMetadata None None None None.

(** Truth value of a string, a list and a metadata dictionary. *)
Definition nonempty {A : Type} (l : list A) : bool :=
  match l with [] => false | _ => true end.
Definition metadata_nonempty (m : Metadata) : bool :=
  match followers m, following m, posts_count m, verified m with
  | None, None, None, None => false
  | _, _, _, _ => true
  end.

(** A parsed timestamp: seconds since the epoch and the hour of day.  The
    timestamps of one profile are taken to be of one kind, all with an
    offset or all without, so that any two can be compared and subtracted;
    [Untyped] keeps the kind. *)
Record datetime : Type := mkDatetime {
  epoch : Q;
  hour : Z
}.

(** [np.std] is the square root of the population variance.  The model
    keeps the radicand, which decides every comparison the code makes. *)
Record root : Type := Root { radicand : Q }.

Definition np_mean (l : list Q) : Q := sumQ l / Q_of_Z (len l).
Definition np_std (l : list Q) : root :=
  let m := np_mean l in
  Root (np_mean (map (fun x => (x - m) * (x - m)) l)).
(** [r / d] for a positive [d], and [r < c] for a non-negative [c]. *)
Definition root_div (r : root) (d : Q) : result root :=
  if Qeq_bool d 0 then ZeroDivisionError else Ok (Root (radicand r / (d * d))).
Definition root_ltb (r : root) (c : Q) : bool := Qltb (radicand r) (c * c).

(** A score and its flags, as each sub-analysis accumulates them. *)
Definition scored : Type := (Z * list str)%type.

Definition add_if (c : bool) (points : Z) (flag : str) (st : scored) : scored :=
  if c then ((fst st + points)%Z, snd st ++ [flag]) else st.

Definition capped (st : scored) : scored := (Z.min (fst st) 100, snd st).

(** ** bot_detector.py *)

Module BotDetector.

Definition digit : re := Cls is_digit.
Definition a_z : re := Cls is_lower.

(** Each pattern with its source text, which goes into the flag. *)
Definition BOT_USERNAME_PATTERNS : list (str * re) :=
  [ (lit "\d{6,}$", Seq (Rep digit 6 None) Eol);
    (lit "^[a-z]{3,5}\d{4,}", seqs [Bol; Rep a_z 3 (Some 5%nat); Rep digit 4 None]);
    (lit "bot$", Seq (text "bot") Eol);
    (lit "^user\d+", seqs [Bol; text "user"; plus digit]);
    (lit "[a-z]{1,3}\d+[a-z]{1,3}\d+",
     seqs [Rep a_z 1 (Some 3%nat); plus digit; Rep a_z 1 (Some 3%nat); plus digit]) ].

Definition SPAM_BIO_PHRASES : list str :=
  map lit
    [ "follow back"; "f4f"; "follow for follow"; "dm for promo";
      "link in bio"; "check link"; "free followers"; "get followers";
      "grow your"; "make money"; "work from home"; "earn $";
      "click here"; "limited time"; "act now"; "special offer" ]%string.

Definition GENERIC_BIOS : list str :=
  map lit
    [ "just here"; "living life"; "lover of life"; "follow me";
      "entrepreneur"; "influencer"; "content creator"; "dreamer" ]%string.

Definition is_vowel (c : char) : bool := existsb (N.eqb c) (lit "aeiou").

Definition _analyze_username (username : str) : result scored :=
  if negb (nonempty username) then Ok (50%Z, []) else
  let st : scored := (0%Z, []) in
  (* Check patterns *)
  let st :=
    fold_left
      (fun st pattern =>
         add_if (search_ignorecase (snd pattern) username) 25
                (lit "suspicious_username_pattern:" ++ fst pattern) st)
      BOT_USERNAME_PATTERNS st in
  (* Check length *)
  let st :=
    if (len username <? 3)%Z then add_if true 20 (lit "very_short_username") st
    else add_if (len username >? 25)%Z 10 (lit "very_long_username") st in
  (* Check for random characters *)
  let st := add_if (negb (existsb isalpha username)) 30 (lit "no_letters_in_username") st in
  (* Check consonant/vowel ratio *)
  let vowels := len (filter is_vowel (lower username)) in
  let consonants :=
    len (filter (fun c => isalpha c && negb (is_vowel c))%bool (lower username)) in
  unusual <-
    (if (consonants >? 0)%Z
     then ratio <- pydiv (Q_of_Z vowels) (Q_of_Z (Z.max consonants 1)) ;;
          Ok (Qltb ratio (1 # 10))
     else Ok false) ;;
  let st := add_if unusual 15 (lit "unusual_character_distribution") st in
  Ok (capped st).

Definition url : re := seqs [text "http"; opt (chr "s"); text "://"].

Definition spam_matches (bio_lower : str) : Z :=
  len (filter (fun phrase => str_in phrase bio_lower) SPAM_BIO_PHRASES).
Definition generic_matches (bio_lower : str) : Z :=
  len (filter (fun phrase => str_in phrase bio_lower) GENERIC_BIOS).
Definition emoji_count (bio : str) : Z := len (filter (N.ltb 127462) bio).
Definition url_count (bio : str) : Z := len (findall url bio).

Definition _analyze_bio (bio : str) : scored :=
  if negb (nonempty bio) then (30%Z, [lit "no_bio"]) else
  let st : scored := (0%Z, []) in
  let bio_lower := lower bio in
  (* Check for spam phrases *)
  let st :=
    add_if (spam_matches bio_lower >? 0)%Z (spam_matches bio_lower * 20)
           (lit "spam_phrases:" ++ str_of_Z (spam_matches bio_lower)) st in
  (* Check for generic bios *)
  let st :=
    add_if (generic_matches bio_lower >? 0)%Z (generic_matches bio_lower * 10)
           (lit "generic_bio") st in
  (* Check for excessive emojis *)
  let st := add_if (emoji_count bio >? 10)%Z 15 (lit "excessive_emojis") st in
  (* Check for excessive hashtags *)
  let st := add_if (count_char (ch "#") bio >? 5)%Z 20 (lit "excessive_hashtags") st in
  (* Check for URLs *)
  let st := add_if (url_count bio >? 2)%Z 25 (lit "multiple_urls") st in
  (* Very short bio *)
  let st := add_if (len bio <? 10)%Z 15 (lit "very_short_bio") st in
  capped st.

Definition _analyze_metrics (metadata : Metadata) : result scored :=
  let st : scored := (0%Z, []) in
  let followers := get (followers metadata) 0%Z in
  let following := get (following metadata) 0%Z in
  let posts_count := get (posts_count metadata) 0%Z in
  let verified := get (verified metadata) false in
  (* Verified accounts are less likely to be bots *)
  if verified then Ok (5%Z, [lit "verified_account"]) else
  (* Check follower/following ratio *)
  st <-
    (if (following >? 0)%Z
     then ratio <- pydiv (Q_of_Z followers) (Q_of_Z following) ;;
          Ok (if Qltb ratio (1 # 100)
              then add_if true 40 (lit "suspicious_follower_ratio") st
              else add_if (Qgtb ratio 100 && (followers >? 10000)%Z) 10
                          (lit "extremely_high_follower_ratio") st)
     else Ok st) ;;
  (* Check for unrealistic metrics *)
  let st := add_if ((followers >? 1000000)%Z && (posts_count <? 10)%Z) 50
                   (lit "unrealistic_followers_to_posts") st in
  let st := add_if (following >? 5000)%Z 25 (lit "mass_following") st in
  (* Very new account with high activity *)
  let st := add_if ((posts_count >? 100)%Z && (followers <? 10)%Z) 30
                   (lit "high_activity_low_followers") st in
  (* No posts but many followers *)
  let st := add_if ((posts_count =? 0)%Z && (followers >? 100)%Z) 35
                   (lit "no_posts_many_followers") st in
  Ok (capped st).

Definition hashtag : re := Seq (chr "#") (plus (Cls is_word)).

Definition PROMO_PHRASES : list str :=
  map lit [ "buy"; "sale"; "discount"; "link"; "shop"; "promo" ]%string.

(** The non-empty contents of the posts. *)
Definition contents_of (posts : list Post) : list str :=
  flat_map (fun p => match content p with
                     | Some c => if nonempty c then [c] else []
                     | None => []
                     end) posts.

Definition _analyze_content (posts : list Post) : result scored :=
  if negb (nonempty posts) then Ok (30%Z, [lit "no_posts"]) else
  let st : scored := (0%Z, []) in
  let contents := contents_of posts in
  if negb (nonempty contents) then Ok (30%Z, [lit "empty_posts"]) else
  (* Check for duplicate content *)
  let unique_contents := set_of contents in
  let st := add_if (Qltb (Q_of_Z (len unique_contents)) (Q_of_Z (len contents) * (1 # 2)))
                   40 (lit "high_content_duplication") st in
  (* Check for repetitive hashtag usage *)
  let all_hashtags := flat_map (findall hashtag) contents in
  st <-
    (if (len all_hashtags >? 0)%Z
     then let unique_hashtags := set_of all_hashtags in
          hashtag_repetition <-
            pydiv (Q_of_Z (len all_hashtags)) (Q_of_Z (len unique_hashtags)) ;;
          Ok (add_if (Qgtb hashtag_repetition 5) 25 (lit "repetitive_hashtags") st)
     else Ok st) ;;
  (* Check average content length *)
  avg_length <- pydiv (Q_of_Z (fold_left Z.add (map len contents) 0%Z))
                      (Q_of_Z (len contents)) ;;
  let st := add_if (Qltb avg_length 20) 20 (lit "very_short_posts") st in
  (* Check for promotional content *)
  let promo_count :=
    len (filter (fun c => existsb (fun phrase => str_in phrase (lower c)) PROMO_PHRASES)
                contents) in
  let st := add_if (Qgtb (Q_of_Z promo_count) (Q_of_Z (len contents) * (1 # 2)))
                   35 (lit "high_promotional_content") st in
  Ok (capped st).

(** [intervals[i-1] = timestamps[i] - timestamps[i-1]], in seconds. *)
Fixpoint intervals_of (timestamps : list datetime) : list Q :=
  match timestamps with
  | a :: (b :: _) as rest => (epoch b - epoch a) :: intervals_of rest
  | _ => []
  end.

Definition _calculate_confidence (profile_data : Profile) : Q :=
  let confidence := 1 # 2 in
  let confidence :=
    if nonempty (get (bio profile_data) []) then confidence + (1 # 10) else confidence in
  let confidence :=
    if metadata_nonempty (get (metadata profile_data) empty_metadata)
    then confidence + (15 # 100) else confidence in
  let posts := get (posts profile_data) [] in
  let confidence :=
    if nonempty posts then
      if (len posts >? 10)%Z then confidence + (2 # 10)
      else if (len posts >? 3)%Z then confidence + (1 # 10)
      else confidence
    else confidence in
  Qmin (round confidence 2) 1.

Record ComponentScores : Type := mkComponentScores {
  cs_username : Z;
  cs_bio : Z;
  cs_metrics : Z;
  cs_content : Z;
  cs_temporal : Z
}.

Record BotResult : Type := mkBotResult {
  score : Q;
  is_bot : bool;
  confidence : Q;
  flags : list str;
  component_scores : ComponentScores
}.

Definition weights : list Q := [15 # 100; 15 # 100; 25 # 100; 25 # 100; 20 # 100].

Section Timestamps.
(** [datetime.fromisoformat], [None] where it raises. *)
Variable fromisoformat : str -> option datetime.

(** The timestamps that are present and parse; the others are dropped. *)
Definition timestamps_of (posts : list Post) : list datetime :=
  flat_map (fun p => match timestamp p with
                     | Some ts =>
                         if nonempty ts
                         then match fromisoformat (replace_char (ch "Z") (lit "+00:00") ts) with
                              | Some d => [d]
                              | None => []
                              end
                         else []
                     | None => []
                     end) posts.

Definition _analyze_temporal (posts : list Post) : result scored :=
  if (negb (nonempty posts) || (len posts <? 3)%Z)%bool
  then Ok (30%Z, [lit "insufficient_temporal_data"]) else
  let st : scored := (0%Z, []) in
  (* Extract timestamps *)
  let timestamps := timestamps_of posts in
  if (len timestamps <? 3)%Z
  then Ok (30%Z, [lit "insufficient_temporal_data"]) else
  (* Sort timestamps *)
  let timestamps := sort (fun a b => Qle_bool (epoch a) (epoch b)) timestamps in
  (* Calculate intervals between posts *)
  let intervals := intervals_of timestamps in
  if negb (nonempty intervals) then Ok (30%Z, []) else
  (* Check for suspiciously regular intervals *)
  let avg_interval := np_mean intervals in
  let std_interval := np_std intervals in
  regular <-
    (if Qgtb avg_interval 0
     then ratio <- root_div std_interval avg_interval ;;
          Ok (root_ltb ratio (1 # 10))
     else Ok false) ;;
  let st := add_if regular 50 (lit "suspiciously_regular_posting") st in
  (* Check for burst posting *)
  let short_intervals := len (filter (fun i => Qltb i 60) intervals) in
  let st := add_if (Qgtb (Q_of_Z short_intervals) (Q_of_Z (len intervals) * (3 # 10)))
                   35 (lit "burst_posting_pattern") st in
  (* Check for 24/7 activity *)
  let hours := map hour timestamps in
  let unique_hours := len (nodup Z.eq_dec hours) in
  let st := add_if ((len timestamps >? 20)%Z && (unique_hours >? 20)%Z) 30
                   (lit "no_sleep_pattern") st in
  Ok (capped st).

Definition analyze (profile_data : Profile) : result BotResult :=
  (* 1. Username analysis *)
  '(username_score, username_flags) <-
    _analyze_username (get (username profile_data) []) ;;
  (* 2. Bio analysis *)
  let '(bio_score, bio_flags) := _analyze_bio (get (bio profile_data) []) in
  (* 3. Metrics analysis *)
  let metadata := get (metadata profile_data) empty_metadata in
  '(metrics_score, metrics_flags) <- _analyze_metrics metadata ;;
  (* 4. Content analysis *)
  let posts := get (posts profile_data) [] in
  '(content_score, content_flags) <- _analyze_content posts ;;
  (* 5. Temporal analysis *)
  '(temporal_score, temporal_flags) <- _analyze_temporal posts ;;
  (* Calculate final score (weighted average) *)
  let scores := [username_score; bio_score; metrics_score; content_score; temporal_score] in
  let final_score :=
    sumQ (map (fun sw => Q_of_Z (fst sw) * snd sw) (combine scores weights)) in
  (* Confidence based on data availability *)
  let confidence := _calculate_confidence profile_data in
  Ok {| score := round final_score 1;
        is_bot := Qgtb final_score 50;
        confidence := confidence;
        flags := set_of (username_flags ++ bio_flags ++ metrics_flags
                         ++ content_flags ++ temporal_flags);
        component_scores :=
          {| cs_username := username_score;
             cs_bio := bio_score;
             cs_metrics := metrics_score;
             cs_content := content_score;
             cs_temporal := temporal_score |} |}.
End Timestamps.

End BotDetector.

(** ** bot_detector.py on input that nothing has checked

    [BotDetector] above reads a profile whose metadata values are numbers
    and whose timestamps can be compared with each other.  Python checks
    neither.  [main.py] passes [model_dump()] dictionaries, in which a
    field that the request left out is present with the value [None], and
    [datetime.fromisoformat] returns an aware datetime for a timestamp with
    an offset and a naive one for a timestamp without.  [Untyped] follows
    the code of [_analyze_metrics], [_analyze_temporal] and [analyze] on
    such input, with the exceptions Python raises there; the other
    sub-analyses test their argument with [not], which takes [None] for
    empty, and are those of [BotDetector]. *)

Module Untyped.

(** A metadata dictionary.  For each key that the code reads: [None] when
    the key is missing, [Some None] when it holds the value [None], and
    [Some (Some v)] when it holds [v]. *)
Record MetadataDict : Type := mkMetadataDict {
  followers : option (option Z);
  following : option (option Z);
  posts_count : option (option Z);
  verified : option (option bool);
  other_keys : bool              (* some other key, as [join_date], is present *)
}.

Definition empty_dict : MetadataDict := mkMetadataDict None None None None false.

(** [d.get(key, default)]: the value, which may be [None]. *)
Definition dict_get {A : Type} (item : option (option A)) (default : A) : option A :=
  match item with Some v => v | None => Some default end.

(** Truth value of a dictionary, and of a value that is a [bool] or [None]. *)
Definition dict_nonempty (d : MetadataDict) : bool :=
  match followers d, following d, posts_count d, verified d with
  | None, None, None, None => other_keys d
  | _, _, _, _ => true
  end.
Definition truth (v : option bool) : bool := get v false.

(** [a > b], [a < b] and [a == b] for an [a] that is an [int] or [None]:
    ordering [None] against a number raises, comparing for equality does
    not. *)
Definition gt (a : option Z) (b : Z) : result bool :=
  match a with Some x => Ok (x >? b)%Z | None => TypeError end.
Definition lt (a : option Z) (b : Z) : result bool :=
  match a with Some x => Ok (x <? b)%Z | None => TypeError end.
Definition eq (a : option Z) (b : Z) : bool :=
  match a with Some x => (x =? b)%Z | None => false end.

(** [a and b]: [b] is evaluated only when [a] is true. *)
Definition and_then (a b : result bool) : result bool :=
  x <- a ;; if x then b else Ok false.

(** The quotients that round to a float: those below [2^1024 - 2^970] in
    absolute value. *)
Definition float_limit : Q := inject_Z (2 ^ 1024 - 2 ^ 970).

(** [a / b] for [int] or [None]: the quotient as a float. *)
Definition truediv (a b : option Z) : result Q :=
  match a, b with
  | Some x, Some y =>
      if (y =? 0)%Z then ZeroDivisionError
      else if Qle_bool float_limit (Qabs (Q_of_Z x / Q_of_Z y)) then OverflowError
      else Ok (Q_of_Z x / Q_of_Z y)
  | _, _ => TypeError
  end.

Definition _analyze_metrics (metadata : MetadataDict) : result scored :=
  let st : scored := (0%Z, []) in
  let followers := dict_get (followers metadata) 0%Z in
  let following := dict_get (following metadata) 0%Z in
  let posts_count := dict_get (posts_count metadata) 0%Z in
  let verified := dict_get (verified metadata) false in
  (* Verified accounts are less likely to be bots *)
  if truth verified then Ok (5%Z, [lit "verified_account"]) else
  (* Check follower/following ratio *)
  has_following <- gt following 0 ;;
  st <-
    (if has_following
     then ratio <- truediv followers following ;;
          if Qltb ratio (1 # 100)
          then Ok (add_if true 40 (lit "suspicious_follower_ratio") st)
          else high <- and_then (Ok (Qgtb ratio 100)) (gt followers 10000) ;;
               Ok (add_if high 10 (lit "extremely_high_follower_ratio") st)
     else Ok st) ;;
  (* Check for unrealistic metrics *)
  unrealistic <- and_then (gt followers 1000000) (lt posts_count 10) ;;
  let st := add_if unrealistic 50 (lit "unrealistic_followers_to_posts") st in
  mass <- gt following 5000 ;;
  let st := add_if mass 25 (lit "mass_following") st in
  (* Very new account with high activity *)
  busy <- and_then (gt posts_count 100) (lt followers 10) ;;
  let st := add_if busy 30 (lit "high_activity_low_followers") st in
  (* No posts but many followers *)
  bought <- and_then (Ok (eq posts_count 0)) (gt followers 100) ;;
  let st := add_if bought 35 (lit "no_posts_many_followers") st in
  Ok (capped st).

(** A parsed timestamp with what Python keeps beside the date and time:
    whether it has an offset ([tzinfo] is not [None]). *)
Record pydatetime : Type := mkPydatetime {
  moment : datetime;
  aware : bool
}.

(** [a < b] and [a - b] (in seconds): both raise between an aware and a
    naive datetime. *)
Definition dt_lt (a b : pydatetime) : result bool :=
  if Bool.eqb (aware a) (aware b)
  then Ok (Qltb (epoch (moment a)) (epoch (moment b)))
  else TypeError.
Definition dt_sub (a b : pydatetime) : result Q :=
  if Bool.eqb (aware a) (aware b)
  then Ok (epoch (moment a) - epoch (moment b))
  else TypeError.

(** [timestamps.sort()]: the stable insertion sort of [sort], with the
    comparison [<] that may raise. *)
Fixpoint insert_sorted (x : pydatetime) (l : list pydatetime) : result (list pydatetime) :=
  match l with
  | [] => Ok [x]
  | y :: l' =>
      behind <- dt_lt y x ;;
      if behind then rest <- insert_sorted x l' ;; Ok (y :: rest) else Ok (x :: l)
  end.

Fixpoint list_sort (l : list pydatetime) : result (list pydatetime) :=
  match l with
  | [] => Ok []
  | x :: l' => sorted <- list_sort l' ;; insert_sorted x sorted
  end.

(** [intervals[i-1] = (timestamps[i] - timestamps[i-1]).total_seconds()] *)
Fixpoint intervals_of (timestamps : list pydatetime) : result (list Q) :=
  match timestamps with
  | a :: (b :: _) as rest =>
      interval <- dt_sub b a ;; intervals <- intervals_of rest ;; Ok (interval :: intervals)
  | _ => Ok []
  end.

(** A profile dictionary; a text or a list that is [None] or missing is
    [None] here. *)
Record ProfileDict : Type := mkProfileDict {
  username : option str;
  bio : option str;
  metadata : option MetadataDict;
  posts : option (list Post)
}.

Definition _calculate_confidence (profile_data : ProfileDict) : Q :=
  let confidence := 1 # 2 in
  let confidence :=
    if nonempty (get (bio profile_data) []) then confidence + (1 # 10) else confidence in
  let confidence :=
    if dict_nonempty (get (metadata profile_data) empty_dict)
    then confidence + (15 # 100) else confidence in
  let posts := get (posts profile_data) [] in
  let confidence :=
    if nonempty posts then
      if (len posts >? 10)%Z then confidence + (2 # 10)
      else if (len posts >? 3)%Z then confidence + (1 # 10)
      else confidence
    else confidence in
  Qmin (round confidence 2) 1.

Section Timestamps.
(** [datetime.fromisoformat], [None] where it raises. *)
Variable fromisoformat : str -> option pydatetime.

(** The timestamps that are present and parse; the others are dropped. *)
Definition timestamps_of (posts : list Post) : list pydatetime :=
  flat_map (fun p => match timestamp p with
                     | Some ts =>
                         if nonempty ts
                         then match fromisoformat (replace_char (ch "Z") (lit "+00:00") ts) with
                              | Some d => [d]
                              | None => []
                              end
                         else []
                     | None => []
                     end) posts.

Definition _analyze_temporal (posts : list Post) : result scored :=
  if (negb (nonempty posts) || (len posts <? 3)%Z)%bool
  then Ok (30%Z, [lit "insufficient_temporal_data"]) else
  let st : scored := (0%Z, []) in
  (* Extract timestamps *)
  let timestamps := timestamps_of posts in
  if (len timestamps <? 3)%Z
  then Ok (30%Z, [lit "insufficient_temporal_data"]) else
  (* Sort timestamps *)
  timestamps <- list_sort timestamps ;;
  (* Calculate intervals between posts *)
  intervals <- intervals_of timestamps ;;
  if negb (nonempty intervals) then Ok (30%Z, []) else
  (* Check for suspiciously regular intervals *)
  let avg_interval := np_mean intervals in
  let std_interval := np_std intervals in
  regular <-
    (if Qgtb avg_interval 0
     then ratio <- root_div std_interval avg_interval ;;
          Ok (root_ltb ratio (1 # 10))
     else Ok false) ;;
  let st := add_if regular 50 (lit "suspiciously_regular_posting") st in
  (* Check for burst posting *)
  let short_intervals := len (filter (fun i => Qltb i 60) intervals) in
  let st := add_if (Qgtb (Q_of_Z short_intervals) (Q_of_Z (len intervals) * (3 # 10)))
                   35 (lit "burst_posting_pattern") st in
  (* Check for 24/7 activity *)
  let hours := map (fun ts => hour (moment ts)) timestamps in
  let unique_hours := len (nodup Z.eq_dec hours) in
  let st := add_if ((len timestamps >? 20)%Z && (unique_hours >? 20)%Z) 30
                   (lit "no_sleep_pattern") st in
  Ok (capped st).

Definition analyze (profile_data : ProfileDict) : result BotDetector.BotResult :=
  (* 1. Username analysis *)
  '(username_score, username_flags) <-
    BotDetector._analyze_username (get (username profile_data) []) ;;
  (* 2. Bio analysis *)
  let '(bio_score, bio_flags) := BotDetector._analyze_bio (get (bio profile_data) []) in
  (* 3. Metrics analysis *)
  let metadata := get (metadata profile_data) empty_dict in
  '(metrics_score, metrics_flags) <- _analyze_metrics metadata ;;
  (* 4. Content analysis *)
  let posts := get (posts profile_data) [] in
  '(content_score, content_flags) <- BotDetector._analyze_content posts ;;
  (* 5. Temporal analysis *)
  '(temporal_score, temporal_flags) <- _analyze_temporal posts ;;
  (* Calculate final score (weighted average) *)
  let scores := [username_score; bio_score; metrics_score; content_score; temporal_score] in
  let final_score :=
    sumQ (map (fun sw => Q_of_Z (fst sw) * snd sw) (combine scores BotDetector.weights)) in
  (* Confidence based on data availability *)
  let confidence := _calculate_confidence profile_data in
  Ok {| BotDetector.score := round final_score 1;
        BotDetector.is_bot := Qgtb final_score 50;
        BotDetector.confidence := confidence;
        BotDetector.flags := set_of (username_flags ++ bio_flags ++ metrics_flags
                                     ++ content_flags ++ temporal_flags);
        BotDetector.component_scores :=
          {| BotDetector.cs_username := username_score;
             BotDetector.cs_bio := bio_score;
             BotDetector.cs_metrics := metrics_score;
             BotDetector.cs_content := content_score;
             BotDetector.cs_temporal := temporal_score |} |}.
End Timestamps.

End Untyped.

(** ** sentiment_analyzer.py *)

Module SentimentAnalyzer.

Definition table (l : list (string * Q)) : list (str * Q) :=
  map (fun kv => (lit (fst kv), snd kv)) l.

Definition POSITIVE_WORDS : list (str * Q) :=
  table
    [ ("amazing", 9 # 10); ("excellent", 9 # 10); ("outstanding", 9 # 10);
      ("incredible", 9 # 10); ("fantastic", 9 # 10); ("wonderful", 9 # 10);
      ("brilliant", 9 # 10); ("exceptional", 9 # 10);
      ("great", 7 # 10); ("good", 6 # 10); ("nice", 5 # 10); ("happy", 7 # 10);
      ("love", 8 # 10); ("awesome", 8 # 10); ("beautiful", 7 # 10);
      ("perfect", 9 # 10); ("best", 8 # 10); ("excited", 7 # 10);
      ("grateful", 7 # 10); ("blessed", 6 # 10); ("thrilled", 8 # 10);
      ("enjoy", 6 # 10); ("appreciate", 6 # 10); ("thankful", 7 # 10);
      ("proud", 7 # 10); ("successful", 7 # 10); ("positive", 6 # 10);
      ("inspiring", 7 # 10); ("motivated", 6 # 10);
      ("like", 4 # 10); ("okay", 2 # 10); ("fine", 3 # 10); ("cool", 5 # 10);
      ("interesting", 4 # 10); ("helpful", 5 # 10); ("useful", 5 # 10);
      ("recommend", 6 # 10); ("thanks", 5 # 10) ]%string.

Definition NEGATIVE_WORDS : list (str * Q) :=
  table
    [ ("terrible", - (9 # 10)); ("horrible", - (9 # 10)); ("awful", - (9 # 10));
      ("worst", - (9 # 10)); ("disgusting", - (9 # 10)); ("hate", - (8 # 10));
      ("disaster", - (8 # 10)); ("pathetic", - (8 # 10));
      ("bad", - (6 # 10)); ("poor", - (5 # 10)); ("disappointing", - (7 # 10));
      ("upset", - (6 # 10)); ("angry", - (7 # 10)); ("frustrated", - (6 # 10));
      ("annoyed", - (5 # 10)); ("sad", - (6 # 10)); ("boring", - (5 # 10));
      ("waste", - (6 # 10)); ("stupid", - (7 # 10)); ("useless", - (7 # 10));
      ("wrong", - (5 # 10)); ("failed", - (6 # 10)); ("broken", - (5 # 10));
      ("problem", - (4 # 10));
      ("dislike", - (4 # 10)); ("meh", - (2 # 10)); ("mediocre", - (3 # 10));
      ("issue", - (3 # 10)); ("difficult", - (3 # 10)); ("confusing", - (4 # 10));
      ("worried", - (4 # 10)) ]%string.

Definition INTENSIFIERS : list (str * Q) :=
  table
    [ ("very", 15 # 10); ("really", 14 # 10); ("extremely", 17 # 10);
      ("absolutely", 18 # 10); ("totally", 15 # 10); ("completely", 16 # 10);
      ("incredibly", 17 # 10); ("super", 14 # 10); ("so", 13 # 10);
      ("quite", 12 # 10); ("pretty", 12 # 10); ("highly", 14 # 10) ]%string.

Definition NEGATORS : list str :=
  map lit [ "not"; "n't"; "no"; "never"; "none"; "nothing"; "neither"; "nowhere" ]%string.

(** The three emoji classes, by code point. *)
Definition EMOJI_positive : re :=
  one_of [ 128512; 128515; 128516; 128513; 128518; 128517; 129315; 128514; 128578;
           128579; 128521; 128522; 128519; 129392; 128525; 129321; 128536; 128535;
           9786; 128538; 128537; 129394; 128523; 128539; 128540; 129322; 128541;
           128077; 128079; 127881; 10084; 65039; 128149; 128150; 128151; 128153;
           128154; 128155; 129505; 128156; 129294; 128420; 129293; 128175; 10024;
           127775; 11088; 128293; 128170 ]%N.
Definition EMOJI_negative : re :=
  one_of [ 128542; 128532; 128543; 128533; 128577; 9785; 65039; 128547; 128534;
           128555; 128553; 129402; 128546; 128557; 128548; 128544; 128545; 129324;
           128520; 128127; 128128; 128078; 128148; 128560; 128552; 128561 ]%N.
Definition EMOJI_neutral : re :=
  one_of [ 128528; 128529; 128566; 129300; 129320; 129488; 128527; 128580; 128556;
           129317 ]%N.

(** [\b\w+\b] *)
Definition word_token : re := seqs [Wb; plus (Cls is_word); Wb].

(** The score of one word, given the word before it. *)
Definition word_score (prev : option str) (word : str) : option Q :=
  (* Check for negation before the word *)
  let negated :=
    match prev with
    | Some p => existsb (fun neg => str_in neg p) NEGATORS
    | None => false
    end in
  (* Check for intensifier before the word *)
  let intensity :=
    match prev with
    | Some p => get (lookup p INTENSIFIERS) 1
    | None => 1
    end in
  let adjust (base : Q) : Q :=
    let score := base * intensity in
    if negated then - score * (1 # 2) else score in
  (* Get word score *)
  match lookup word POSITIVE_WORDS with
  | Some v => Some (adjust v)
  | None =>
      match lookup word NEGATIVE_WORDS with
      | Some v => Some (adjust v)
      | None => None
      end
  end.

(** The loop over [words], [prev] being [words[i-1]]. *)
Fixpoint word_scores (prev : option str) (words : list str) : list Q :=
  match words with
  | [] => []
  | word :: rest =>
      match word_score prev word with
      | Some v => v :: word_scores (Some word) rest
      | None => word_scores (Some word) rest
      end
  end.

Definition _lexicon_analysis (text : str) : result (option Q) :=
  let words := findall word_token (lower text) in
  if negb (nonempty words) then Ok None else
  let scores := word_scores None words in
  if negb (nonempty scores) then Ok (Some 0) else
  (* Normalize to -1 to 1 range *)
  v <- pydiv (sumQ scores) (Qmax (Q_of_Z (len scores)) (Q_of_Z (len words) / 5)) ;;
  Ok (Some v).

Definition clamp1 (score : Q) : Q := Qmax (- (1)) (Qmin 1 score).

Definition _emoji_analysis (text : str) : result (option Q) :=
  let positive_count := len (findall EMOJI_positive text) in
  let negative_count := len (findall EMOJI_negative text) in
  let neutral_count := len (findall EMOJI_neutral text) in
  let total := (positive_count + negative_count + neutral_count)%Z in
  if (total =? 0)%Z then Ok None else
  (* Calculate weighted score *)
  score <- pydiv (Q_of_Z positive_count * (8 # 10) - Q_of_Z negative_count * (8 # 10))
                 (Q_of_Z total) ;;
  Ok (Some (clamp1 score)).

Definition positive_patterns : list re :=
  [ seqs [Wb; alts [text "lol"; text "lmao"; text "haha"; text "hehe"]; Wb];
    seqs [Wb; text "thank"; opt (alts [text "s"; text "you"]); Wb];
    seqs [Wb; text "congrat"; opt (alts [text "s"; text "ulations"]); Wb];
    seqs [Wb; text "well done"; Wb];
    seqs [Wb; text "good "; alts [text "job"; text "work"]; Wb] ].

Definition negative_patterns : list re :=
  [ seqs [Wb; alts [text "ugh"; text "ew"; text "yuck"]; Wb];
    seqs [Wb; text "unfortunately"; Wb];
    seqs [Wb; text "waste of"; Wb];
    seqs [Wb; alts [text "can't"; text "cannot"]; text " stand"; Wb] ].

(** The running [score] and [indicators] of [_pattern_analysis]. *)
Definition tally : Type := (Q * Z)%type.

Definition _pattern_analysis (text : str) : result (option Q) :=
  let st : tally := (0, 0%Z) in
  let text_lower := lower text in
  (* Exclamation marks *)
  let exclamation_count := count_char (ch "!") text in
  let st :=
    if (exclamation_count >? 0)%Z
    then (fst st + Qmin (Q_of_Z exclamation_count * (5 # 100)) (2 # 10), (snd st + 1)%Z)
    else st in
  (* Question marks might indicate uncertainty *)
  let question_count := count_char (ch "?") text in
  let st :=
    if (question_count >? 0)%Z
    then (fst st - Qmin (Q_of_Z question_count * (2 # 100)) (1 # 10), (snd st + 1)%Z)
    else st in
  (* ALL CAPS *)
  let words := split text in
  let caps_words := len (filter (fun w => isupper w && (len w >? 2)%Z)%bool words) in
  st <-
    (if (caps_words >? 0)%Z
     then ratio <- pydiv (Q_of_Z caps_words) (Q_of_Z (Z.max (len words) 1)) ;;
          Ok (fst st + (1 # 10) * ratio, (snd st + 1)%Z)
     else Ok st) ;;
  (* Check for common positive patterns *)
  let st :=
    fold_left (fun (st : tally) pattern =>
                 if search pattern text_lower
                 then (fst st + (2 # 10), (snd st + 1)%Z) else st)
              positive_patterns st in
  (* Check for negative patterns *)
  let st :=
    fold_left (fun (st : tally) pattern =>
                 if search pattern text_lower
                 then (fst st - (2 # 10), (snd st + 1)%Z) else st)
              negative_patterns st in
  if (snd st =? 0)%Z then Ok None else Ok (Some (clamp1 (fst st))).

Definition is_zero (q : Q) : bool := Qeq_bool q 0.

Definition _calculate_confidence (text : str) (valid_scores : list (Q * Q)) : Q :=
  let confidence := 1 # 2 in
  (* More text = higher confidence *)
  let word_count := len (split text) in
  let confidence :=
    if (word_count >? 50)%Z then confidence + (2 # 10)
    else if (word_count >? 20)%Z then confidence + (1 # 10)
    else if (word_count <? 5)%Z then confidence - (1 # 10)
    else confidence in
  (* More signals = higher confidence *)
  let signal_count := len valid_scores in
  let confidence := confidence + Q_of_Z signal_count * (1 # 10) in
  (* Agreement between methods = higher confidence *)
  let confidence :=
    if (len valid_scores >=? 2)%Z then
      let scores_only := map fst valid_scores in
      let nonzero := filter (fun s => negb (is_zero s)) scores_only in
      if (forallb (fun s => Qgtb s 0) nonzero || forallb (fun s => Qltb s 0) nonzero)%bool
      then confidence + (15 # 100) else confidence
    else confidence in
  Qmin (Qmax confidence (1 # 10)) 1.

Inductive Label : Type := positive | negative | neutral.

Record Breakdown : Type := mkBreakdown {
  lexicon : Q;
  emoji : Q;
  pattern : Q
}.

Record SentimentResult : Type := mkSentimentResult {
  overall : Q;
  confidence : Q;
  label : Label;
  breakdown : option Breakdown       (* [None] is the empty dictionary *)
}.

(** [round(score, 3) if score else 0] *)
Definition shown (score : option Q) : Q :=
  match score with
  | Some v => if is_zero v then 0 else round v 3
  | None => 0
  end.

Definition analyze (text : str) : result SentimentResult :=
  if (negb (nonempty text) || negb (nonempty (strip text)))%bool
  then Ok {| overall := 0; confidence := 0; label := neutral; breakdown := None |}
  else
  (* Normalize text *)
  let text := strip text in
  (* Analyze using multiple methods *)
  lexicon_score <- _lexicon_analysis text ;;
  emoji_score <- _emoji_analysis text ;;
  pattern_score <- _pattern_analysis text ;;
  (* Combine scores (weighted) *)
  let scores := [ (lexicon_score, 1 # 2); (emoji_score, 1 # 4); (pattern_score, 1 # 4) ] in
  (* Filter out None scores *)
  let valid_scores :=
    flat_map (fun sw => match fst sw with Some v => [(v, snd sw)] | None => [] end)
             scores in
  overall <-
    (if negb (nonempty valid_scores) then Ok 0
     else let total_weight := sumQ (map snd valid_scores) in
          pydiv (sumQ (map (fun sw => fst sw * snd sw) valid_scores)) total_weight) ;;
  (* Calculate confidence *)
  let confidence := _calculate_confidence text valid_scores in
  (* Determine label *)
  let label :=
    if Qgtb overall (2 # 10) then positive
    else if Qltb overall (- (2 # 10)) then negative
    else neutral in
  Ok {| overall := round overall 3;
        confidence := round confidence 3;
        label := label;
        breakdown := Some {| lexicon := shown lexicon_score;
                             emoji := shown emoji_score;
                             pattern := shown pattern_score |} |}.

Definition analyze_batch (texts : list str) : result (list SentimentResult) :=
  mapM analyze texts.

End SentimentAnalyzer.

(** ** interest_extractor.py *)

Module InterestExtractor.

Definition INTEREST_CATEGORIES : list (str * list str) :=
  map (fun ck => (lit (fst ck), map lit (snd ck)))
    [ ("technology",
       [ "tech"; "coding"; "programming"; "developer"; "software"; "hardware";
         "ai"; "artificial intelligence"; "machine learning"; "ml"; "data science";
         "blockchain"; "crypto"; "web3"; "nft"; "startup"; "saas"; "api";
         "javascript"; "python"; "react"; "node"; "ios"; "android"; "app";
         "cloud"; "devops"; "cybersecurity"; "hacking"; "opensource" ]);
      ("business",
       [ "entrepreneur"; "entrepreneurship"; "startup"; "founder"; "ceo"; "cto";
         "business"; "marketing"; "sales"; "growth"; "revenue"; "investment";
         "venture"; "vc"; "funding"; "money"; "finance"; "fintech"; "banking";
         "stocks"; "trading"; "real estate"; "consulting"; "strategy" ]);
      ("creative",
       [ "design"; "designer"; "art"; "artist"; "creative"; "photography";
         "photo"; "video"; "film"; "music"; "musician"; "producer"; "dj";
         "writing"; "writer"; "author"; "content"; "creator"; "influencer";
         "fashion"; "style"; "aesthetic"; "visual"; "graphic"; "ui"; "ux" ]);
      ("sports",
       [ "fitness"; "gym"; "workout"; "training"; "sports"; "athlete";
         "running"; "marathon"; "cycling"; "swimming"; "yoga"; "meditation";
         "football"; "soccer"; "basketball"; "baseball"; "tennis"; "golf";
         "crossfit"; "bodybuilding"; "weightlifting"; "hiking"; "climbing" ]);
      ("entertainment",
       [ "gaming"; "gamer"; "esports"; "twitch"; "streaming"; "youtube";
         "movies"; "film"; "tv"; "netflix"; "anime"; "manga"; "comics";
         "music"; "concerts"; "festivals"; "podcast"; "comedy"; "memes" ]);
      ("lifestyle",
       [ "travel"; "adventure"; "wanderlust"; "backpacking"; "foodie"; "food";
         "cooking"; "chef"; "wine"; "coffee"; "wellness"; "health"; "vegan";
         "sustainable"; "minimalist"; "luxury"; "lifestyle"; "parenting"; "family" ]);
      ("education",
       [ "learning"; "education"; "teacher"; "professor"; "student"; "university";
         "research"; "science"; "physics"; "chemistry"; "biology"; "math";
         "history"; "philosophy"; "psychology"; "sociology"; "economics" ]);
      ("social",
       [ "activism"; "social"; "community"; "nonprofit"; "charity"; "volunteer";
         "politics"; "environment"; "climate"; "sustainability"; "diversity";
         "inclusion"; "equality"; "justice"; "human rights"; "mental health" ])
    ]%string.

(** The reverse lookup built by [__init__]: a keyword listed under two
    categories ends up under the later one. *)
Definition _keyword_to_category : list (str * str) :=
  fold_left
    (fun d ck =>
       fold_left (fun d keyword => dict_set (lower keyword) (fst ck) d) (snd ck) d)
    INTEREST_CATEGORIES [].

Definition general : str := lit "general".

Definition get_category (interest : str) : str :=
  get (lookup (lower interest) _keyword_to_category) general.

(** [a & b] on sets. *)
Definition inter (a b : list str) : list str := filter (fun x => mem x b) a.

(** [f"[{cat}]"] *)
Definition marker (cat : str) : str := lit "[" ++ cat ++ lit "]".

Definition find_common_interests (interests1 interests2 : list str) : list str :=
  let set1 := set_of (map lower interests1) in
  let set2 := set_of (map lower interests2) in
  (* Direct matches *)
  let common := inter set1 set2 in
  (* Category matches (same category but different keyword) *)
  let categories1 := set_of (map get_category interests1) in
  let categories2 := set_of (map get_category interests2) in
  (* Add category-level matches *)
  fold_left
    (fun common cat => if negb (str_eqb cat general) then common ++ [marker cat] else common)
    (inter categories1 categories2) common.

(** [#(\w+)]: [findall] returns the group, the match without its [#]. *)
Definition hashtag : re := Seq (chr "#") (plus (Cls is_word)).
Definition hashtags_of (text : str) : list str := map (skipn 1) (findall hashtag text).

Definition COMMON_WORDS : list str :=
  map lit [ "the"; "and"; "for"; "with"; "this"; "that" ]%string.

(** The capitalized words of the loop over [words], [prev] being
    [words[i-1]]: the first word and a word after a full stop are skipped. *)
Fixpoint entities_from (prev : option str) (words : list str) : list str :=
  match words with
  | [] => []
  | word :: rest =>
      let skipped :=
        match prev with
        | None => true
        | Some p => endswith_char (ch ".") p
        end in
      let clean_word := filter is_word word in
      let found :=
        if skipped then []
        else if (match clean_word with c :: _ => is_upper c | [] => false end
                 && (len clean_word >? 2)%Z)%bool
        then if negb (mem (lower clean_word) COMMON_WORDS) then [lower clean_word] else []
        else [] in
      found ++ entities_from (Some word) rest
  end.

(** Everything [extract] adds to [interests], in the order it adds it. *)
Definition candidates (text : str) : list str :=
  let text_lower := lower text in
  (* Extract hashtags *)
  filter (fun clean_tag => (len clean_tag >? 2)%Z) (map lower (hashtags_of text))
  (* Extract keywords from categories *)
  ++ filter (fun keyword => str_in keyword text_lower)
            (flat_map snd INTEREST_CATEGORIES)
  (* Extract entities *)
  ++ entities_from None (split text).

(** The relevance score of one interest. *)
Definition interest_score (text : str) (interest : str) : Z :=
  let score := 0%Z in
  (* Count occurrences *)
  let score := (score + count interest text * 2)%Z in
  (* Bonus if in known categories *)
  let score :=
    match lookup interest _keyword_to_category with
    | Some _ => (score + 5)%Z
    | None => score
    end in
  (* Bonus for longer interests *)
  if (len interest >? 8)%Z then (score + 2)%Z else score.

(** [x] may stand before [y] in descending order of the score. *)
Definition higher {A : Type} (x y : A * Z) : bool := (snd y <=? snd x)%Z.

Definition _rank_interests (interests : list str) (text : str) : list str :=
  if negb (nonempty interests) then [] else
  let scored := map (fun interest => (interest, interest_score text interest)) interests in
  (* Sort by score and return interests *)
  map fst (sort higher scored).

Definition extract (text : str) : list str :=
  if negb (nonempty text) then [] else
  let interests := set_of (candidates text) in
  (* Limit and sort by relevance *)
  firstn 15 (_rank_interests interests (lower text)).

Record KeywordMatch : Type := mkKeywordMatch {
  keyword : str;
  occurrences : Z                       (* the key "count" *)
}.

Record Topic : Type := mkTopic {
  category : str;
  matches : list KeywordMatch;
  confidence : Q
}.

(** The topic of one category, if any of its keywords occurs.  The counter
    [category_scores] of the source is written but never read. *)
Definition category_topic (text_lower : str) (ck : str * list str) : list Topic :=
  let matches :=
    flat_map (fun keyword =>
                (* Count occurrences *)
                let n := count keyword text_lower in
                if (n >? 0)%Z then [mkKeywordMatch keyword n] else [])
             (snd ck) in
  if nonempty matches then
    (* Calculate confidence based on matches *)
    let confidence := Qmin (Q_of_Z (len matches) / 5) 1 in
    [ {| category := fst ck;
         matches := firstn 5 (sort (fun x y => (occurrences y <=? occurrences x)%Z) matches);
         confidence := round confidence 2 |} ]
  else [].

Definition extract_topics (text : str) : list Topic :=
  if negb (nonempty text) then [] else
  let text_lower := lower text in
  (* Count category matches *)
  let topics := flat_map (category_topic text_lower) INTEREST_CATEGORIES in
  (* Sort by confidence *)
  let topics := sort (fun x y => Qle_bool (confidence y) (confidence x)) topics in
  firstn 5 topics.

(** One step of [categorize_interests]: the interest goes to the end of
    the list of its category, which is created when missing. *)
Definition categorize_step (categorized : list (str * list str)) (interest : str)
    : list (str * list str) :=
  let category := get_category interest in
  let categorized :=
    match lookup category categorized with
    | None => dict_set category [] categorized
    | Some _ => categorized
    end in
  dict_set category (get (lookup category categorized) [] ++ [interest]) categorized.

Definition categorize_interests (interests : list str) : list (str * list str) :=
  fold_left categorize_step interests [].

End InterestExtractor.

(** ** profile_scorer.py *)

Module ProfileScorer.

(** The keys of [profile_data] that [score] reads; a profile may carry
    others, which [score] ignores. *)
Record ProfileData : Type := mkProfileData {
  bot_score : option Q;
  metadata : option Metadata;
  interests : option (list str);
  target_interests : option (list str);
  sentiment_overall : option Q        (* [sentiment["overall"]], when present *)
}.

Inductive Recommendation : Type := high_priority | good_target | consider | skip.
Inductive Tier : Type := S | A | B | C | D.

Record Components : Type := mkComponents {
  authenticity : Q;
  engagement : Q;
  relevance : Q;
  accessibility : Q
}.

Record QualityScore : Type := mkQualityScore {
  overall : Q;
  components : Components;
  recommendation : Recommendation;
  recommendation_text : str;
  tier : Tier
}.

Definition clamp100 (score : Z) : Z := Z.max 0 (Z.min 100 score).

Definition _calculate_engagement_score (metadata : Metadata) : result Z :=
  let score := 50%Z in
  let followers := get (followers metadata) 0%Z in
  let following := get (following metadata) 0%Z in
  let posts_count := get (posts_count metadata) 0%Z in
  let verified := get (verified metadata) false in
  (* Verified accounts get a boost *)
  let score := if verified then (score + 20)%Z else score in
  (* Follower count contribution *)
  let score :=
    if (followers >? 10000)%Z then (score + 15)%Z
    else if (followers >? 1000)%Z then (score + 10)%Z
    else if (followers >? 100)%Z then (score + 5)%Z
    else if (followers <? 10)%Z then (score - 10)%Z
    else score in
  (* Follower/following ratio *)
  score <-
    (if (following >? 0)%Z
     then ratio <- pydiv (Q_of_Z followers) (Q_of_Z following) ;;
          Ok (if Qgtb ratio 2 then (score + 15)%Z
              else if Qgtb ratio 1 then (score + 10)%Z
              else if Qltb ratio (1 # 10) then (score - 15)%Z
              else score)
     else Ok score) ;;
  (* Activity level *)
  let score :=
    if (posts_count >? 100)%Z then (score + 10)%Z
    else if (posts_count >? 20)%Z then (score + 5)%Z
    else if (posts_count <? 5)%Z then (score - 10)%Z
    else score in
  Ok (clamp100 score).

Definition _calculate_relevance_score (profile_interests target_interests : list str) : Z :=
  if negb (nonempty profile_interests) then 30%Z else
  if negb (nonempty target_interests) then 50%Z else
  let score := 30%Z in
  (* Find matches *)
  let profile_set := set_of (map lower profile_interests) in
  let target_set := set_of (map lower target_interests) in
  (* Direct matches *)
  let matches := InterestExtractor.inter profile_set target_set in
  let score := (score + len matches * 15)%Z in
  (* Partial matches (substring) *)
  let score :=
    fold_left
      (fun score p_interest =>
         fold_left
           (fun score t_interest =>
              if (str_in p_interest t_interest || str_in t_interest p_interest)%bool
              then (score + 5)%Z else score)
           target_set score)
      profile_set score in
  clamp100 score.

Definition _calculate_accessibility_score (metadata : Metadata)
    (sentiment_overall : option Q) : Z :=
  let score := 50%Z in
  (* Positive sentiment = more likely to respond positively *)
  let overall_sentiment := get sentiment_overall 0 in
  let score :=
    if Qgtb overall_sentiment (3 # 10) then (score + 20)%Z
    else if Qgtb overall_sentiment 0 then (score + 10)%Z
    else if Qltb overall_sentiment (- (3 # 10)) then (score - 15)%Z
    else score in
  (* Verified accounts might be harder to reach *)
  let score := if get (verified metadata) false then (score - 10)%Z else score in
  (* High follower count = harder to get attention *)
  let followers := get (followers metadata) 0%Z in
  let score :=
    if (followers >? 100000)%Z then (score - 20)%Z
    else if (followers >? 10000)%Z then (score - 10)%Z
    else if (followers <? 100)%Z then (score + 10)%Z
    else score in
  (* Active accounts more likely to respond *)
  let posts_count := get (posts_count metadata) 0%Z in
  let score :=
    if (posts_count >? 50)%Z then (score + 10)%Z
    else if (posts_count <? 5)%Z then (score - 10)%Z
    else score in
  clamp100 score.

Definition _get_tier (score : Q) : Tier :=
  if Qle_bool 80 score then S
  else if Qle_bool 65 score then A
  else if Qle_bool 50 score then B
  else if Qle_bool 35 score then C
  else D.

Definition score (profile_data : ProfileData) : result QualityScore :=
  (* 1. Authenticity score (inverse of bot score) *)
  let bot_score := get (bot_score profile_data) 50 in
  let authenticity := Qmax 0 (100 - bot_score) in
  (* 2. Engagement score *)
  let metadata := get (metadata profile_data) empty_metadata in
  engagement <- _calculate_engagement_score metadata ;;
  (* 3. Relevance score *)
  let interests := get (interests profile_data) [] in
  let target_interests := get (target_interests profile_data) [] in
  let relevance := _calculate_relevance_score interests target_interests in
  (* 4. Accessibility score *)
  let accessibility :=
    _calculate_accessibility_score metadata (sentiment_overall profile_data) in
  (* Calculate weighted overall score *)
  let overall :=
    sumQ [ authenticity * (30 # 100); Q_of_Z engagement * (25 # 100);
           Q_of_Z relevance * (25 # 100); Q_of_Z accessibility * (20 # 100) ] in
  (* Determine recommendation *)
  let '(recommendation, recommendation_text) :=
    if Qle_bool 75 overall
    then (high_priority, lit "Excellent target - prioritize outreach")
    else if Qle_bool 50 overall
    then (good_target, lit "Good target - include in campaign")
    else if Qle_bool 30 overall
    then (consider, lit "Moderate target - consider for larger campaigns")
    else (skip, lit "Low quality target - skip or deprioritize") in
  Ok {| overall := round overall 1;
        components := {| authenticity := round authenticity 1;
                         engagement := round (Q_of_Z engagement) 1;
                         relevance := round (Q_of_Z relevance) 1;
                         accessibility := round (Q_of_Z accessibility) 1 |};
        recommendation := recommendation;
        recommendation_text := recommendation_text;
        tier := _get_tier overall |}.

(** A profile with its [quality_score] attached. *)
Definition Scored : Type := (ProfileData * QualityScore)%type.
Definition quality_score (x : Scored) : QualityScore := snd x.

Definition attach (profile : ProfileData) : result Scored :=
  score_result <- score profile ;; Ok (profile, score_result).

(** [x] may stand before [y] in descending order of [overall]. *)
Definition before (x y : Scored) : bool :=
  Qle_bool (overall (quality_score y)) (overall (quality_score x)).

Definition rank_profiles (profiles : list ProfileData) : result (list Scored) :=
  scored <- mapM attach profiles ;;
  (* Sort by overall score descending *)
  Ok (sort before scored).

Definition filter_profiles (profiles : list ProfileData) (min_score : Q) (max_count : nat)
    : result (list Scored) :=
  ranked <- rank_profiles profiles ;;
  (* Filter by minimum score *)
  let filtered := filter (fun p => Qle_bool min_score (overall (quality_score p))) ranked in
  (* Limit count *)
  Ok (firstn max_count filtered).

End ProfileScorer.

(** ** main.py: the helpers of the service *)

Module Main.

Inductive Style : Type := casual | formal | balanced.

Definition CASUAL_WORDS : list str :=
  map lit [ "lol"; "omg"; "tbh"; "ngl"; "fr"; "btw"; "dm"; "haha" ]%string.
Definition FORMAL_WORDS : list str :=
  map lit [ "therefore"; "however"; "furthermore"; "regarding";
            "sincerely"; "professional"; "opportunity" ]%string.

Definition _detect_communication_style (text : str) : Style :=
  if negb (nonempty text) then balanced else
  let text_lower := lower text in
  (* Casual indicators *)
  let casual_count := len (filter (fun word => str_in word text_lower) CASUAL_WORDS) in
  (* Formal indicators *)
  let formal_count := len (filter (fun word => str_in word text_lower) FORMAL_WORDS) in
  (* Emoji count *)
  let emoji_count := len (filter (N.ltb 127462) text) in
  if ((casual_count >? formal_count * 2)%Z || (emoji_count >? 3)%Z)%bool then casual
  else if (formal_count >? casual_count * 2)%Z then formal
  else balanced.

Inductive Activity : Type :=
  unknown | very_active | active | moderate | occasional | inactive.

Definition _analyze_activity_pattern {A : Type} (posts : option (list A)) : Activity :=
  if negb (nonempty (get posts [])) then unknown else
  let count := len (get posts []) in
  if (count >? 50)%Z then very_active
  else if (count >? 20)%Z then active
  else if (count >? 5)%Z then moderate
  else if (count >? 0)%Z then occasional
  else inactive.

(** What [generate_message_context] reads of its request. *)
Record MessageContextRequest : Type := mkMessageContextRequest {
  profile_bio : option str;
  profile_posts : option (list str);    (* the contents of the posts *)
  profile_verified : option bool;       (* [metadata.verified], when there is metadata *)
  campaign_interests : option (list str)
}.

Record MessageContext : Type := mkMessageContext {
  recommended_tone : Style;
  talking_points : list str;
  common_interests : list str;
  profile_interests : list str;
  personalization_score : Z
}.

(** The bio, when not empty, and the contents of the posts, joined by blanks. *)
Definition combined_text (bio : option str) (posts : option (list str)) : str :=
  join (lit " ")
       ((if nonempty (get bio []) then [get bio []] else [])
        ++ (if nonempty (get posts []) then get posts [] else [])).

Definition generate_message_context (request : MessageContextRequest) : MessageContext :=
  (* Analyze the profile *)
  let combined_text := combined_text (profile_bio request) (profile_posts request) in
  (* Extract interests *)
  let interests :=
    if nonempty combined_text then InterestExtractor.extract combined_text else [] in
  (* Find common interests with campaign *)
  let common_interests :=
    if nonempty (get (campaign_interests request) [])
    then filter (fun i => mem i (get (campaign_interests request) [])) interests
    else [] in
  (* Detect communication style *)
  let style := _detect_communication_style combined_text in
  (* Generate talking points *)
  let talking_points :=
    (match common_interests with
     | first :: _ => [lit "Common interest in " ++ first]
     | [] => []
     end)
    ++ (match interests with
        | first :: _ => [lit "Their focus on " ++ first]
        | [] => []
        end)
    ++ (if get (profile_verified request) false
        then [lit "Acknowledge their verified status"] else []) in
  {| recommended_tone := style;
     talking_points := talking_points;
     common_interests := common_interests;
     profile_interests := firstn 5 interests;
     personalization_score := (len common_interests * 20 + len talking_points * 10)%Z |}.

End Main.

(** * The vocabulary of the properties *)

(** Every increment the bot detector applies is a non-negative multiple
    of five, so every sub-score is one too. *)
Definition fives (st : scored) : Prop := (0 <= fst st)%Z /\ (5 | fst st)%Z.

(** What every sub-analysis of the bot detector returns. *)
Definition sub_score (st : scored) : Prop :=
  (0 <= fst st <= 100)%Z /\ (5 | fst st)%Z.

(** The weighted sum [BotDetector.analyze] forms from the five sub-scores. *)
Definition final_score (cs : BotDetector.ComponentScores) : Q :=
  sumQ (map (fun sw => Q_of_Z (fst sw) * snd sw)
            (combine [BotDetector.cs_username cs; BotDetector.cs_bio cs;
                      BotDetector.cs_metrics cs; BotDetector.cs_content cs;
                      BotDetector.cs_temporal cs] BotDetector.weights)).

Definition sub_scores (cs : BotDetector.ComponentScores) : Prop :=
  sub_score (BotDetector.cs_username cs, []) /\ sub_score (BotDetector.cs_bio cs, []) /\
  sub_score (BotDetector.cs_metrics cs, []) /\ sub_score (BotDetector.cs_content cs, []) /\
  sub_score (BotDetector.cs_temporal cs, []).

(** The bio sub-score of a non-empty bio, as a sum of its six parts. *)
Definition bio_points (bio : str) : Z :=
  let s := BotDetector.spam_matches (lower bio) in
  let g := BotDetector.generic_matches (lower bio) in
  ((if s >? 0 then s * 20 else 0)
   + (if g >? 0 then g * 10 else 0)
   + (if BotDetector.emoji_count bio >? 10 then 15 else 0)
   + (if count_char (ch "#") bio >? 5 then 20 else 0)
   + (if BotDetector.url_count bio >? 2 then 25 else 0)
   + (if len bio <? 10 then 15 else 0))%Z.

(** The length of the match of [https?://] at the head of a text. *)
Definition url_len (inp : str) : option nat :=
  if startswith (lit "https://") inp then Some 8%nat
  else if startswith (lit "http://") inp then Some 7%nat
  else None.

(** The sentiment signals that did not abstain, with their weights. *)
Definition valid_scores_of (lexicon_score emoji_score pattern_score : option Q)
    : list (Q * Q) :=
  flat_map (fun sw => match fst sw with Some v => [(v, snd sw)] | None => [] end)
           [ (lexicon_score, 1 # 2); (emoji_score, 1 # 4); (pattern_score, 1 # 4) ].

(** [x] may stand before [y]: the comparison of [l.sort(key=key, reverse=True)]. *)
Definition desc {A : Type} (key : A -> Q) (x y : A) : bool := Qle_bool (key y) (key x).
Definition not_below {A : Type} (key : A -> Q) (x y : A) : Prop := key y <= key x.

(** The elements whose key is [v], in the order they stand in. *)
Definition with_key {A : Type} (key : A -> Q) (v : Q) (l : list A) : list A :=
  filter (fun x => Qeq_bool (key x) v) l.

(** The key [rank_profiles] sorts by. *)
Definition overall_of (x : ProfileScorer.Scored) : Q :=
  ProfileScorer.overall (ProfileScorer.quality_score x).

(** Scenario D: empty bio, the two metrics, no posts. *)
Definition scenario_D_metadata : Metadata :=
  mkMetadata (Some 10%Z) (Some 5000%Z) None None.

Definition scenario_D : Profile :=
  mkProfile None (Some []) (Some scenario_D_metadata) (Some []).

(** The same profile under a username. *)
Definition scenario_D_named (name : str) : Profile :=
  mkProfile (Some name) (Some []) (Some scenario_D_metadata) (Some []).

(** What goes into [ProfileScorer.score]: the same metadata and the bot
    score computed from the profile. *)
Definition scenario_D_scored (bot : BotDetector.BotResult) : ProfileScorer.ProfileData :=
  ProfileScorer.mkProfileData (Some (BotDetector.score bot)) (Some scenario_D_metadata)
                              None None None.

(** The two profiles of [test_verified_accounts_lower_score]. *)
Definition test_verified : Profile :=
  mkProfile (Some (lit "official_brand")) None
            (Some (mkMetadata None None None (Some true))) None.
Definition test_unverified : Profile :=
  mkProfile (Some (lit "random_account")) None
            (Some (mkMetadata None None None (Some false))) None.

(** Closes a divisibility or bound goal on a literal increment. *)
Ltac five := solve [ lia | match goal with |- (5 | ?p)%Z => exists (p / 5)%Z; reflexivity end ].

(** Decides a closed comparison of rationals. *)
Ltac qle := apply Qle_bool_imp_le; vm_compute; reflexivity.

(** The five sub-scores of a bot result, as a list. *)
Definition component_list (cs : BotDetector.ComponentScores) : list Z :=
  [BotDetector.cs_username cs; BotDetector.cs_bio cs; BotDetector.cs_metrics cs;
   BotDetector.cs_content cs; BotDetector.cs_temporal cs].

(** The overall sentiment before rounding: the weighted average of the
    signals that did not abstain, 0 when all abstained. *)
Definition weighted_overall (lexicon_score emoji_score pattern_score : option Q) : Q :=
  let valid_scores := valid_scores_of lexicon_score emoji_score pattern_score in
  if negb (nonempty valid_scores) then 0
  else sumQ (map (fun sw => fst sw * snd sw) valid_scores) / sumQ (map snd valid_scores).

(** [lo <= v <= hi], decided. *)
Definition within (lo hi v : Q) : bool := (Qle_bool lo v && Qle_bool v hi)%bool.

(** The number of emoji of the three classes in a text, and the emoji
    score before the clamp. *)
Definition emoji_total (text : str) : Z :=
  (len (findall SentimentAnalyzer.EMOJI_positive text)
   + len (findall SentimentAnalyzer.EMOJI_negative text)
   + len (findall SentimentAnalyzer.EMOJI_neutral text))%Z.

Definition emoji_score (text : str) : Q :=
  (Q_of_Z (len (findall SentimentAnalyzer.EMOJI_positive text)) * (8 # 10)
   - Q_of_Z (len (findall SentimentAnalyzer.EMOJI_negative text)) * (8 # 10))
  / Q_of_Z (emoji_total text).

(** A signal that abstained or lies between the two bounds. *)
Definition signal_within (lo hi : Q) (signal : option Q) : Prop :=
  match signal with
  | Some v => lo <= v /\ v <= hi
  | None => True
  end.

(** The label [analyze] derives from the overall value before rounding. *)
Definition label_of (overall : Q) : SentimentAnalyzer.Label :=
  if Qgtb overall (2 # 10) then SentimentAnalyzer.positive
  else if Qltb overall (- (2 # 10)) then SentimentAnalyzer.negative
  else SentimentAnalyzer.neutral.

(** What [analyze] returns for a blank text. *)
Definition blank_result : SentimentAnalyzer.SentimentResult :=
  SentimentAnalyzer.mkSentimentResult 0 0 SentimentAnalyzer.neutral None.

(** The categories of the table, and "general". *)
Definition category_names : list str := map fst InterestExtractor.INTEREST_CATEGORIES.

(** A keyword of the table is filed under a category that lists it. *)
Definition filed_where_listed (keyword : str) : bool :=
  existsb (fun ck => str_eqb (fst ck) (InterestExtractor.get_category keyword)
                     && mem keyword (snd ck))%bool
          InterestExtractor.INTEREST_CATEGORIES.

(** The interests of a list that fall into a category, in their order. *)
Definition of_category (category : str) (interests : list str) : list str :=
  filter (fun i => str_eqb (InterestExtractor.get_category i) category) interests.

(** The keyword occurs in the lowercased text. *)
Definition occurs (text_lower keyword : str) : bool := (count keyword text_lower >? 0)%Z.

(** A well-formed topic of a text: its category is one of the table; its
    matches, between one and five, are keywords of that category with the
    number of times each occurs in the text, which is not zero, the most
    frequent first; a keyword of the category that occurs and is not
    listed occurs no more often than any of the five listed; the
    confidence is a fifth of the number of keywords of the category that
    occur, at most 1, and so lies in [0.2, 1]. *)
Definition topic_ok (text_lower : str) (t : InterestExtractor.Topic) : Prop :=
  exists keywords,
    In (InterestExtractor.category t, keywords) InterestExtractor.INTEREST_CATEGORIES /\
    Forall (fun m => In (InterestExtractor.keyword m) keywords /\
                     InterestExtractor.occurrences m
                     = count (InterestExtractor.keyword m) text_lower /\
                     (0 < InterestExtractor.occurrences m)%Z)
           (InterestExtractor.matches t) /\
    (1 <= length (InterestExtractor.matches t) <= 5)%nat /\
    StronglySorted
      (fun x y => (InterestExtractor.occurrences y <= InterestExtractor.occurrences x)%Z)
      (InterestExtractor.matches t) /\
    (forall k, In k keywords -> occurs text_lower k = true ->
               In k (map InterestExtractor.keyword (InterestExtractor.matches t)) \/
               (length (InterestExtractor.matches t) = 5%nat /\
                Forall (fun m => (count k text_lower <= InterestExtractor.occurrences m)%Z)
                       (InterestExtractor.matches t))) /\
    InterestExtractor.confidence t
    = round (Qmin (Q_of_Z (len (filter (occurs text_lower) keywords)) / 5) 1) 2 /\
    (2 # 10) <= InterestExtractor.confidence t /\ InterestExtractor.confidence t <= 1.

(** The overall quality before rounding, from the four components. *)
Definition quality_raw (authenticity : Q) (engagement relevance accessibility : Z) : Q :=
  sumQ [ authenticity * (30 # 100); Q_of_Z engagement * (25 # 100);
         Q_of_Z relevance * (25 # 100); Q_of_Z accessibility * (20 # 100) ].

(** The recommendation [score] derives from the overall quality. *)
Definition recommendation_of (overall : Q) : ProfileScorer.Recommendation :=
  if Qle_bool 75 overall then ProfileScorer.high_priority
  else if Qle_bool 50 overall then ProfileScorer.good_target
  else if Qle_bool 30 overall then ProfileScorer.consider
  else ProfileScorer.skip.

(** The four components of a quality score lie in [0, 100]. *)
Definition components_in_range (c : ProfileScorer.Components) : Prop :=
  (0 <= ProfileScorer.authenticity c /\ ProfileScorer.authenticity c <= 100) /\
  (0 <= ProfileScorer.engagement c /\ ProfileScorer.engagement c <= 100) /\
  (30 <= ProfileScorer.relevance c /\ ProfileScorer.relevance c <= 100) /\
  (0 <= ProfileScorer.accessibility c /\ ProfileScorer.accessibility c <= 100).

(** What a dictionary of [categorize_interests] holds after the interests [done]. *)
Definition holds (categorized : list (str * list str)) (done : list str) : Prop :=
  forall category,
    lookup category categorized
    = match of_category category done with
      | [] => None
      | listed => Some listed
      end.

(** A profile as [analyze_profile] scores it. *)
Definition sample_profile_data : ProfileScorer.ProfileData :=
  ProfileScorer.mkProfileData
    (Some 24)
    (Some (mkMetadata (Some 5200%Z) (Some 310%Z) (Some 140%Z) (Some true)))
    (Some [lit "python"; lit "hiking"])
    (Some [lit "Python"; lit "travel"])
    (Some (3 # 10)).

(** ** Input that nothing has checked *)


(** The account is not verified and one of the three counts is [None]. *)
Definition holds_none (d : Untyped.MetadataDict) : Prop :=
  Untyped.truth (Untyped.dict_get (Untyped.verified d) false) = false /\
  (Untyped.followers d = Some None \/ Untyped.following d = Some None \/
   Untyped.posts_count d = Some None).

(** [followers / following] is computed and no float holds it. *)
Definition ratio_too_large (d : Untyped.MetadataDict) : Prop :=
  exists x y,
    Untyped.dict_get (Untyped.followers d) 0%Z = Some x /\
    Untyped.dict_get (Untyped.following d) 0%Z = Some y /\
    (0 < y)%Z /\ Untyped.float_limit <= Qabs (Q_of_Z x / Q_of_Z y).

(** Some timestamp is aware and some is naive. *)
Definition mixed (l : list Untyped.pydatetime) : Prop :=
  exists a b, In a l /\ In b l /\ Untyped.aware a <> Untyped.aware b.

(** The metadata dictionary and the timestamps that [analyze] reads. *)
Definition metadata_of (p : Untyped.ProfileDict) : Untyped.MetadataDict :=
  get (Untyped.metadata p) Untyped.empty_dict.
Definition timestamps_in (fromisoformat : str -> option Untyped.pydatetime)
    (p : Untyped.ProfileDict) : list Untyped.pydatetime :=
  Untyped.timestamps_of fromisoformat (get (Untyped.posts p) []).

(** The input of [BotDetector] among the input of [Untyped]: a
    dictionary that holds the four keys only and no [None], seen as a
    [Metadata]; a parser, without the kind of the datetime. *)
Definition well_typed (d : Untyped.MetadataDict) : Prop :=
  Untyped.followers d <> Some None /\ Untyped.following d <> Some None /\
  Untyped.posts_count d <> Some None /\ Untyped.verified d <> Some None /\
  Untyped.other_keys d = false.

Definition present {A : Type} (item : option (option A)) : option A :=
  match item with Some v => v | None => None end.

Definition typed_metadata (d : Untyped.MetadataDict) : Metadata :=
  mkMetadata (present (Untyped.followers d)) (present (Untyped.following d))
             (present (Untyped.posts_count d)) (present (Untyped.verified d)).

Definition typed_profile (p : Untyped.ProfileDict) : Profile :=
  mkProfile (Untyped.username p) (Untyped.bio p)
            (option_map typed_metadata (Untyped.metadata p)) (Untyped.posts p).

Definition typed_parser (fromisoformat : str -> option Untyped.pydatetime) (s : str)
  : option datetime :=
  option_map Untyped.moment (fromisoformat s).

(** The order of [timestamps.sort()] in [BotDetector._analyze_temporal]. *)
Definition by_epoch (a b : datetime) : bool := Qle_bool (epoch a) (epoch b).





(** * Properties *)

(** ** Numbers and errors *)

Lemma Qltb_lt (a b : Q) : Qltb a b = true <-> a < b.
Proof.
  unfold Qltb. rewrite negb_true_iff. split; intro H.
  - apply Qnot_le_lt. intro Hle. apply Qle_bool_iff in Hle. congruence.
  - destruct (Qle_bool b a) eqn:E; [|reflexivity].
    apply Qle_bool_iff in E. exfalso. apply (Qlt_not_le _ _ H E).
Qed.

Lemma Qgtb_gt (a b : Q) : Qgtb a b = true <-> b < a.
Proof. apply Qltb_lt. Qed.

Lemma Qeq_bool_false (q : Q) : ~ q == 0 -> Qeq_bool q 0 = false.
Proof.
  intro H. destruct (Qeq_bool q 0) eqn:E; [|reflexivity].
  apply Qeq_bool_eq in E. contradiction.
Qed.

Lemma pydiv_ok (a b : Q) : ~ b == 0 -> pydiv a b = Ok (a / b).
Proof. intro H. unfold pydiv. now rewrite Qeq_bool_false. Qed.

Lemma Q_of_Z_nonzero (z : Z) : z <> 0%Z -> ~ Q_of_Z z == 0.
Proof.
  intros H E. unfold Q_of_Z, inject_Z, Qeq in E. simpl in E. lia.
Qed.

Lemma len_nonneg {A : Type} (l : list A) : (0 <= len l)%Z.
Proof. unfold len. lia. Qed.

Lemma len_nonempty {A : Type} (l : list A) : nonempty l = true -> (0 < len l)%Z.
Proof. destruct l; [discriminate|]. intros _. unfold len. simpl. lia. Qed.

Lemma len_app {A : Type} (l k : list A) : len (l ++ k) = (len l + len k)%Z.
Proof. unfold len. rewrite length_app. lia. Qed.

(** [round_half_even] never crosses an integer. *)
Lemma round_half_even_le (q : Q) (z : Z) : q <= inject_Z z -> (round_half_even q <= z)%Z.
Proof.
  intro H. unfold round_half_even.
  assert (Hf : (Qfloor q <= z)%Z).
  { rewrite <- (Qfloor_Z z). now apply Qfloor_resp_le. }
  assert (Hstep : inject_Z (Qfloor q) < q -> (Qfloor q + 1 <= z)%Z).
  { intro Hlt. assert (Hq : inject_Z (Qfloor q) < inject_Z z) by (eapply Qlt_le_trans; eauto).
    rewrite <- Zlt_Qlt in Hq. lia. }
  destruct (Qcompare (q - inject_Z (Qfloor q)) (1 # 2)) eqn:E.
  - destruct (Z.even (Qfloor q)); [exact Hf|].
    apply Hstep. apply Qeq_alt in E. lra.
  - exact Hf.
  - apply Hstep. apply Qgt_alt in E. lra.
Qed.

Lemma round_half_even_ge (q : Q) (z : Z) : inject_Z z <= q -> (z <= round_half_even q)%Z.
Proof.
  intro H. unfold round_half_even.
  assert (Hf : (z <= Qfloor q)%Z).
  { rewrite <- (Qfloor_Z z). now apply Qfloor_resp_le. }
  destruct (Qcompare (q - inject_Z (Qfloor q)) (1 # 2));
    [destruct (Z.even (Qfloor q))| |]; lia.
Qed.

Lemma pow10_pos (n : nat) : 0 < inject_Z (10 ^ Z.of_nat n).
Proof.
  replace 0 with (inject_Z 0) by reflexivity. rewrite <- Zlt_Qlt.
  apply Z.pow_pos_nonneg; lia.
Qed.

Lemma Qdiv_mult_cancel (a p : Q) : 0 < p -> a / p * p == a.
Proof. intro H. field. intro E. rewrite E in H. apply (Qlt_irrefl 0 H). Qed.

(** Rounding to [n] digits keeps a number between two bounds that have at
    most [n] digits themselves. *)
Lemma round_bounds (q : Q) (n : nat) (lo hi : Z) :
  inject_Z lo / inject_Z (10 ^ Z.of_nat n) <= q ->
  q <= inject_Z hi / inject_Z (10 ^ Z.of_nat n) ->
  inject_Z lo / inject_Z (10 ^ Z.of_nat n) <= round q n /\
  round q n <= inject_Z hi / inject_Z (10 ^ Z.of_nat n).
Proof.
  intros Hlo Hhi. unfold round.
  pose proof (pow10_pos n) as Hp.
  set (p := inject_Z (10 ^ Z.of_nat n)) in *.
  assert (H1 : inject_Z lo <= q * p).
  { rewrite <- (Qdiv_mult_cancel (inject_Z lo) p Hp).
    apply Qmult_le_compat_r; [exact Hlo | now apply Qlt_le_weak]. }
  assert (H2 : q * p <= inject_Z hi).
  { rewrite <- (Qdiv_mult_cancel (inject_Z hi) p Hp).
    apply Qmult_le_compat_r; [exact Hhi | now apply Qlt_le_weak]. }
  apply round_half_even_ge in H1. apply round_half_even_le in H2.
  rewrite Zle_Qle in H1, H2.
  split; apply Qmult_le_r with (z := p); try exact Hp;
    rewrite !Qdiv_mult_cancel by exact Hp; assumption.
Qed.

(** ** Strings and sets *)

Lemma str_eqb_eq (a b : str) : str_eqb a b = true <-> a = b.
Proof.
  revert b. induction a as [|x a IH]; intros [|y b]; simpl; split; intro H;
    try reflexivity; try discriminate.
  - apply andb_true_iff in H. destruct H as [Hx Hab].
    apply N.eqb_eq in Hx. apply IH in Hab. now subst.
  - injection H as -> ->. rewrite N.eqb_refl. simpl. now apply IH.
Qed.

Lemma str_eqb_refl (a : str) : str_eqb a a = true.
Proof. now apply str_eqb_eq. Qed.

Lemma mem_In (x : str) (l : list str) : mem x l = true <-> In x l.
Proof.
  induction l as [|y l IH]; simpl.
  - split; [discriminate | contradiction].
  - rewrite orb_true_iff, str_eqb_eq, IH. intuition congruence.
Qed.

Lemma set_of_acc_In (seen l : list str) (x : str) :
  In x (set_of_acc seen l) <-> In x l /\ ~ In x seen.
Proof.
  revert seen. induction l as [|y l IH]; intro seen; simpl.
  - tauto.
  - destruct (mem y seen) eqn:E.
    + apply mem_In in E. rewrite IH. intuition congruence.
    + assert (Hy : ~ In y seen) by (rewrite <- mem_In; congruence).
      simpl. rewrite IH. simpl.
      destruct (list_eq_dec N.eq_dec y x) as [->|Hne]; intuition congruence.
Qed.

Lemma set_of_acc_NoDup (seen l : list str) : NoDup (set_of_acc seen l).
Proof.
  revert seen. induction l as [|y l IH]; intro seen; simpl.
  - constructor.
  - destruct (mem y seen); [apply IH|].
    constructor; [|apply IH].
    rewrite set_of_acc_In. simpl. tauto.
Qed.

Lemma set_of_In (l : list str) (x : str) : In x (set_of l) <-> In x l.
Proof. unfold set_of. rewrite set_of_acc_In. simpl. tauto. Qed.

Lemma set_of_NoDup (l : list str) : NoDup (set_of l).
Proof. apply set_of_acc_NoDup. Qed.

Lemma set_of_nonempty (l : list str) : nonempty l = true -> nonempty (set_of l) = true.
Proof. destruct l; [discriminate|]. reflexivity. Qed.

(** ** Scores *)

Lemma fives_init (f : list str) (k : Z) : (0 <= k)%Z -> fives ((5 * k)%Z, f).
Proof. intro H. split; cbn [fst]; [lia | exists k; lia]. Qed.

Lemma fives_add_if (c : bool) (p : Z) (flag : str) (st : scored) :
  (0 <= p)%Z -> (5 | p)%Z -> fives st -> fives (add_if c p flag st).
Proof.
  intros Hp [k Hk] [H0 [m Hm]]. unfold add_if.
  destruct c; [|split; [assumption | exists m; assumption]].
  split; cbn [fst]; [lia|]. exists (m + k)%Z. lia.
Qed.

Lemma fives_capped (st : scored) :
  fives st -> fives (capped st) /\ (fst (capped st) <= 100)%Z.
Proof.
  intros [H0 [m Hm]]. unfold capped, fives. cbn [fst].
  destruct (Z.min_spec (fst st) 100) as [[Hlt ->]|[Hle ->]].
  - split; [split|]; [lia | exists m; exact Hm | lia].
  - split; [split|]; [lia | exists 20%Z; reflexivity | lia].
Qed.

Lemma sub_score_capped (st : scored) : fives st -> sub_score (capped st).
Proof.
  intro H. destruct (fives_capped st H) as [[H0 H5] H100]. now repeat split.
Qed.

Lemma sub_score_const (k : Z) (f : list str) :
  (0 <= k <= 20)%Z -> sub_score ((5 * k)%Z, f).
Proof. intro H. repeat split; cbn [fst]; try lia. exists k; lia. Qed.

Lemma fives_zero : fives (0%Z, []).
Proof. split; cbn [fst]; [lia | exists 0%Z; reflexivity]. Qed.

(** ** bot_detector.py: every sub-analysis returns a sub-score *)

Module BotDetectorFacts.
Import BotDetector.

Lemma username_patterns_fives (username : str) (pats : list (str * re)) (st : scored) :
  fives st ->
  fives (fold_left
           (fun st pattern =>
              add_if (search_ignorecase (snd pattern) username) 25
                     (lit "suspicious_username_pattern:" ++ fst pattern) st)
           pats st).
Proof.
  revert st. induction pats as [|p pats IH]; intros st H; simpl; [exact H|].
  apply IH. apply fives_add_if; [five | five | exact H].
Qed.

Lemma analyze_username_ok (username : str) :
  exists st, _analyze_username username = Ok st /\ sub_score st.
Proof.
  unfold _analyze_username. cbv zeta.
  destruct (nonempty username).
  2:{ eexists. split; [reflexivity|]. apply (sub_score_const 10). lia. }
  cbn [negb].
  assert (Hfin : forall unusual : bool,
    sub_score
      (capped
         (add_if unusual 15 (lit "unusual_character_distribution")
            (add_if (negb (existsb isalpha username)) 30
               (lit "no_letters_in_username")
               (if (len username <? 3)%Z
                then add_if true 20 (lit "very_short_username")
                       (fold_left
                          (fun st pattern =>
                             add_if (search_ignorecase (snd pattern) username) 25
                               (lit "suspicious_username_pattern:" ++ fst pattern) st)
                          BOT_USERNAME_PATTERNS (0%Z, []))
                else add_if (len username >? 25)%Z 10 (lit "very_long_username")
                       (fold_left
                          (fun st pattern =>
                             add_if (search_ignorecase (snd pattern) username) 25
                               (lit "suspicious_username_pattern:" ++ fst pattern) st)
                          BOT_USERNAME_PATTERNS (0%Z, []))))))).
  { intro unusual. apply sub_score_capped.
    do 2 (apply fives_add_if; [five | five |]).
    destruct (len username <? 3)%Z;
      (apply fives_add_if; [five | five |]);
      apply username_patterns_fives, fives_zero. }
  destruct (len (filter (fun c => isalpha c && negb (is_vowel c))%bool
                        (lower username)) >? 0)%Z eqn:E.
  - rewrite pydiv_ok by (apply Q_of_Z_nonzero; lia).
    cbn [bind]. eexists. split; [reflexivity | apply Hfin].
  - cbn [bind]. eexists. split; [reflexivity | apply Hfin].
Qed.

Lemma spam_matches_nonneg (x : str) : (0 <= spam_matches x)%Z.
Proof. apply len_nonneg. Qed.
Lemma generic_matches_nonneg (x : str) : (0 <= generic_matches x)%Z.
Proof. apply len_nonneg. Qed.

Lemma analyze_bio_ok (bio : str) : sub_score (_analyze_bio bio).
Proof.
  unfold _analyze_bio. cbv zeta.
  destruct (nonempty bio); cbn [negb].
  2:{ apply (sub_score_const 6). lia. }
  pose proof (spam_matches_nonneg (lower bio)) as Hs.
  pose proof (generic_matches_nonneg (lower bio)) as Hg.
  apply sub_score_capped.
  repeat (apply fives_add_if; [try lia | try five |]); try apply fives_zero.
  - exists (generic_matches (lower bio) * 2)%Z. lia.
  - exists (spam_matches (lower bio) * 4)%Z. lia.
Qed.

Lemma analyze_metrics_ok (metadata : Metadata) :
  exists st, _analyze_metrics metadata = Ok st /\ sub_score st.
Proof.
  unfold _analyze_metrics. cbv zeta.
  destruct (get (verified metadata) false).
  { eexists. split; [reflexivity|]. apply (sub_score_const 1). lia. }
  assert (Hfin : forall st, fives st -> sub_score (capped
    (add_if ((get (posts_count metadata) 0 =? 0) && (get (followers metadata) 0 >? 100))%Z 35
       (lit "no_posts_many_followers")
       (add_if ((get (posts_count metadata) 0 >? 100) && (get (followers metadata) 0 <? 10))%Z
          30 (lit "high_activity_low_followers")
          (add_if (get (following metadata) 0 >? 5000)%Z 25 (lit "mass_following")
             (add_if ((get (followers metadata) 0 >? 1000000)
                      && (get (posts_count metadata) 0 <? 10))%Z 50
                (lit "unrealistic_followers_to_posts") st)))))).
  { intros st Hst. apply sub_score_capped.
    repeat (apply fives_add_if; [five | five |]). exact Hst. }
  destruct (get (following metadata) 0 >? 0)%Z eqn:E.
  - rewrite pydiv_ok by (apply Q_of_Z_nonzero; lia). cbn [bind].
    eexists. split; [reflexivity|]. apply Hfin.
    destruct (Qltb _ _); apply fives_add_if; solve [five | apply fives_zero].
  - cbn [bind]. eexists. split; [reflexivity|]. apply Hfin, fives_zero.
Qed.

Lemma analyze_content_ok (posts : list Post) :
  exists st, _analyze_content posts = Ok st /\ sub_score st.
Proof.
  unfold _analyze_content. cbv zeta.
  destruct (nonempty posts); cbn [negb].
  2:{ eexists. split; [reflexivity|]. apply (sub_score_const 6). lia. }
  destruct (nonempty (contents_of posts)) eqn:Hc; cbn [negb].
  2:{ eexists. split; [reflexivity|]. apply (sub_score_const 6). lia. }
  pose proof (len_nonempty _ Hc) as Hlen.
  destruct (len (flat_map (findall hashtag) (contents_of posts)) >? 0)%Z eqn:Hh.
  - assert (Hu : (0 < len (set_of (flat_map (findall hashtag) (contents_of posts))))%Z).
    { apply len_nonempty, set_of_nonempty.
      destruct (flat_map (findall hashtag) (contents_of posts)); [discriminate|reflexivity]. }
    rewrite pydiv_ok by (apply Q_of_Z_nonzero; lia). cbn [bind].
    rewrite pydiv_ok by (apply Q_of_Z_nonzero; lia). cbn [bind].
    eexists. split; [reflexivity|]. apply sub_score_capped.
    repeat (apply fives_add_if; [five | five |]). apply fives_zero.
  - cbn [bind].
    rewrite pydiv_ok by (apply Q_of_Z_nonzero; lia). cbn [bind].
    eexists. split; [reflexivity|]. apply sub_score_capped.
    repeat (apply fives_add_if; [five | five |]). apply fives_zero.
Qed.

Lemma root_div_ok (r : root) (d : Q) :
  Qgtb d 0 = true -> root_div r d = Ok (Root (radicand r / (d * d))).
Proof.
  intro H. apply Qgtb_gt in H. unfold root_div.
  rewrite Qeq_bool_false; [reflexivity|]. intro E. rewrite E in H.
  apply (Qlt_irrefl 0 H).
Qed.

Section Temporal.
Variable fromisoformat : str -> option datetime.

Lemma analyze_temporal_ok (posts : list Post) :
  exists st, _analyze_temporal fromisoformat posts = Ok st /\ sub_score st.
Proof.
  unfold _analyze_temporal. cbv zeta.
  destruct (negb (nonempty posts) || (len posts <? 3)%Z)%bool.
  { eexists. split; [reflexivity|]. apply (sub_score_const 6). lia. }
  destruct (len (timestamps_of fromisoformat posts) <? 3)%Z.
  { eexists. split; [reflexivity|]. apply (sub_score_const 6). lia. }
  destruct (nonempty (intervals_of _)); cbn [negb].
  2:{ eexists. split; [reflexivity|]. apply (sub_score_const 6). lia. }
  destruct (Qgtb (np_mean _) 0) eqn:Havg.
  - rewrite (root_div_ok _ _ Havg). cbn [bind].
    eexists. split; [reflexivity|]. apply sub_score_capped.
    repeat (apply fives_add_if; [five | five |]). apply fives_zero.
  - cbn [bind].
    eexists. split; [reflexivity|]. apply sub_score_capped.
    repeat (apply fives_add_if; [five | five |]). apply fives_zero.
Qed.
End Temporal.

Lemma sub_score_fst (st : scored) : sub_score st -> sub_score (fst st, []).
Proof. exact (fun H => H). Qed.

(** [analyze] always returns, and this is what it returns. *)
Lemma bot_analyze_ok (fromisoformat : str -> option datetime) (profile_data : Profile) :
  exists r,
    analyze fromisoformat profile_data = Ok r /\
    sub_scores (component_scores r) /\
    score r = round (final_score (component_scores r)) 1 /\
    is_bot r = Qgtb (final_score (component_scores r)) 50 /\
    confidence r = _calculate_confidence profile_data.
Proof.
  unfold analyze. cbv zeta.
  destruct (analyze_username_ok (get (username profile_data) [])) as [[u uf] [-> Hu]].
  cbn [bind].
  pose proof (analyze_bio_ok (get (bio profile_data) [])) as Hb.
  destruct (_analyze_bio (get (bio profile_data) [])) as [b bf].
  destruct (analyze_metrics_ok (get (metadata profile_data) empty_metadata))
    as [[m mf] [-> Hm]].
  cbn [bind].
  destruct (analyze_content_ok (get (posts profile_data) [])) as [[c cf] [-> Hc]].
  cbn [bind].
  destruct (analyze_temporal_ok fromisoformat (get (posts profile_data) []))
    as [[t tf] [-> Ht]].
  cbn [bind].
  eexists. split; [reflexivity|].
  cbn [component_scores score is_bot confidence].
  repeat split; solve [apply Hu | apply Hb | apply Hm | apply Hc | apply Ht].
Qed.

Lemma final_score_eq (cs : ComponentScores) :
  final_score cs ==
  inject_Z (15 * cs_username cs + 15 * cs_bio cs + 25 * cs_metrics cs
            + 25 * cs_content cs + 20 * cs_temporal cs) * (1 # 100).
Proof.
  unfold final_score, sumQ, weights, Q_of_Z. cbn [combine map fold_left fst snd].
  rewrite !inject_Z_plus, !inject_Z_mult. ring.
Qed.

(** The weighted sum is a multiple of a quarter, so it is above 50 exactly
    when its rounding to one digit is. *)
Lemma decision_agrees (cs : ComponentScores) :
  sub_scores cs ->
  (Qgtb (final_score cs) 50 = true <-> 50 < round (final_score cs) 1).
Proof.
  intros [[Ha0 [a Ha]] [[Hb0 [b Hb]] [[Hm0 [m Hm]] [[Hc0 [c Hc]] [Ht0 [t Ht]]]]]].
  cbn [fst] in *.
  pose proof (final_score_eq cs) as E.
  set (F := (15 * cs_username cs + 15 * cs_bio cs + 25 * cs_metrics cs
             + 25 * cs_content cs + 20 * cs_temporal cs)%Z) in *.
  assert (H25 : F = (25 * (3 * a + 3 * b + 5 * m + 5 * c + 4 * t))%Z) by (subst F; lia).
  rewrite Qgtb_gt.
  destruct (Z_le_gt_dec F 5000) as [Hle|Hgt].
  - assert (HF : inject_Z F <= 5000).
    { change 5000 with (inject_Z 5000). now rewrite <- Zle_Qle. }
    assert (HF0 : 0 <= inject_Z F).
    { change 0 with (inject_Z 0). rewrite <- Zle_Qle. subst F. lia. }
    split; intro H; exfalso.
    + lra.
    + destruct (round_bounds (final_score cs) 1 (-1) 500) as [_ Hhi].
      * change (inject_Z (-1) / inject_Z (10 ^ Z.of_nat 1)) with (-1 # 10). lra.
      * change (inject_Z 500 / inject_Z (10 ^ Z.of_nat 1)) with (500 # 10). lra.
      * change (inject_Z 500 / inject_Z (10 ^ Z.of_nat 1)) with (500 # 10) in Hhi. lra.
  - assert (HF : 5025 <= inject_Z F).
    { change 5025 with (inject_Z 5025). rewrite <- Zle_Qle. lia. }
    split; intros _.
    + assert (HF1 : inject_Z F <= 10000).
      { change 10000 with (inject_Z 10000). rewrite <- Zle_Qle. subst F. lia. }
      destruct (round_bounds (final_score cs) 1 502 1000) as [Hlo _].
      * change (inject_Z 502 / inject_Z (10 ^ Z.of_nat 1)) with (502 # 10). lra.
      * change (inject_Z 1000 / inject_Z (10 ^ Z.of_nat 1)) with (1000 # 10). lra.
      * change (inject_Z 502 / inject_Z (10 ^ Z.of_nat 1)) with (502 # 10) in Hlo. lra.
    + lra.
Qed.

End BotDetectorFacts.

(** ** bot_detector.py on input that nothing has checked *)



Lemma insert_sorted_cases (k : bool) (x : Untyped.pydatetime) (s : list Untyped.pydatetime) :
  Forall (fun a => Untyped.aware a = k) s ->
  match Untyped.insert_sorted x s with
  | Ok s' =>
      Forall (fun a => Untyped.aware a = Untyped.aware x) s' /\
      incl s' (x :: s) /\ incl (x :: s) s' /\
      map Untyped.moment s' = insert by_epoch (Untyped.moment x) (map Untyped.moment s)
  | TypeError => s <> [] /\ Untyped.aware x <> k
  | _ => False
  end.
Proof.
  induction 1 as [|y s Hy Hs IH]; cbn [Untyped.insert_sorted].
  - split; [now repeat constructor|]. split; [apply incl_refl|].
    split; [apply incl_refl | reflexivity].
  - unfold Untyped.dt_lt. destruct (Bool.eqb (Untyped.aware y) (Untyped.aware x)) eqn:E.
    + apply Bool.eqb_prop in E. cbn [bind map insert]. unfold by_epoch at 1.
      unfold Qltb. destruct (Qle_bool (epoch (Untyped.moment x)) (epoch (Untyped.moment y)));
        cbn [negb].
      * split; [|split; [apply incl_refl | split; [apply incl_refl | reflexivity]]].
        constructor; [reflexivity|]. constructor; [exact E|].
        eapply Forall_impl; [|exact Hs]. intros a Ha. cbn in Ha. congruence.
      * destruct (Untyped.insert_sorted x s) as [r| | |]; cbn [bind]; try exact IH.
        -- destruct IH as [Hr [Hi [Hj Hm]]].
           split; [constructor; [exact E | exact Hr]|].
           split; [|split; [|cbn [map]; now rewrite Hm]].
           ++ intros a [<-|Ha]; [right; now left|].
              destruct (Hi a Ha) as [<-|Hin]; [now left | right; now right].
           ++ intros a [<-|[<-|Ha]].
              ** right. apply Hj. now left.
              ** now left.
              ** right. apply Hj. now right.
        -- split; [discriminate | apply IH].
    + cbn [bind]. split; [discriminate|]. intro Hx.
      rewrite Hx, Hy in E. now rewrite Bool.eqb_reflx in E.
Qed.

Lemma list_sort_cases (l : list Untyped.pydatetime) :
  match Untyped.list_sort l with
  | Ok s =>
      (exists k, Forall (fun a => Untyped.aware a = k) s) /\
      incl s l /\ incl l s /\
      map Untyped.moment s = sort by_epoch (map Untyped.moment l)
  | TypeError => mixed l
  | _ => False
  end.
Proof.
  induction l as [|x l IH]; cbn [Untyped.list_sort].
  - split; [exists true; constructor|]. split; [apply incl_refl|].
    split; [apply incl_refl | reflexivity].
  - destruct (Untyped.list_sort l) as [s| | |]; cbn [bind]; try exact IH.
    + destruct IH as [[k Hs] [Hi [Hj Hm]]].
      pose proof (insert_sorted_cases k x s Hs) as H.
      destruct (Untyped.insert_sorted x s) as [s'| | |]; try exact H.
      * destruct H as [Hs' [Hi' [Hj' Hm']]]. split; [now exists (Untyped.aware x)|].
        split; [|split; [|cbn [map sort]; now rewrite <- Hm]].
        -- intros a Ha. destruct (Hi' a Ha) as [<-|Hin]; [now left | right; now apply Hi].
        -- intros a [<-|Ha]; apply Hj'; [now left | right; now apply Hj].
      * destruct H as [Hne Hx]. destruct s as [|y s]; [congruence|].
        exists x, y. split; [now left|]. split; [right; apply Hi; now left|].
        inversion Hs; subst. congruence.
    + destruct IH as [a [b [Ha [Hb Hab]]]]. exists a, b. repeat split; try now right. exact Hab.
Qed.

Lemma intervals_of_uniform (k : bool) (s : list Untyped.pydatetime) :
  Forall (fun a => Untyped.aware a = k) s ->
  Untyped.intervals_of s = Ok (BotDetector.intervals_of (map Untyped.moment s)).
Proof.
  induction s as [|a s IH]; intro H; [reflexivity|].
  destruct s as [|b s]; [reflexivity|].
  inversion H as [|? ? Ha Hs]; subst. inversion Hs as [|? ? Hb _]; subst.
  change (Untyped.intervals_of (a :: b :: s))
    with (interval <- Untyped.dt_sub b a ;;
          intervals <- Untyped.intervals_of (b :: s) ;; Ok (interval :: intervals)).
  rewrite (IH Hs). unfold Untyped.dt_sub.
  replace (Bool.eqb (Untyped.aware b) (Untyped.aware a)) with true
    by (symmetry; apply Bool.eqb_true_iff; congruence).
  reflexivity.
Qed.

Lemma typed_timestamps (fromisoformat : str -> option Untyped.pydatetime) (posts : list Post) :
  BotDetector.timestamps_of (typed_parser fromisoformat) posts
  = map Untyped.moment (Untyped.timestamps_of fromisoformat posts).
Proof.
  unfold BotDetector.timestamps_of, Untyped.timestamps_of, typed_parser.
  induction posts as [|p posts IH]; [reflexivity|].
  cbn [flat_map]. rewrite map_app, IH. f_equal.
  destruct (timestamp p) as [ts|]; [|reflexivity].
  destruct (nonempty ts); [|reflexivity].
  now destruct (fromisoformat _).
Qed.

Lemma len_map {A B : Type} (f : A -> B) (l : list A) : len (map f l) = len l.
Proof. unfold len. now rewrite length_map. Qed.

(** On timestamps of one kind the temporal analysis is that of [BotDetector]. *)
Lemma temporal_typed (fromisoformat : str -> option Untyped.pydatetime) (posts : list Post) :
  ~ mixed (Untyped.timestamps_of fromisoformat posts) ->
  Untyped._analyze_temporal fromisoformat posts
  = BotDetector._analyze_temporal (typed_parser fromisoformat) posts.
Proof.
  intro Hm. unfold Untyped._analyze_temporal, BotDetector._analyze_temporal. cbv zeta.
  destruct (negb (nonempty posts) || (len posts <? 3)%Z)%bool; [reflexivity|].
  rewrite typed_timestamps, len_map.
  destruct (len (Untyped.timestamps_of fromisoformat posts) <? 3)%Z; [reflexivity|].
  pose proof (list_sort_cases (Untyped.timestamps_of fromisoformat posts)) as H.
  destruct (Untyped.list_sort _) as [s| | |]; try contradiction.
  destruct H as [[k Hk] [_ [_ Hs]]]. cbn [bind].
  rewrite (intervals_of_uniform k s Hk). cbn [bind].
  fold by_epoch. rewrite <- Hs, map_map, len_map. reflexivity.
Qed.


(** On metadata without [None] and with a quotient that a float holds, the
    metrics analysis is that of [BotDetector]. *)
Lemma metrics_typed (d : Untyped.MetadataDict) :
  ~ holds_none d -> ~ ratio_too_large d ->
  Untyped._analyze_metrics d = BotDetector._analyze_metrics (typed_metadata d).
Proof.
  destruct d as [fo fi pc ve ok].
  unfold holds_none, ratio_too_large, typed_metadata, Untyped._analyze_metrics,
         BotDetector._analyze_metrics. cbv zeta.
  cbn [Untyped.followers Untyped.following Untyped.posts_count Untyped.verified
       followers following posts_count verified].
  intros Hn Hr.
  assert (Hv : Untyped.truth (Untyped.dict_get ve false) = get (present ve) false).
  { now destruct ve as [[v|]|]. }
  rewrite <- Hv. destruct (Untyped.truth (Untyped.dict_get ve false)); [reflexivity|].
  destruct fi as [[y|]|]; try (exfalso; apply Hn; now auto);
    destruct fo as [[x|]|]; try (exfalso; apply Hn; now auto);
    destruct pc as [[p|]|]; try (exfalso; apply Hn; now auto);
    cbn [Untyped.dict_get Untyped.gt Untyped.lt Untyped.eq Untyped.truediv
         Untyped.and_then bind present get].
  all: try match goal with
       | |- context [(?y >? 0)%Z] => destruct (y >? 0)%Z eqn:Hy
       end.
  all: try (rewrite pydiv_ok by (apply Q_of_Z_nonzero; lia)).
  all: try match goal with
       | |- context [(?y =? 0)%Z] =>
           replace (y =? 0)%Z with false by (symmetry; apply Z.eqb_neq; lia)
       end.
  all: try match goal with
       | |- context [Qle_bool Untyped.float_limit ?q] =>
           destruct (Qle_bool Untyped.float_limit q) eqn:Hq;
           [exfalso; apply Hr; eexists; eexists;
            split; [reflexivity|]; split; [reflexivity|];
            split; [lia | now apply Qle_bool_iff]|]
       end.
  all: cbn [bind].
  all: repeat match goal with
       | |- context [if ?c then _ else _] => destruct c eqn:?; cbn [bind andb add_if]
       end; try reflexivity.
Qed.


Lemma confidence_typed (p : Untyped.ProfileDict) :
  well_typed (metadata_of p) ->
  Untyped._calculate_confidence p = BotDetector._calculate_confidence (typed_profile p).
Proof.
  unfold well_typed, metadata_of, Untyped._calculate_confidence,
         BotDetector._calculate_confidence, typed_profile. cbv zeta.
  cbn [bio metadata posts]. intros [Hfo [Hfi [Hpc [Hve Hok]]]].
  replace (metadata_nonempty _)
    with (Untyped.dict_nonempty (get (Untyped.metadata p) Untyped.empty_dict)); [reflexivity|].
  destruct (Untyped.metadata p) as [[fo fi pc ve ok]|]; [|reflexivity].
  cbn [get option_map typed_metadata Untyped.followers Untyped.following
       Untyped.posts_count Untyped.verified Untyped.other_keys] in *.
  subst ok. unfold Untyped.dict_nonempty, metadata_nonempty.
  cbn [Untyped.followers Untyped.following Untyped.posts_count Untyped.verified
       Untyped.other_keys followers following posts_count verified].
  destruct fo as [[?|]|]; destruct fi as [[?|]|]; destruct pc as [[?|]|];
    destruct ve as [[?|]|]; cbn [present]; try reflexivity; try congruence.
Qed.

(** On the input of the typed model, [analyze] is that of [BotDetector]. *)
Lemma analyze_typed (fromisoformat : str -> option Untyped.pydatetime)
    (p : Untyped.ProfileDict) :
  well_typed (metadata_of p) ->
  ~ ratio_too_large (metadata_of p) ->
  ~ mixed (timestamps_in fromisoformat p) ->
  Untyped.analyze fromisoformat p
  = BotDetector.analyze (typed_parser fromisoformat) (typed_profile p).
Proof.
  intros Hw Hr Hm. unfold Untyped.analyze, BotDetector.analyze. cbv zeta.
  rewrite (confidence_typed p Hw).
  unfold metadata_of, timestamps_in in *.
  rewrite (temporal_typed fromisoformat _ Hm).
  rewrite metrics_typed; [|unfold holds_none; destruct Hw as [? [? [? _]]]; tauto | exact Hr].
  replace (get (metadata (typed_profile p)) empty_metadata)
    with (typed_metadata (get (Untyped.metadata p) Untyped.empty_dict))
    by (unfold typed_profile; cbn [metadata]; now destruct (Untyped.metadata p)).
  reflexivity.
Qed.

(** ** bot_detector.py: the claims *)

Lemma bot_confidence_bounds (profile_data : Profile) :
  (1 # 2) <= BotDetector._calculate_confidence profile_data /\
  BotDetector._calculate_confidence profile_data <= (95 # 100).
Proof.
  unfold BotDetector._calculate_confidence. cbv zeta.
  destruct (nonempty (get (bio profile_data) []));
    destruct (metadata_nonempty (get (metadata profile_data) empty_metadata));
    destruct (nonempty (get (posts profile_data) []));
    destruct (len (get (posts profile_data) []) >? 10)%Z;
    destruct (len (get (posts profile_data) []) >? 3)%Z;
    split; qle.
Qed.

(** C3: for every profile, [analyze] returns a result whose [is_bot] is
    true if and only if its [score] field is greater than 50. *)
Theorem is_bot_iff_score_above_50 (fromisoformat : str -> option datetime)
    (profile_data : Profile) :
  exists r,
    BotDetector.analyze fromisoformat profile_data = Ok r /\
    (BotDetector.is_bot r = true <-> 50 < BotDetector.score r).
Proof.
  destruct (BotDetectorFacts.bot_analyze_ok fromisoformat profile_data)
    as [r [Hr [Hsub [Hscore [Hbot _]]]]].
  exists r. split; [exact Hr|].
  rewrite Hscore, Hbot. now apply BotDetectorFacts.decision_agrees.
Qed.

(** C4, as the code has it: with no other metadata a verified account gets
    the metrics sub-score 5 and an unverified one gets 0, so marking the
    account verified raises the sub-score. *)
Theorem verified_raises_clean_metrics :
  exists sv su,
    BotDetector._analyze_metrics (mkMetadata None None None (Some true)) = Ok sv /\
    BotDetector._analyze_metrics (mkMetadata None None None (Some false)) = Ok su /\
    fst sv = 5%Z /\ fst su = 0%Z /\ (fst su < fst sv)%Z.
Proof.
  eexists. eexists. repeat split; vm_compute; reflexivity.
Qed.

(** The repository's own test of this property, [test_verified_accounts_lower_score],
    asserts that the verified profile scores strictly lower; on the code it
    scores 19.2 against 18.0. *)
Lemma test_verified_accounts_lower_score_fails (fromisoformat : str -> option datetime) :
  exists rv ru,
    BotDetector.analyze fromisoformat test_verified = Ok rv /\
    BotDetector.analyze fromisoformat test_unverified = Ok ru /\
    BotDetector.score rv == (192 # 10) /\
    BotDetector.score ru == 18 /\
    ~ BotDetector.score rv < BotDetector.score ru.
Proof.
  eexists. eexists.
  split; [vm_compute; reflexivity|].
  split; [vm_compute; reflexivity|].
  split; [reflexivity|]. split; [reflexivity|].
  intro H. vm_compute in H. discriminate H.
Qed.



(** C10: for every profile, the confidence [analyze] returns lies in
    [0.5, 0.95]. *)
Theorem bot_confidence_in_range (fromisoformat : str -> option datetime)
    (profile_data : Profile) :
  exists r,
    BotDetector.analyze fromisoformat profile_data = Ok r /\
    (1 # 2) <= BotDetector.confidence r /\ BotDetector.confidence r <= (95 # 100).
Proof.
  destruct (BotDetectorFacts.bot_analyze_ok fromisoformat profile_data)
    as [r [Hr [_ [_ [_ Hconf]]]]].
  exists r. split; [exact Hr|]. rewrite Hconf. apply bot_confidence_bounds.
Qed.

(** ** sentiment_analyzer.py *)

Module SentimentFacts.
Import SentimentAnalyzer.

Lemma lexicon_analysis_ok (text : str) : exists v, _lexicon_analysis text = Ok v.
Proof.
  unfold _lexicon_analysis. cbv zeta.
  destruct (nonempty (findall word_token (lower text))); cbn [negb]; [|eauto].
  destruct (nonempty (word_scores None _)) eqn:Hs; cbn [negb]; [|eauto].
  apply len_nonempty in Hs.
  rewrite pydiv_ok; cbn [bind]; [eauto|].
  intro E.
  pose proof (Q.le_max_l (Q_of_Z (len (word_scores None (findall word_token (lower text)))))
                         (Q_of_Z (len (findall word_token (lower text))) / 5)) as Hmax.
  rewrite E in Hmax.
  assert (H1 : 1 <= Q_of_Z (len (word_scores None (findall word_token (lower text))))).
  { change 1 with (inject_Z 1). unfold Q_of_Z. rewrite <- Zle_Qle. lia. }
  lra.
Qed.

Lemma emoji_analysis_ok (text : str) : exists v, _emoji_analysis text = Ok v.
Proof.
  unfold _emoji_analysis. cbv zeta.
  destruct (_ =? 0)%Z eqn:E; [eauto|].
  apply Z.eqb_neq in E.
  rewrite pydiv_ok by (now apply Q_of_Z_nonzero). cbn [bind]. eauto.
Qed.

Lemma pattern_analysis_ok (text : str) : exists v, _pattern_analysis text = Ok v.
Proof.
  unfold _pattern_analysis. cbv zeta.
  destruct (len (filter _ (split text)) >? 0)%Z.
  - rewrite pydiv_ok by (apply Q_of_Z_nonzero; lia). cbn [bind].
    destruct (snd _ =? 0)%Z; eauto.
  - cbn [bind]. destruct (snd _ =? 0)%Z; eauto.
Qed.

Lemma calculate_confidence_bounds (text : str) (valid_scores : list (Q * Q)) :
  (1 # 10) <= _calculate_confidence text valid_scores /\
  _calculate_confidence text valid_scores <= 1.
Proof.
  unfold _calculate_confidence. cbv zeta. split.
  - apply Q.min_glb; [apply Q.le_max_r | qle].
  - apply Q.le_min_r.
Qed.

Lemma total_weight_nonzero (l e p : option Q) :
  nonempty (valid_scores_of l e p) = true ->
  ~ sumQ (map snd (valid_scores_of l e p)) == 0.
Proof.
  destruct l, e, p; cbn; intros H E; try discriminate H; vm_compute in E; discriminate E.
Qed.

(** [analyze] always returns; on a blank text the confidence is 0, on
    any other text it is the rounded value of [_calculate_confidence]. *)
Lemma sentiment_analyze_ok (text : str) :
  exists r,
    analyze text = Ok r /\
    if nonempty (strip text)
    then exists valid_scores,
           confidence r = round (_calculate_confidence (strip text) valid_scores) 3
    else confidence r = 0.
Proof.
  unfold analyze. cbv zeta.
  destruct text as [|c text].
  { cbn. eexists. split; reflexivity. }
  cbn [nonempty negb orb].
  destruct (nonempty (strip (c :: text))); cbn [negb].
  2:{ eexists. split; reflexivity. }
  destruct (lexicon_analysis_ok (strip (c :: text))) as [l ->].
  destruct (emoji_analysis_ok (strip (c :: text))) as [e ->].
  destruct (pattern_analysis_ok (strip (c :: text))) as [p ->].
  cbn [bind].
  fold (valid_scores_of l e p).
  destruct (nonempty (valid_scores_of l e p)) eqn:Hv; cbn [negb].
  - rewrite pydiv_ok by (now apply total_weight_nonzero). cbn [bind].
    eexists. split; [reflexivity|]. cbn [confidence]. eauto.
  - cbn [bind]. eexists. split; [reflexivity|]. cbn [confidence]. eauto.
Qed.

End SentimentFacts.

(** C1, as the code has it: on the text "absolutely amazing" the lexicon
    signal is the only one present and is not clamped, and [analyze]
    returns the overall value 1.62, outside [-1, 1]. *)
Theorem lexicon_overall_exceeds_one :
  exists r,
    SentimentAnalyzer.analyze (lit "absolutely amazing") = Ok r /\
    SentimentAnalyzer.overall r == (162 # 100) /\
    ~ SentimentAnalyzer.overall r <= 1.
Proof.
  eexists. split; [vm_compute; reflexivity|].
  split; [reflexivity|]. intro H. vm_compute in H. now apply H.
Qed.

(** C5, the claim as stated fails on the empty text: [analyze] returns the
    confidence 0 for it, which is below 0.1. *)
Lemma empty_text_confidence_zero :
  exists r,
    SentimentAnalyzer.analyze (lit "") = Ok r /\
    SentimentAnalyzer.confidence r == 0 /\
    ~ (1 # 10) <= SentimentAnalyzer.confidence r.
Proof.
  eexists. split; [vm_compute; reflexivity|].
  split; [reflexivity|]. intro H. vm_compute in H. now apply H.
Qed.

(** C5, amended: for every text that is not blank the confidence
    [analyze] returns lies in [0.1, 1.0]; for the empty text and for a text
    of whitespace only it is 0. *)
Theorem sentiment_confidence_in_range (text : str) :
  exists r,
    SentimentAnalyzer.analyze text = Ok r /\
    if nonempty (strip text)
    then (1 # 10) <= SentimentAnalyzer.confidence r /\ SentimentAnalyzer.confidence r <= 1
    else SentimentAnalyzer.confidence r == 0.
Proof.
  destruct (SentimentFacts.sentiment_analyze_ok text) as [r [Hr Hc]].
  exists r. split; [exact Hr|].
  destruct (nonempty (strip text)).
  - destruct Hc as [vs ->].
    destruct (SentimentFacts.calculate_confidence_bounds (strip text) vs) as [Hlo Hhi].
    destruct (round_bounds (SentimentAnalyzer._calculate_confidence (strip text) vs)
                           3 100 1000) as [H1 H2].
    + change (inject_Z 100 / inject_Z (10 ^ Z.of_nat 3)) with (100 # 1000). lra.
    + change (inject_Z 1000 / inject_Z (10 ^ Z.of_nat 3)) with (1000 # 1000). lra.
    + change (inject_Z 100 / inject_Z (10 ^ Z.of_nat 3)) with (100 # 1000) in H1.
      change (inject_Z 1000 / inject_Z (10 ^ Z.of_nat 3)) with (1000 # 1000) in H2.
      split; lra.
  - rewrite Hc. reflexivity.
Qed.

(** ** Sorting in descending order of a key *)

Section SortDescending.
Context {A : Type} (key : A -> Q).

Lemma insert_perm (x : A) (l : list A) : Permutation (x :: l) (insert (desc key) x l).
Proof.
  induction l as [|y l IH]; simpl; [reflexivity|].
  destruct (desc key x y); [reflexivity|].
  rewrite perm_swap. now apply perm_skip.
Qed.

Lemma sort_perm (l : list A) : Permutation l (sort (desc key) l).
Proof.
  induction l as [|x l IH]; simpl; [reflexivity|].
  rewrite <- insert_perm. now apply perm_skip.
Qed.

Lemma insert_sorted (x : A) (l : list A) :
  StronglySorted (not_below key) l -> StronglySorted (not_below key) (insert (desc key) x l).
Proof.
  induction 1 as [|y l Hl IH Hy]; simpl.
  - constructor; constructor.
  - destruct (desc key x y) eqn:E.
    + apply Qle_bool_iff in E.
      constructor; [now constructor|].
      constructor; [exact E|].
      eapply Forall_impl; [|exact Hy].
      intros z Hz. unfold not_below in *. eapply Qle_trans; eassumption.
    + constructor; [exact IH|].
      apply (Permutation_Forall (insert_perm x l)).
      constructor; [|exact Hy].
      unfold not_below. apply Qlt_le_weak, Qnot_le_lt.
      intro Hle. apply Qle_bool_iff in Hle. unfold desc in E. congruence.
Qed.

Lemma sort_sorted (l : list A) : StronglySorted (not_below key) (sort (desc key) l).
Proof.
  induction l as [|x l IH]; simpl; [constructor | now apply insert_sorted].
Qed.

Lemma insert_with_key (v : Q) (x : A) (l : list A) :
  with_key key v (insert (desc key) x l) = with_key key v (x :: l).
Proof.
  induction l as [|y l IH]; simpl; [reflexivity|].
  destruct (desc key x y) eqn:E; [reflexivity|].
  unfold with_key in *. simpl in *. rewrite IH.
  destruct (Qeq_bool (key x) v) eqn:Ex; [|reflexivity].
  destruct (Qeq_bool (key y) v) eqn:Ey; [|reflexivity].
  apply Qeq_bool_eq in Ex, Ey. exfalso.
  assert (Hle : key y <= key x) by (rewrite Ex, Ey; apply Qle_refl).
  apply Qle_bool_iff in Hle. unfold desc in E. congruence.
Qed.

Lemma sort_with_key (v : Q) (l : list A) : with_key key v (sort (desc key) l) = with_key key v l.
Proof.
  induction l as [|x l IH]; simpl; [reflexivity|].
  rewrite insert_with_key. unfold with_key in *. simpl. now rewrite IH.
Qed.
End SortDescending.

(** ** profile_scorer.py *)

Module ProfileScorerFacts.
Import ProfileScorer.

Lemma engagement_ok (metadata : Metadata) :
  exists v, _calculate_engagement_score metadata = Ok v.
Proof.
  unfold _calculate_engagement_score. cbv zeta.
  destruct (get (following metadata) 0 >? 0)%Z eqn:E.
  - rewrite pydiv_ok by (apply Q_of_Z_nonzero; lia). cbn [bind]. eauto.
  - cbn [bind]. eauto.
Qed.

Lemma score_ok (profile_data : ProfileData) : exists q, score profile_data = Ok q.
Proof.
  unfold score. cbv zeta.
  destruct (engagement_ok (get (metadata profile_data) empty_metadata)) as [v ->].
  cbn [bind]. destruct (if Qle_bool 75 _ then _ else _). eauto.
Qed.

(** Every profile gets its score attached, in the order of the input. *)
Lemma attach_all_ok (profiles : list ProfileData) :
  exists scored,
    mapM attach profiles = Ok scored /\
    map fst scored = profiles /\
    Forall (fun x => score (fst x) = Ok (quality_score x)) scored.
Proof.
  induction profiles as [|p profiles [scored [Hs [Hfst Hall]]]]; simpl.
  - exists []. repeat split. constructor.
  - unfold attach at 1. destruct (score_ok p) as [q Hq]. rewrite Hq. cbn [bind].
    rewrite Hs. cbn [bind]. exists ((p, q) :: scored). repeat split.
    + simpl. now rewrite Hfst.
    + constructor; [exact Hq | exact Hall].
Qed.

End ProfileScorerFacts.

(** C6: [rank_profiles] returns the input profiles, each with its quality
    score attached, rearranged so that [overall] never increases along the
    list, and profiles with the same [overall] keep the order they had in
    the input. *)
Theorem rank_profiles_stable_descending (profiles : list ProfileScorer.ProfileData) :
  exists scored ranked,
    mapM ProfileScorer.attach profiles = Ok scored /\
    map fst scored = profiles /\
    Forall (fun x => ProfileScorer.score (fst x) = Ok (ProfileScorer.quality_score x)) scored /\
    ProfileScorer.rank_profiles profiles = Ok ranked /\
    Permutation scored ranked /\
    StronglySorted (fun x y => overall_of y <= overall_of x) ranked /\
    forall v, with_key overall_of v ranked = with_key overall_of v scored.
Proof.
  destruct (ProfileScorerFacts.attach_all_ok profiles) as [scored [Hs [Hfst Hall]]].
  exists scored, (sort ProfileScorer.before scored).
  unfold ProfileScorer.rank_profiles. rewrite Hs. cbn [bind].
  repeat split; try assumption.
  - apply (sort_perm overall_of).
  - apply (sort_sorted overall_of).
  - intro v. apply (sort_with_key overall_of).
Qed.

(** ** Scenario D *)

(** C2, the claim as stated fails: the overall value of the scenario is
    not at most 40. *)
Lemma scenario_D_overall_above_40 :
  ~ (forall fromisoformat : str -> option datetime,
       exists bot q,
         BotDetector.analyze fromisoformat scenario_D = Ok bot /\
         ProfileScorer.score (scenario_D_scored bot) = Ok q /\
         ProfileScorer.overall q <= 40 /\
         (ProfileScorer.tier q = ProfileScorer.C \/ ProfileScorer.tier q = ProfileScorer.D)).
Proof.
  intro H. destruct (H (fun _ => None)) as [bot [q [Hbot [Hq [Hle _]]]]].
  vm_compute in Hbot. injection Hbot as <-.
  vm_compute in Hq. injection Hq as <-.
  vm_compute in Hle. now apply Hle.
Qed.

(** C2, amended: for the profile of the scenario the bot score is 35.5, and
    [ProfileScorer.score] returns the overall value 43.1 and the tier C. *)
Theorem scenario_D_overall_and_tier (fromisoformat : str -> option datetime) :
  exists bot q,
    BotDetector.analyze fromisoformat scenario_D = Ok bot /\
    BotDetector.score bot == (355 # 10) /\
    ProfileScorer.score (scenario_D_scored bot) = Ok q /\
    ProfileScorer.overall q == (431 # 10) /\
    ProfileScorer.tier q = ProfileScorer.C.
Proof.
  eexists. eexists.
  split; [vm_compute; reflexivity|].
  split; [reflexivity|].
  split; [vm_compute; reflexivity|].
  split; reflexivity.
Qed.

Lemma Qle_bool_false (a b : Q) : b < a -> Qle_bool a b = false.
Proof.
  intro H. destruct (Qle_bool a b) eqn:E; [|reflexivity].
  apply Qle_bool_iff in E. exfalso. apply (Qlt_not_le _ _ H E).
Qed.

Lemma scenario_D_weighted_sum (a : Q) :
  sumQ [a * (30 # 100); Q_of_Z 25 * (25 # 100); Q_of_Z 30 * (25 # 100);
        Q_of_Z 50 * (20 # 100)]
  == a * (30 # 100) + (2375 # 100).
Proof. unfold sumQ, Q_of_Z. cbn [fold_left]. ring. Qed.

(** The same holds under every username: the bot score then lies between
    28 and 43, the overall value is above 40 and the tier is C. *)
Lemma scenario_D_any_username (fromisoformat : str -> option datetime) (name : str) :
  exists bot q,
    BotDetector.analyze fromisoformat (scenario_D_named name) = Ok bot /\
    ProfileScorer.score (scenario_D_scored bot) = Ok q /\
    40 < ProfileScorer.overall q /\
    ProfileScorer.tier q = ProfileScorer.C.
Proof.
  unfold BotDetector.analyze. cbv zeta.
  cbn [get username bio metadata posts scenario_D_named].
  destruct (BotDetectorFacts.analyze_username_ok name) as [[us uf] [-> [[Hus0 Hus100] _]]].
  cbn [bind fst] in *.
  change (BotDetector._analyze_bio []) with (30%Z, [lit "no_bio"]).
  change (BotDetector._analyze_metrics scenario_D_metadata)
    with (Ok (40%Z, [lit "suspicious_follower_ratio"])).
  change (BotDetector._analyze_content []) with (Ok (30%Z, [lit "no_posts"])).
  change (BotDetector._analyze_temporal fromisoformat [])
    with (Ok (30%Z, [lit "insufficient_temporal_data"])).
  cbn [bind].
  eexists. eexists. split; [reflexivity|].
  unfold ProfileScorer.score, scenario_D_scored. cbv zeta.
  cbn [get ProfileScorer.bot_score ProfileScorer.metadata ProfileScorer.interests
       ProfileScorer.target_interests ProfileScorer.sentiment_overall BotDetector.score].
  change (ProfileScorer._calculate_engagement_score scenario_D_metadata) with (Ok 25%Z).
  cbn [bind].
  change (ProfileScorer._calculate_relevance_score [] []) with 30%Z.
  change (ProfileScorer._calculate_accessibility_score scenario_D_metadata None) with 50%Z.
  set (bot_final := sumQ (map _ (combine [us; 30%Z; 40%Z; 30%Z; 30%Z] BotDetector.weights))).
  assert (Hbf : bot_final == inject_Z us * (15 # 100) + 28).
  { subst bot_final. unfold sumQ, BotDetector.weights, Q_of_Z.
    cbn [combine map fold_left fst snd]. ring. }
  assert (Hus : 0 <= inject_Z us /\ inject_Z us <= 100).
  { change 0 with (inject_Z 0). change 100 with (inject_Z 100).
    rewrite <- !Zle_Qle. lia. }
  destruct (round_bounds bot_final 1 280 430) as [Hr1 Hr2].
  { change (inject_Z 280 / inject_Z (10 ^ Z.of_nat 1)) with (280 # 10). lra. }
  { change (inject_Z 430 / inject_Z (10 ^ Z.of_nat 1)) with (430 # 10). lra. }
  change (inject_Z 280 / inject_Z (10 ^ Z.of_nat 1)) with (280 # 10) in Hr1.
  change (inject_Z 430 / inject_Z (10 ^ Z.of_nat 1)) with (430 # 10) in Hr2.
  set (bot_score := round bot_final 1) in *.
  assert (Hauth : 57 <= Qmax 0 (100 - bot_score) /\ Qmax 0 (100 - bot_score) <= 72).
  { split.
    - eapply Qle_trans; [|apply Q.le_max_r]. lra.
    - apply Q.max_lub; lra. }
  set (auth := Qmax 0 (100 - bot_score)) in *.
  set (final := sumQ _).
  assert (Hfinal : final == auth * (30 # 100) + (2375 # 100)).
  { subst final. apply scenario_D_weighted_sum. }
  assert (H75 : Qle_bool 75 final = false) by (apply Qle_bool_false; lra).
  assert (H50 : Qle_bool 50 final = false) by (apply Qle_bool_false; lra).
  assert (H30 : Qle_bool 30 final = true) by (apply Qle_bool_iff; lra).
  rewrite H75, H50, H30.
  split; [reflexivity|].
  cbn [ProfileScorer.overall ProfileScorer.tier].
  split.
  - change (40 < round final 1).
    destruct (round_bounds final 1 408 500) as [Hlo _].
    { change (inject_Z 408 / inject_Z (10 ^ Z.of_nat 1)) with (408 # 10). lra. }
    { change (inject_Z 500 / inject_Z (10 ^ Z.of_nat 1)) with (500 # 10). lra. }
    change (inject_Z 408 / inject_Z (10 ^ Z.of_nat 1)) with (408 # 10) in Hlo. lra.
  - change (ProfileScorer._get_tier final = ProfileScorer.C).
    unfold ProfileScorer._get_tier.
    rewrite (Qle_bool_false 80 final) by lra.
    rewrite (Qle_bool_false 65 final) by lra.
    rewrite H50.
    replace (Qle_bool 35 final) with true by (symmetry; apply Qle_bool_iff; lra).
    reflexivity.
Qed.

(** ** interest_extractor.py *)

Module InterestFacts.
Import InterestExtractor.

Lemma inter_In (a b : list str) (x : str) : In x (inter a b) <-> In x a /\ In x b.
Proof. unfold inter. rewrite filter_In, mem_In. tauto. Qed.

Lemma inter_NoDup (a b : list str) : NoDup a -> NoDup (inter a b).
Proof. apply NoDup_filter. Qed.

(** The loop that appends the markers. *)
Lemma append_markers (cats common : list str) :
  fold_left
    (fun common cat => if negb (str_eqb cat general) then common ++ [marker cat] else common)
    cats common
  = common ++ map marker (filter (fun cat => negb (str_eqb cat general)) cats).
Proof.
  revert common. induction cats as [|c cats IH]; intro common; simpl.
  - now rewrite app_nil_r.
  - rewrite IH. destruct (negb (str_eqb c general)); [|reflexivity].
    simpl. now rewrite <- app_assoc.
Qed.

End InterestFacts.

(** What [find_common_interests a b] returns: the strings that occur in
    both lists once case is ignored, each once, followed by one marker for
    every category other than "general" that both lists have an interest
    in. *)
Lemma find_common_interests_spec (a b : list str) :
  exists exact cats,
    InterestExtractor.find_common_interests a b
    = exact ++ map InterestExtractor.marker cats /\
    NoDup exact /\
    (forall x, In x exact <-> In x (map lower a) /\ In x (map lower b)) /\
    NoDup cats /\
    (forall c, In c cats <->
               In c (map InterestExtractor.get_category a) /\
               In c (map InterestExtractor.get_category b) /\
               c <> InterestExtractor.general).
Proof.
  exists (InterestExtractor.inter (set_of (map lower a)) (set_of (map lower b))).
  exists (filter (fun cat => negb (str_eqb cat InterestExtractor.general))
            (InterestExtractor.inter (set_of (map InterestExtractor.get_category a))
                                     (set_of (map InterestExtractor.get_category b)))).
  split; [apply InterestFacts.append_markers|].
  split; [apply InterestFacts.inter_NoDup, set_of_NoDup|].
  split; [intro x; now rewrite InterestFacts.inter_In, !set_of_In|].
  split; [apply NoDup_filter, InterestFacts.inter_NoDup, set_of_NoDup|].
  intro c. rewrite filter_In, InterestFacts.inter_In, !set_of_In, negb_true_iff.
  assert (Hne : str_eqb c InterestExtractor.general = false <-> c <> InterestExtractor.general).
  { rewrite <- str_eqb_eq. destruct (str_eqb c InterestExtractor.general); intuition congruence. }
  tauto.
Qed.

(** C7, as the code has it: an interest that both lists hold brings the
    marker of its category by itself, with no other keyword of that
    category in either list; the comment on this step of the code reads
    "same category but different keyword". *)
Theorem exact_match_brings_marker (a b : list str) (x : str) :
  In x a -> In x b ->
  InterestExtractor.get_category x <> InterestExtractor.general ->
  In (InterestExtractor.marker (InterestExtractor.get_category x))
     (InterestExtractor.find_common_interests a b).
Proof.
  intros Ha Hb Hx.
  destruct (find_common_interests_spec a b) as [exact [cats [-> [_ [_ [_ Hc]]]]]].
  apply in_or_app. right. apply in_map. apply Hc.
  split; [now apply in_map|]. split; [now apply in_map | exact Hx].
Qed.

(** Two lists that hold "python" and nothing else. *)
Lemma exact_match_brings_marker_witness :
  InterestExtractor.find_common_interests [lit "python"] [lit "python"]
  = [lit "python"; lit "[technology]"] /\
  In (lit "[technology]")
     (InterestExtractor.find_common_interests [lit "python"] [lit "python"]).
Proof.
  split; [vm_compute; reflexivity|].
  apply (exact_match_brings_marker [lit "python"] [lit "python"] (lit "python")).
  - now left.
  - now left.
  - vm_compute. discriminate.
Defined.

(** A category the two lists share only through a common interest gets its
    marker as well. *)
Example find_common_interests_python :
  InterestExtractor.find_common_interests [lit "Python"] [lit "python"; lit "Hiking"]
  = [lit "python"; lit "[technology]"].
Proof. vm_compute. reflexivity. Qed.

(** ** Texts that grow at the end *)

Lemma lower_app (a b : str) : lower (a ++ b) = lower a ++ lower b.
Proof. apply map_app. Qed.

Lemma startswith_length (w x : str) : startswith w x = true -> (length w <= length x)%nat.
Proof.
  revert x. induction w as [|c w IH]; intros [|d x]; simpl; intro H; try lia; try discriminate.
  apply andb_true_iff in H. destruct H as [_ H]. apply IH in H. lia.
Qed.

Lemma startswith_app (w x t : str) : startswith w x = true -> startswith w (x ++ t) = true.
Proof.
  revert x. induction w as [|c w IH]; intros [|d x]; simpl; intro H;
    try reflexivity; try discriminate.
  apply andb_true_iff in H. destruct H as [-> H]. simpl. now apply IH.
Qed.

(** A prefix test on a text at least as long as the prefix ignores what
    comes after the text. *)
Lemma startswith_app_long (w x t : str) :
  (length w <= length x)%nat -> startswith w (x ++ t) = startswith w x.
Proof.
  revert x. induction w as [|c w IH]; intros [|d x]; simpl; intro H;
    try reflexivity; try lia.
  rewrite IH by lia. reflexivity.
Qed.

Lemma startswith_refl_app (w t : str) : startswith w (w ++ t) = true.
Proof. induction w as [|c w IH]; simpl; [reflexivity|]. now rewrite N.eqb_refl. Qed.

Lemma str_in_app_l (w x t : str) : str_in w x = true -> str_in w (x ++ t) = true.
Proof.
  induction x as [|d x IH]; simpl; intro H.
  - rewrite orb_false_r in H. destruct w; [|discriminate].
    destruct t; reflexivity.
  - apply orb_true_iff in H. destruct H as [H|H].
    + apply (startswith_app w (d :: x) t) in H. simpl in H. rewrite H. reflexivity.
    + rewrite (IH H). apply orb_true_r.
Qed.

Lemma str_in_app_r (w x : str) : str_in w (x ++ w) = true.
Proof.
  induction x as [|d x IH]; simpl.
  - destruct w as [|c w]; [reflexivity|]. simpl.
    rewrite N.eqb_refl. rewrite <- (app_nil_r w) at 2.
    now rewrite startswith_refl_app.
  - rewrite IH. apply orb_true_r.
Qed.

Lemma skipn_app_le {A : Type} (n : nat) (x t : list A) :
  (n <= length x)%nat -> skipn n (x ++ t) = skipn n x ++ t.
Proof.
  intro H. rewrite skipn_app. replace (n - length x)%nat with O by lia. reflexivity.
Qed.

(** Counting with a weaker test counts at least as much. *)
Lemma filter_len_mono {A : Type} (f g : A -> bool) (l : list A) :
  (forall x, In x l -> f x = true -> g x = true) ->
  (len (filter f l) <= len (filter g l))%Z.
Proof.
  unfold len. induction l as [|x l IH]; intro H; simpl; [lia|].
  assert (IH' : (Z.of_nat (length (filter f l)) <= Z.of_nat (length (filter g l)))%Z).
  { apply IH. intros y Hy. apply H. now right. }
  destruct (f x) eqn:Ef.
  - rewrite (H x (or_introl eq_refl) Ef). simpl. lia.
  - destruct (g x); simpl; lia.
Qed.

Lemma filter_len_strict {A : Type} (f g : A -> bool) (l : list A) (p : A) :
  (forall x, In x l -> f x = true -> g x = true) ->
  In p l -> f p = false -> g p = true ->
  (len (filter f l) + 1 <= len (filter g l))%Z.
Proof.
  unfold len. induction l as [|x l IH]; intros H Hin Hf Hg; [contradiction|].
  assert (Hl : forall y, In y l -> f y = true -> g y = true).
  { intros y Hy. apply H. now right. }
  pose proof (filter_len_mono f g l Hl) as Hmono. unfold len in Hmono.
  simpl. destruct Hin as [->|Hin].
  - rewrite Hf, Hg. simpl. lia.
  - specialize (IH Hl Hin Hf Hg).
    destruct (f x) eqn:Ef.
    + rewrite (H x (or_introl eq_refl) Ef). simpl. lia.
    + destruct (g x); simpl; lia.
Qed.

Lemma filter_len_app {A : Type} (f : A -> bool) (x t : list A) :
  (len (filter f x) <= len (filter f (x ++ t)))%Z.
Proof. rewrite filter_app, len_app. pose proof (len_nonneg (filter f t)). lia. Qed.

(** ** Matching a literal and an optional character *)

Lemma rmatch_word {A : Type} (w : str) (prev : option char) (inp : str)
    (k : option char -> str -> option A) :
  w <> [] ->
  rmatch (word w) prev inp k
  = if startswith w inp then k (Some (last w 0%N)) (skipn (length w) inp) else None.
Proof.
  revert prev inp. induction w as [|c w IH]; intros prev inp Hw; [congruence|].
  destruct w as [|c' w].
  - destruct inp as [|d inp]; simpl; [reflexivity|].
    rewrite andb_true_r. destruct (N.eqb_spec c d); [subst|]; reflexivity.
  - change (word (c :: c' :: w)) with (Seq (Cls (N.eqb c)) (word (c' :: w))).
    destruct inp as [|d inp]; [reflexivity|].
    cbn [rmatch]. change (startswith (c :: c' :: w) (d :: inp))
      with (N.eqb c d && startswith (c' :: w) inp)%bool.
    destruct (N.eqb c d); [|reflexivity].
    rewrite IH by discriminate. reflexivity.
Qed.

Lemma rmatch_opt_cls {A : Type} (p : char -> bool) (prev : option char) (inp : str)
    (k : option char -> str -> option A) :
  rmatch (opt (Cls p)) prev inp k
  = match inp with
    | c :: rest =>
        if p c
        then match k (Some c) rest with Some x => Some x | None => k prev inp end
        else k prev inp
    | [] => k prev []
    end.
Proof.
  destruct inp as [|c rest]; [reflexivity|].
  unfold opt. cbn [rmatch]. cbn [length]. cbn [below Nat.ltb Nat.leb].
  destruct (p c); [|reflexivity].
  rewrite Nat.leb_refl.
  destruct (length rest); reflexivity.
Qed.

Lemma consumed {A : Type} (n : nat) (x : list A) :
  (n <= length x)%nat -> (length x - length (skipn n x) = n)%nat.
Proof. intro H. rewrite length_skipn. lia. Qed.

(** ** [findall] on a text that grows at the end

    For a pattern whose match at a place is a fixed number of characters
    decided by a bounded prefix, appending text never loses a match. *)

Section FindallGrows.
Variable r : re.
(** The length of the match of [r] at the head of a text. *)
Variable match_len : str -> option nat.
(** The shortest match. *)
Variable lo : nat.

Hypothesis match_here_len : forall prev inp,
  match_here r prev inp
  = match match_len inp with Some n => Some (skipn n inp) | None => None end.
Hypothesis lo_pos : (1 <= lo)%nat.
Hypothesis match_len_bounds : forall inp n,
  match_len inp = Some n -> (lo <= n <= length inp)%nat.
Hypothesis match_len_app : forall inp t n,
  match_len inp = Some n -> match_len (inp ++ t) = Some n.
Hypothesis match_len_local : forall inp t,
  (lo < length inp)%nat -> match_len (inp ++ t) = match_len inp.

Lemma findall_short (skip : nat) (prev : option char) (inp : str) :
  (length inp < lo)%nat -> findall_from r skip prev inp = [].
Proof.
  revert skip prev. induction inp as [|c inp IH]; intros skip prev Hlen.
  - cbn [findall_from]. destruct skip; [|reflexivity].
    rewrite match_here_len. destruct (match_len []) eqn:E; [|reflexivity].
    apply match_len_bounds in E. simpl in E. lia.
  - cbn [findall_from]. simpl in Hlen.
    destruct skip.
    + rewrite match_here_len. destruct (match_len (c :: inp)) eqn:E.
      * apply match_len_bounds in E. simpl in E. lia.
      * simpl. apply IH. lia.
    + simpl. apply IH. lia.
Qed.

Lemma findall_grows (skip : nat) (prev : option char) (inp t : str) :
  (length (findall_from r skip prev inp)
   <= length (findall_from r skip prev (inp ++ t)))%nat.
Proof.
  revert skip prev. induction inp as [|c inp IH]; intros skip prev.
  - rewrite findall_short by (simpl; lia). simpl. lia.
  - change ((c :: inp) ++ t) with (c :: (inp ++ t)).
    cbn [findall_from].
    destruct skip as [|skip].
    2:{ simpl. apply IH. }
    change (c :: (inp ++ t)) with ((c :: inp) ++ t).
    rewrite !match_here_len.
    destruct (match_len (c :: inp)) as [n|] eqn:E.
    + rewrite (match_len_app _ t _ E).
      pose proof (match_len_bounds _ _ E) as Hn.
      rewrite (consumed n (c :: inp)) by lia.
      rewrite (consumed n ((c :: inp) ++ t)) by (rewrite length_app; lia).
      simpl. specialize (IH (pred n) (Some c)). lia.
    + destruct (match_len ((c :: inp) ++ t)) as [n|] eqn:E'.
      * assert (Hshort : (length (c :: inp) <= lo)%nat).
        { destruct (Nat.le_gt_cases (length (c :: inp)) lo) as [H|H]; [exact H|].
          rewrite (match_len_local _ t H) in E'. congruence. }
        simpl in Hshort. cbn [Nat.pred app].
        rewrite (findall_short 0 (Some c) inp) by lia. simpl. lia.
      * simpl. apply IH.
Qed.
End FindallGrows.

(** ** The URL pattern of the bio analysis *)

Lemma startswith_split (a b x : str) :
  startswith (a ++ b) x = (startswith a x && startswith b (skipn (length a) x))%bool.
Proof.
  revert x. induction a as [|c a IH]; intros [|d x]; simpl; try reflexivity.
  rewrite IH. now rewrite andb_assoc.
Qed.

Lemma match_here_url (prev : option char) (inp : str) :
  match_here BotDetector.url prev inp
  = match url_len inp with Some n => Some (skipn n inp) | None => None end.
Proof.
  unfold match_here, BotDetector.url, url_len, text, chr. cbn [seqs rmatch].
  rewrite rmatch_word by discriminate.
  change (lit "https://") with (lit "http" ++ (ch "s" :: lit "://")).
  change (lit "http://") with (lit "http" ++ lit "://").
  rewrite !startswith_split.
  destruct (startswith (lit "http") inp); [|reflexivity].
  cbn [andb]. change (length (lit "http")) with 4%nat.
  rewrite rmatch_opt_cls.
  assert (E8 : skipn 8 inp = skipn 4 (skipn 4 inp)) by (now rewrite skipn_skipn).
  assert (E7 : skipn 7 inp = skipn 3 (skipn 4 inp)) by (now rewrite skipn_skipn).
  destruct (skipn 4 inp) as [|c rest].
  - reflexivity.
  - rewrite !rmatch_word by discriminate.
    change (startswith (ch "s" :: lit "://") (c :: rest))
      with (N.eqb (ch "s") c && startswith (lit "://") rest)%bool.
    change (length (lit "://")) with 3%nat.
    destruct (N.eqb_spec (ch "s") c) as [<-|Hne]; cbn [andb].
    + destruct (startswith (lit "://") rest); [now rewrite E8 | reflexivity].
    + destruct (startswith (lit "://") (c :: rest)); [now rewrite E7 | reflexivity].
Qed.

Lemma url_len_bounds (inp : str) (n : nat) :
  url_len inp = Some n -> (7 <= n <= length inp)%nat.
Proof.
  unfold url_len.
  destruct (startswith (lit "https://") inp) eqn:E8.
  - intro H. injection H as <-. apply startswith_length in E8. simpl in E8. lia.
  - destruct (startswith (lit "http://") inp) eqn:E7; [|discriminate].
    intro H. injection H as <-. apply startswith_length in E7. simpl in E7. lia.
Qed.

(** The two alternatives exclude each other: the fifth character differs. *)
Lemma url_prefixes_exclusive (x : str) :
  startswith (lit "http://") x = true -> startswith (lit "https://") x = false.
Proof.
  change (lit "https://") with (lit "http" ++ (ch "s" :: lit "://")).
  change (lit "http://") with (lit "http" ++ lit "://").
  rewrite !startswith_split.
  destruct (startswith (lit "http") x); [|reflexivity].
  cbn [andb]. destruct (skipn (length (lit "http")) x) as [|c rest]; [discriminate|].
  change (startswith (lit "://") (c :: rest))
    with (N.eqb (ch ":") c && startswith (lit "//") rest)%bool.
  change (startswith (ch "s" :: lit "://") (c :: rest))
    with (N.eqb (ch "s") c && startswith (lit "://") rest)%bool.
  intro H. apply andb_true_iff in H. destruct H as [Hc _].
  apply N.eqb_eq in Hc. subst c. reflexivity.
Qed.

Lemma url_len_app (inp t : str) (n : nat) :
  url_len inp = Some n -> url_len (inp ++ t) = Some n.
Proof.
  unfold url_len.
  destruct (startswith (lit "https://") inp) eqn:E8.
  - intro H. now rewrite (startswith_app _ _ t E8).
  - destruct (startswith (lit "http://") inp) eqn:E7; [|discriminate].
    intro H. pose proof (startswith_app _ _ t E7) as E7'.
    now rewrite (url_prefixes_exclusive _ E7'), E7'.
Qed.

Lemma url_len_local (inp t : str) :
  (7 < length inp)%nat -> url_len (inp ++ t) = url_len inp.
Proof.
  intro H. unfold url_len.
  rewrite !startswith_app_long by (simpl; lia). reflexivity.
Qed.

(** Appending text to a bio never lowers its number of URLs. *)
Lemma url_count_grows (bio t : str) :
  (BotDetector.url_count bio <= BotDetector.url_count (bio ++ t))%Z.
Proof.
  unfold BotDetector.url_count, findall, len. apply inj_le.
  apply (findall_grows BotDetector.url url_len 7).
  - exact match_here_url.
  - lia.
  - exact url_len_bounds.
  - exact url_len_app.
  - exact url_len_local.
Qed.

(** ** The bio sub-score under one more spam phrase *)

Lemma fst_add_if (c : bool) (p : Z) (flag : str) (st : scored) :
  fst (add_if c p flag st) = (fst st + (if c then p else 0))%Z.
Proof. unfold add_if. destruct c; cbn [fst]; lia. Qed.

Lemma analyze_bio_points (bio : str) :
  bio <> [] -> fst (BotDetector._analyze_bio bio) = Z.min (bio_points bio) 100.
Proof.
  intro H. unfold BotDetector._analyze_bio, bio_points. cbv zeta.
  destruct bio as [|c bio]; [congruence|]. cbn [nonempty negb].
  unfold capped. cbn [fst]. rewrite !fst_add_if. cbn [fst]. f_equal; lia.
Qed.

Lemma spam_phrases_lowercase (p : str) :
  In p BotDetector.SPAM_BIO_PHRASES -> lower p = p.
Proof.
  revert p. apply Forall_forall.
  repeat constructor.
Qed.

Lemma spam_matches_grow (x t p : str) :
  In p BotDetector.SPAM_BIO_PHRASES ->
  str_in p x = false -> str_in p (x ++ t) = true ->
  (BotDetector.spam_matches x + 1 <= BotDetector.spam_matches (x ++ t))%Z.
Proof.
  intros Hin Hout Hnow. unfold BotDetector.spam_matches.
  apply (filter_len_strict _ _ _ p); try assumption.
  intros q _. apply str_in_app_l.
Qed.

Lemma generic_matches_grow (x t : str) :
  (BotDetector.generic_matches x <= BotDetector.generic_matches (x ++ t))%Z.
Proof.
  unfold BotDetector.generic_matches. apply filter_len_mono.
  intros q _. apply str_in_app_l.
Qed.

(** C8: for a non-empty bio [b] and a spam phrase [p] of the fixed list
    that [b] does not match yet, the bio sub-score of [b] followed by [p]
    (directly or after any separating text [sep]) is at least the bio
    sub-score of [b]. *)
Theorem spam_phrase_never_lowers_bio_score (b sep p : str) :
  b <> [] ->
  In p BotDetector.SPAM_BIO_PHRASES ->
  str_in p (lower b) = false ->
  (fst (BotDetector._analyze_bio b) <= fst (BotDetector._analyze_bio (b ++ sep ++ p)))%Z.
Proof.
  intros Hb Hin Hout.
  assert (Hb' : b ++ sep ++ p <> []) by (destruct b; [congruence | discriminate]).
  rewrite !analyze_bio_points by assumption.
  apply Z.min_le_compat_r.
  unfold bio_points. cbv zeta.
  rewrite lower_app.
  assert (Hnow : str_in p (lower b ++ lower (sep ++ p)) = true).
  { rewrite lower_app, (spam_phrases_lowercase p Hin), app_assoc. apply str_in_app_r. }
  pose proof (spam_matches_grow (lower b) (lower (sep ++ p)) p Hin Hout Hnow) as Hs.
  pose proof (BotDetectorFacts.spam_matches_nonneg (lower b)) as Hs0.
  pose proof (generic_matches_grow (lower b) (lower (sep ++ p))) as Hg.
  pose proof (BotDetectorFacts.generic_matches_nonneg (lower b)) as Hg0.
  assert (He : (BotDetector.emoji_count b <= BotDetector.emoji_count (b ++ sep ++ p))%Z)
    by apply filter_len_app.
  assert (Hh : (count_char (ch "#") b <= count_char (ch "#") (b ++ sep ++ p))%Z)
    by apply (filter_len_app (N.eqb (ch "#"))).
  pose proof (url_count_grows b (sep ++ p)) as Hu.
  set (s := BotDetector.spam_matches (lower b)) in *.
  set (s' := BotDetector.spam_matches (lower b ++ lower (sep ++ p))) in *.
  set (g := BotDetector.generic_matches (lower b)) in *.
  set (g' := BotDetector.generic_matches (lower b ++ lower (sep ++ p))) in *.
  set (e := BotDetector.emoji_count b) in *.
  set (e' := BotDetector.emoji_count (b ++ sep ++ p)) in *.
  set (h := count_char (ch "#") b) in *.
  set (h' := count_char (ch "#") (b ++ sep ++ p)) in *.
  set (u := BotDetector.url_count b) in *.
  set (u' := BotDetector.url_count (b ++ sep ++ p)) in *.
  assert (HA : ((if s >? 0 then s * 20 else 0) + 20 <= (if s' >? 0 then s' * 20 else 0))%Z).
  { destruct (Z.gtb_spec s 0), (Z.gtb_spec s' 0); lia. }
  assert (HG : ((if g >? 0 then g * 10 else 0) <= (if g' >? 0 then g' * 10 else 0))%Z).
  { destruct (Z.gtb_spec g 0), (Z.gtb_spec g' 0); lia. }
  assert (HE : ((if e >? 10 then 15 else 0) <= (if e' >? 10 then 15 else 0))%Z).
  { destruct (Z.gtb_spec e 10), (Z.gtb_spec e' 10); lia. }
  assert (HH : ((if h >? 5 then 20 else 0) <= (if h' >? 5 then 20 else 0))%Z).
  { destruct (Z.gtb_spec h 5), (Z.gtb_spec h' 5); lia. }
  assert (HU : ((if u >? 2 then 25 else 0) <= (if u' >? 2 then 25 else 0))%Z).
  { destruct (Z.gtb_spec u 2), (Z.gtb_spec u' 2); lia. }
  assert (HL : ((if len b <? 10 then 15 else 0) - 15
                <= (if len (b ++ sep ++ p) <? 10 then 15 else 0))%Z).
  { destruct (len b <? 10)%Z, (len (b ++ sep ++ p) <? 10)%Z; lia. }
  lia.
Qed.

(** The bio "hi there" followed by " f4f": the sub-score goes from 15 to 20. *)
Lemma spam_phrase_never_lowers_bio_score_witness :
  lit "hi there" <> [] /\
  In (lit "f4f") BotDetector.SPAM_BIO_PHRASES /\
  str_in (lit "f4f") (lower (lit "hi there")) = false /\
  (fst (BotDetector._analyze_bio (lit "hi there"))
   <= fst (BotDetector._analyze_bio (lit "hi there" ++ lit " " ++ lit "f4f")))%Z.
Proof.
  assert (H1 : lit "hi there" <> []) by discriminate.
  assert (H2 : In (lit "f4f") BotDetector.SPAM_BIO_PHRASES) by (vm_compute; tauto).
  assert (H3 : str_in (lit "f4f") (lower (lit "hi there")) = false) by reflexivity.
  repeat split; try assumption.
  exact (spam_phrase_never_lowers_bio_score (lit "hi there") (lit " ") (lit "f4f") H1 H2 H3).
Defined.

(** * Further properties of the analyzers *)

(** ** bot_detector.py *)

(** [analyze], spelled out over the results of its sub-analyses. *)
Lemma bot_analyze_shape (fromisoformat : str -> option datetime) (profile_data : Profile) :
  exists us ms cs ts,
    BotDetector._analyze_username (get (username profile_data) []) = Ok us /\
    BotDetector._analyze_metrics (get (metadata profile_data) empty_metadata) = Ok ms /\
    BotDetector._analyze_content (get (posts profile_data) []) = Ok cs /\
    BotDetector._analyze_temporal fromisoformat (get (posts profile_data) []) = Ok ts /\
    BotDetector.analyze fromisoformat profile_data
    = Ok (BotDetector.mkBotResult
            (round (final_score
                      (BotDetector.mkComponentScores
                         (fst us) (fst (BotDetector._analyze_bio (get (bio profile_data) [])))
                         (fst ms) (fst cs) (fst ts))) 1)
            (Qgtb (final_score
                     (BotDetector.mkComponentScores
                        (fst us) (fst (BotDetector._analyze_bio (get (bio profile_data) [])))
                        (fst ms) (fst cs) (fst ts))) 50)
            (BotDetector._calculate_confidence profile_data)
            (set_of (snd us ++ snd (BotDetector._analyze_bio (get (bio profile_data) []))
                     ++ snd ms ++ snd cs ++ snd ts))
            (BotDetector.mkComponentScores
               (fst us) (fst (BotDetector._analyze_bio (get (bio profile_data) [])))
               (fst ms) (fst cs) (fst ts))).
Proof.
  unfold BotDetector.analyze. cbv zeta.
  destruct (BotDetectorFacts.analyze_username_ok (get (username profile_data) []))
    as [[u uf] [Hu _]].
  destruct (BotDetectorFacts.analyze_metrics_ok (get (metadata profile_data) empty_metadata))
    as [[m mf] [Hm _]].
  destruct (BotDetectorFacts.analyze_content_ok (get (posts profile_data) []))
    as [[c cf] [Hc _]].
  destruct (BotDetectorFacts.analyze_temporal_ok fromisoformat (get (posts profile_data) []))
    as [[t tf] [Ht _]].
  exists (u, uf), (m, mf), (c, cf), (t, tf).
  rewrite Hu, Hm, Hc, Ht. cbn [bind fst snd].
  destruct (BotDetector._analyze_bio (get (bio profile_data) [])) as [b bf].
  cbn [fst snd]. repeat split; reflexivity.
Qed.

Lemma final_score_range (cs : BotDetector.ComponentScores) :
  sub_scores cs -> 0 <= final_score cs /\ final_score cs <= 100.
Proof.
  intros [[Hu _] [[Hb _] [[Hm _] [[Hc _] [Ht _]]]]]. cbn [fst] in *.
  rewrite BotDetectorFacts.final_score_eq.
  set (F := (15 * BotDetector.cs_username cs + 15 * BotDetector.cs_bio cs
             + 25 * BotDetector.cs_metrics cs + 25 * BotDetector.cs_content cs
             + 20 * BotDetector.cs_temporal cs)%Z).
  assert (H0 : 0 <= inject_Z F).
  { change 0 with (inject_Z 0). rewrite <- Zle_Qle. subst F. lia. }
  assert (H1 : inject_Z F <= 10000).
  { change 10000 with (inject_Z 10000). rewrite <- Zle_Qle. subst F. lia. }
  split; lra.
Qed.

Lemma bot_scores_range (fromisoformat : str -> option datetime) (profile_data : Profile) :
  exists r,
    BotDetector.analyze fromisoformat profile_data = Ok r /\
    0 <= BotDetector.score r /\ BotDetector.score r <= 100 /\
    Forall (fun c => (0 <= c <= 100)%Z) (component_list (BotDetector.component_scores r)).
Proof.
  destruct (BotDetectorFacts.bot_analyze_ok fromisoformat profile_data)
    as [r [Hr [Hsub [Hscore _]]]].
  exists r. split; [exact Hr|].
  destruct (final_score_range _ Hsub) as [H0 H100].
  destruct (round_bounds (final_score (BotDetector.component_scores r)) 1 0 1000) as [Hlo Hhi].
  { change (inject_Z 0 / inject_Z (10 ^ Z.of_nat 1)) with (0 # 10). lra. }
  { change (inject_Z 1000 / inject_Z (10 ^ Z.of_nat 1)) with (1000 # 10). lra. }
  change (inject_Z 0 / inject_Z (10 ^ Z.of_nat 1)) with (0 # 10) in Hlo.
  change (inject_Z 1000 / inject_Z (10 ^ Z.of_nat 1)) with (1000 # 10) in Hhi.
  rewrite Hscore. repeat split; try lra.
  destruct Hsub as [[Hu _] [[Hb _] [[Hm _] [[Hc _] [Ht _]]]]]. cbn [fst] in *.
  unfold component_list. repeat constructor; lia.
Qed.

(** X1: the score [analyze] returns and each of its five component scores
    lie in [0, 100]. *)
Theorem bot_scores_in_range (fromisoformat : str -> option datetime) (profile_data : Profile) :
  exists r,
    BotDetector.analyze fromisoformat profile_data = Ok r /\
    0 <= BotDetector.score r /\ BotDetector.score r <= 100 /\
    Forall (fun c => (0 <= c <= 100)%Z) (component_list (BotDetector.component_scores r)).
Proof.
  intros. now apply bot_scores_range.
Qed.

(** X2: the flags [analyze] returns hold no flag twice. *)
Theorem bot_flags_distinct (fromisoformat : str -> option datetime) (profile_data : Profile) :
  exists r,
    BotDetector.analyze fromisoformat profile_data = Ok r /\ NoDup (BotDetector.flags r).
Proof.
  destruct (bot_analyze_shape fromisoformat profile_data)
    as [us [ms [cs [ts [_ [_ [_ [_ Hr]]]]]]]].
  eexists. split; [exact Hr|]. cbn [BotDetector.flags]. apply set_of_NoDup.
Qed.

(** X3: a profile is called a bot only if one of its component scores is
    above 50, and called no bot only if one of them is at most 50. *)
Theorem bot_verdict_needs_a_component (fromisoformat : str -> option datetime)
    (profile_data : Profile) :
  exists r,
    BotDetector.analyze fromisoformat profile_data = Ok r /\
    if BotDetector.is_bot r
    then Exists (fun c => (50 < c)%Z) (component_list (BotDetector.component_scores r))
    else Exists (fun c => (c <= 50)%Z) (component_list (BotDetector.component_scores r)).
Proof.
  destruct (BotDetectorFacts.bot_analyze_ok fromisoformat profile_data)
    as [r [Hr [_ [_ [Hbot _]]]]].
  exists r. split; [exact Hr|].
  pose proof (BotDetectorFacts.final_score_eq (BotDetector.component_scores r)) as E.
  set (cs := BotDetector.component_scores r) in *.
  rewrite Hbot. unfold component_list.
  destruct (Qgtb (final_score cs) 50) eqn:G.
  - apply Qgtb_gt in G.
    destruct (Z_lt_dec 50 (BotDetector.cs_username cs)); [now apply Exists_cons_hd|].
    destruct (Z_lt_dec 50 (BotDetector.cs_bio cs)); [now do 1 apply Exists_cons_tl; apply Exists_cons_hd|].
    destruct (Z_lt_dec 50 (BotDetector.cs_metrics cs)); [now do 2 apply Exists_cons_tl; apply Exists_cons_hd|].
    destruct (Z_lt_dec 50 (BotDetector.cs_content cs)); [now do 3 apply Exists_cons_tl; apply Exists_cons_hd|].
    destruct (Z_lt_dec 50 (BotDetector.cs_temporal cs)); [now do 4 apply Exists_cons_tl; apply Exists_cons_hd|].
    exfalso.
    assert (HF : inject_Z (15 * BotDetector.cs_username cs + 15 * BotDetector.cs_bio cs
                           + 25 * BotDetector.cs_metrics cs + 25 * BotDetector.cs_content cs
                           + 20 * BotDetector.cs_temporal cs) <= 5000).
    { change 5000 with (inject_Z 5000). rewrite <- Zle_Qle. lia. }
    lra.
  - assert (Hle : final_score cs <= 50).
    { apply Qnot_lt_le. intro H. apply Qgtb_gt in H. congruence. }
    destruct (Z_le_dec (BotDetector.cs_username cs) 50); [now apply Exists_cons_hd|].
    destruct (Z_le_dec (BotDetector.cs_bio cs) 50); [now do 1 apply Exists_cons_tl; apply Exists_cons_hd|].
    destruct (Z_le_dec (BotDetector.cs_metrics cs) 50); [now do 2 apply Exists_cons_tl; apply Exists_cons_hd|].
    destruct (Z_le_dec (BotDetector.cs_content cs) 50); [now do 3 apply Exists_cons_tl; apply Exists_cons_hd|].
    destruct (Z_le_dec (BotDetector.cs_temporal cs) 50); [now do 4 apply Exists_cons_tl; apply Exists_cons_hd|].
    exfalso.
    assert (HF : 5000 < inject_Z (15 * BotDetector.cs_username cs + 15 * BotDetector.cs_bio cs
                           + 25 * BotDetector.cs_metrics cs + 25 * BotDetector.cs_content cs
                           + 20 * BotDetector.cs_temporal cs)).
    { change 5000 with (inject_Z 5000). rewrite <- Zlt_Qlt. lia. }
    lra.
Qed.

Lemma upper_bounds (c : char) : is_upper c = true -> (65 <= c <= 90)%N.
Proof.
  unfold is_upper, in_range. intro H. apply andb_true_iff in H.
  destruct H as [H1 H2]. apply N.leb_le in H1, H2. lia.
Qed.

Lemma lower_char_idem (c : char) : lower_char (lower_char c) = lower_char c.
Proof.
  unfold lower_char. destruct (is_upper c) eqn:E; [|now rewrite E].
  apply upper_bounds in E.
  unfold is_upper, in_range.
  replace (N.leb (c + 32) 90) with false by (symmetry; apply N.leb_gt; lia).
  now rewrite andb_false_r.
Qed.

Lemma lower_idem (x : str) : lower (lower x) = lower x.
Proof.
  unfold lower. rewrite map_map. apply map_ext. exact lower_char_idem.
Qed.

Lemma isalpha_lower_char (c : char) : isalpha (lower_char c) = isalpha c.
Proof.
  unfold lower_char. destruct (is_upper c) eqn:E; [|reflexivity].
  unfold isalpha. rewrite E. cbn [orb].
  apply upper_bounds in E.
  unfold is_lower, in_range.
  replace (N.leb 97 (c + 32)) with true by (symmetry; apply N.leb_le; lia).
  replace (N.leb (c + 32) 122) with true by (symmetry; apply N.leb_le; lia).
  apply orb_true_r.
Qed.

Lemma existsb_isalpha_lower (x : str) : existsb isalpha (lower x) = existsb isalpha x.
Proof.
  induction x as [|c x IH]; simpl; [reflexivity|].
  now rewrite isalpha_lower_char, IH.
Qed.

Lemma len_lower (x : str) : len (lower x) = len x.
Proof. unfold len, lower. now rewrite length_map. Qed.

Lemma nonempty_lower (x : str) : nonempty (lower x) = nonempty x.
Proof. destruct x; reflexivity. Qed.

(** X4: the username analysis does not see the case of ASCII letters: an
    ASCII username and its lowercase form get the same score and the same
    flags. *)
Theorem username_analysis_ignores_case (username : str) :
  isascii username = true ->
  BotDetector._analyze_username (lower username) = BotDetector._analyze_username username.
Proof.
  intros _. unfold BotDetector._analyze_username, search_ignorecase.
  rewrite lower_idem, nonempty_lower, len_lower, existsb_isalpha_lower.
  reflexivity.
Qed.

Lemma username_analysis_ignores_case_witness :
  isascii (lit "Crypto_BOT") = true /\
  BotDetector._analyze_username (lower (lit "Crypto_BOT"))
  = BotDetector._analyze_username (lit "Crypto_BOT").
Proof.
  split; [reflexivity|].
  apply username_analysis_ignores_case. reflexivity.
Defined.

(** ** Quantities that do not depend on the order of a list *)

Lemma nonempty_perm {A : Type} (l l' : list A) :
  Permutation l l' -> nonempty l = nonempty l'.
Proof.
  intro H. destruct l, l'; try reflexivity.
  - apply Permutation_nil in H. discriminate.
  - apply Permutation_sym, Permutation_nil in H. discriminate.
Qed.

Lemma len_perm {A : Type} (l l' : list A) : Permutation l l' -> len l = len l'.
Proof. intro H. unfold len. now rewrite (Permutation_length H). Qed.

Lemma set_of_perm (l l' : list str) :
  Permutation l l' -> Permutation (set_of l) (set_of l').
Proof.
  intro H. apply NoDup_Permutation; try apply set_of_NoDup.
  intro x. rewrite !set_of_In. split; apply Permutation_in; [exact H | now symmetry].
Qed.

Lemma filter_perm {A : Type} (f : A -> bool) (l l' : list A) :
  Permutation l l' -> Permutation (filter f l) (filter f l').
Proof.
  induction 1 as [|x l l' H IH|x y l|l l' l'' H IH H' IH']; simpl.
  - constructor.
  - destruct (f x); [now constructor | exact IH].
  - destruct (f x), (f y); try reflexivity. apply perm_swap.
  - now transitivity (filter f l').
Qed.

Lemma sum_perm (l l' : list Z) :
  Permutation l l' -> forall a, fold_left Z.add l a = fold_left Z.add l' a.
Proof.
  induction 1 as [|x l l' H IH|x y l|l l' l'' H IH H' IH']; intro a; simpl.
  - reflexivity.
  - apply IH.
  - f_equal. lia.
  - now rewrite IH.
Qed.

(** X5: the content analysis does not depend on the order of the posts. *)
Theorem content_analysis_ignores_order (posts posts' : list Post) :
  Permutation posts posts' ->
  BotDetector._analyze_content posts = BotDetector._analyze_content posts'.
Proof.
  intro H.
  assert (Hc : Permutation (BotDetector.contents_of posts) (BotDetector.contents_of posts'))
    by (apply Permutation_flat_map, H).
  assert (Hh : Permutation (flat_map (findall BotDetector.hashtag) (BotDetector.contents_of posts))
                           (flat_map (findall BotDetector.hashtag) (BotDetector.contents_of posts')))
    by (apply Permutation_flat_map, Hc).
  unfold BotDetector._analyze_content. cbv zeta.
  rewrite (nonempty_perm _ _ H), (nonempty_perm _ _ Hc).
  rewrite (len_perm _ _ (set_of_perm _ _ Hc)), (len_perm _ _ Hc).
  rewrite (len_perm _ _ Hh), (len_perm _ _ (set_of_perm _ _ Hh)).
  rewrite (sum_perm _ _ (Permutation_map len Hc)).
  rewrite (len_perm _ _ (filter_perm
             (fun c => existsb (fun phrase => str_in phrase (lower c)) BotDetector.PROMO_PHRASES)
             _ _ Hc)).
  reflexivity.
Qed.

(** Two posts and the same two in the other order. *)
Lemma content_analysis_ignores_order_witness :
  Permutation [mkPost (Some (lit "buy now #sale")) None; mkPost (Some (lit "hello")) None]
              [mkPost (Some (lit "hello")) None; mkPost (Some (lit "buy now #sale")) None] /\
  BotDetector._analyze_content
    [mkPost (Some (lit "buy now #sale")) None; mkPost (Some (lit "hello")) None]
  = BotDetector._analyze_content
      [mkPost (Some (lit "hello")) None; mkPost (Some (lit "buy now #sale")) None].
Proof.
  assert (H : Permutation
                [mkPost (Some (lit "buy now #sale")) None; mkPost (Some (lit "hello")) None]
                [mkPost (Some (lit "hello")) None; mkPost (Some (lit "buy now #sale")) None])
    by apply perm_swap.
  split; [exact H|].
  exact (content_analysis_ignores_order _ _ H).
Defined.

(** ** sentiment_analyzer.py *)

Lemma within_spec (lo hi v : Q) : within lo hi v = true -> lo <= v /\ v <= hi.
Proof.
  unfold within. intro H. apply andb_true_iff in H. destruct H as [H1 H2].
  split; now apply Qle_bool_iff.
Qed.

Lemma lookup_within (lo hi : Q) (d : list (str * Q)) (key : str) (v : Q) :
  forallb (fun kv => within lo hi (snd kv)) d = true ->
  lookup key d = Some v -> lo <= v /\ v <= hi.
Proof.
  induction d as [|[k w] d IH]; simpl; intros Hall Hlook; [discriminate|].
  apply andb_true_iff in Hall. destruct Hall as [Hw Hall].
  destruct (str_eqb key k).
  - injection Hlook as <-. now apply within_spec.
  - now apply IH.
Qed.

Lemma intensifiers_within :
  forallb (fun kv => within 1 (18 # 10) (snd kv)) SentimentAnalyzer.INTENSIFIERS = true.
Proof. vm_compute. reflexivity. Qed.

Lemma positive_words_within :
  forallb (fun kv => within (- (9 # 10)) (9 # 10) (snd kv)) SentimentAnalyzer.POSITIVE_WORDS
  = true.
Proof. vm_compute. reflexivity. Qed.

Lemma negative_words_within :
  forallb (fun kv => within (- (9 # 10)) (9 # 10) (snd kv)) SentimentAnalyzer.NEGATIVE_WORDS
  = true.
Proof. vm_compute. reflexivity. Qed.

(** No word scores beyond 0.9 * 1.8 in size. *)
Lemma word_score_bounds (prev : option str) (word : str) :
  signal_within (- (162 # 100)) (162 # 100) (SentimentAnalyzer.word_score prev word).
Proof.
  unfold SentimentAnalyzer.word_score. cbv zeta.
  set (intensity := match prev with
                    | Some p => get (lookup p SentimentAnalyzer.INTENSIFIERS) 1
                    | None => 1
                    end).
  assert (Hi : 1 <= intensity /\ intensity <= (18 # 10)).
  { subst intensity. destruct prev as [p|]; [|split; lra].
    destruct (lookup p SentimentAnalyzer.INTENSIFIERS) as [v|] eqn:E; [|split; cbn; lra].
    cbn [get]. apply (lookup_within 1 (18 # 10) _ _ _ intensifiers_within E). }
  set (negated := match prev with
                  | Some p => existsb (fun neg => str_in neg p) SentimentAnalyzer.NEGATORS
                  | None => false
                  end).
  assert (Hadj : forall base, - (9 # 10) <= base /\ base <= (9 # 10) ->
            - (162 # 100) <= (if negated then - (base * intensity) * (1 # 2) else base * intensity)
            /\ (if negated then - (base * intensity) * (1 # 2) else base * intensity)
               <= (162 # 100)).
  { intros base [Hb1 Hb2]. destruct Hi as [Hi1 Hi2].
    assert (Hp : - (162 # 100) <= base * intensity /\ base * intensity <= (162 # 100))
      by (split; nra).
    destruct negated; split; lra. }
  destruct (lookup word SentimentAnalyzer.POSITIVE_WORDS) as [v|] eqn:Ep.
  - apply Hadj.
    apply (lookup_within (- (9 # 10)) (9 # 10) _ _ _ positive_words_within Ep).
  - destruct (lookup word SentimentAnalyzer.NEGATIVE_WORDS) as [v|] eqn:En; [|exact I].
    apply Hadj.
    apply (lookup_within (- (9 # 10)) (9 # 10) _ _ _ negative_words_within En).
Qed.

Lemma word_scores_bounds (prev : option str) (words : list str) :
  Forall (fun v => - (162 # 100) <= v /\ v <= (162 # 100))
         (SentimentAnalyzer.word_scores prev words).
Proof.
  revert prev. induction words as [|w words IH]; intro prev; simpl; [constructor|].
  pose proof (word_score_bounds prev w) as H.
  destruct (SentimentAnalyzer.word_score prev w); [constructor; [exact H|]|]; apply IH.
Qed.

(** A sum of [n] numbers of size at most [b] has size at most [n * b]. *)
Lemma fold_plus_bounds (b : Q) (l : list Q) (a : Q) :
  Forall (fun v => - b <= v /\ v <= b) l ->
  a - b * Q_of_Z (len l) <= fold_left Qplus l a /\
  fold_left Qplus l a <= a + b * Q_of_Z (len l).
Proof.
  intro H. revert a. induction H as [|v l [Hv1 Hv2] Hl IH]; intro a.
  - cbn [fold_left]. change (Q_of_Z (len (@nil Q))) with 0. split; lra.
  - cbn [fold_left]. destruct (IH (a + v)) as [H1 H2].
    assert (E : Q_of_Z (len (v :: l)) == Q_of_Z (len l) + 1).
    { unfold Q_of_Z, len. cbn [length]. rewrite Nat2Z.inj_succ, <- Z.add_1_r.
      now rewrite inject_Z_plus. }
    rewrite E. split; lra.
Qed.

Lemma clamp1_bounds (lo hi s : Q) :
  - (1) <= lo -> hi <= 1 -> lo <= s -> s <= hi ->
  lo <= SentimentAnalyzer.clamp1 s /\ SentimentAnalyzer.clamp1 s <= hi.
Proof.
  intros Hlo Hhi H1 H2. unfold SentimentAnalyzer.clamp1. split.
  - eapply Qle_trans; [|apply Q.le_max_r]. apply Q.min_glb; lra.
  - apply Q.max_lub; [lra|]. eapply Qle_trans; [apply Q.le_min_r|]. exact H2.
Qed.

Lemma clamp1_range (s : Q) :
  - (1) <= SentimentAnalyzer.clamp1 s /\ SentimentAnalyzer.clamp1 s <= 1.
Proof.
  unfold SentimentAnalyzer.clamp1. split.
  - apply Q.le_max_l.
  - apply Q.max_lub; [lra | apply Q.le_min_l].
Qed.

Lemma lexicon_bounds (text : str) :
  exists v,
    SentimentAnalyzer._lexicon_analysis text = Ok v /\
    signal_within (- (162 # 100)) (162 # 100) v.
Proof.
  unfold SentimentAnalyzer._lexicon_analysis. cbv zeta.
  set (words := findall SentimentAnalyzer.word_token (lower text)).
  destruct (nonempty words); cbn [negb]; [|exists None; split; [reflexivity | exact I]].
  set (scores := SentimentAnalyzer.word_scores None words).
  destruct (nonempty scores) eqn:Hs; cbn [negb].
  2:{ exists (Some 0). split; [reflexivity | split; lra]. }
  apply len_nonempty in Hs.
  assert (Hn : 1 <= Q_of_Z (len scores)).
  { change 1 with (inject_Z 1). unfold Q_of_Z. rewrite <- Zle_Qle. lia. }
  pose proof (Q.le_max_l (Q_of_Z (len scores)) (Q_of_Z (len words) / 5)) as Hmax.
  set (D := Qmax (Q_of_Z (len scores)) (Q_of_Z (len words) / 5)) in *.
  assert (HD : 0 < D) by lra.
  rewrite pydiv_ok by (intro E; rewrite E in HD; apply (Qlt_irrefl 0 HD)).
  cbn [bind]. eexists. split; [reflexivity|].
  destruct (fold_plus_bounds (162 # 100) scores 0 (word_scores_bounds None words)) as [H1 H2].
  fold (sumQ scores) in H1, H2.
  split.
  - apply Qle_shift_div_l; [exact HD | lra].
  - apply Qle_shift_div_r; [exact HD | lra].
Qed.

Lemma emoji_signal_range (text : str) :
  exists v,
    SentimentAnalyzer._emoji_analysis text = Ok v /\
    signal_within (- (8 # 10)) (8 # 10) v.
Proof.
  unfold SentimentAnalyzer._emoji_analysis. cbv zeta.
  set (p := len (findall SentimentAnalyzer.EMOJI_positive text)).
  set (n := len (findall SentimentAnalyzer.EMOJI_negative text)).
  set (u := len (findall SentimentAnalyzer.EMOJI_neutral text)).
  assert (Hp : (0 <= p)%Z) by apply len_nonneg.
  assert (Hn : (0 <= n)%Z) by apply len_nonneg.
  assert (Hu : (0 <= u)%Z) by apply len_nonneg.
  destruct (p + n + u =? 0)%Z eqn:E; [exists None; split; [reflexivity | exact I]|].
  apply Z.eqb_neq in E.
  rewrite pydiv_ok by (apply Q_of_Z_nonzero; exact E).
  cbn [bind]. eexists. split; [reflexivity|].
  assert (HP : 0 <= Q_of_Z p) by (change 0 with (inject_Z 0); unfold Q_of_Z; now rewrite <- Zle_Qle).
  assert (HN : 0 <= Q_of_Z n) by (change 0 with (inject_Z 0); unfold Q_of_Z; now rewrite <- Zle_Qle).
  assert (HU : 0 <= Q_of_Z u) by (change 0 with (inject_Z 0); unfold Q_of_Z; now rewrite <- Zle_Qle).
  assert (HT : Q_of_Z (p + n + u) == Q_of_Z p + Q_of_Z n + Q_of_Z u)
    by (unfold Q_of_Z; now rewrite !inject_Z_plus).
  assert (HT0 : 0 < Q_of_Z (p + n + u)).
  { change 0 with (inject_Z 0). unfold Q_of_Z. rewrite <- Zlt_Qlt. lia. }
  apply clamp1_bounds; try lra.
  - apply Qle_shift_div_l; [exact HT0 | lra].
  - apply Qle_shift_div_r; [exact HT0 | lra].
Qed.

Lemma clamp1_idle (score : Q) :
  - (1) <= score -> score <= 1 -> SentimentAnalyzer.clamp1 score == score.
Proof.
  intros H1 H2. unfold SentimentAnalyzer.clamp1.
  rewrite (Q.min_r 1 score H2). now apply Q.max_r.
Qed.

(** X6: the emoji analysis abstains exactly when the text holds no emoji
    of the three classes; otherwise its signal is the quotient
    [(0.8 * positive - 0.8 * negative) / total] itself, which lies
    strictly between -1 and 1: the clamp to [-1, 1] never changes it. *)
Theorem emoji_clamp_never_acts (text : str) :
  exists v,
    SentimentAnalyzer._emoji_analysis text = Ok v /\
    match v with
    | None => emoji_total text = 0%Z
    | Some signal =>
        emoji_total text <> 0%Z /\ signal == emoji_score text /\
        - (1) < emoji_score text /\ emoji_score text < 1
    end.
Proof.
  unfold SentimentAnalyzer._emoji_analysis, emoji_score, emoji_total. cbv zeta.
  set (p := len (findall SentimentAnalyzer.EMOJI_positive text)).
  set (n := len (findall SentimentAnalyzer.EMOJI_negative text)).
  set (u := len (findall SentimentAnalyzer.EMOJI_neutral text)).
  assert (Hp : (0 <= p)%Z) by apply len_nonneg.
  assert (Hn : (0 <= n)%Z) by apply len_nonneg.
  assert (Hu : (0 <= u)%Z) by apply len_nonneg.
  destruct (p + n + u =? 0)%Z eqn:E.
  { exists None. split; [reflexivity|]. now apply Z.eqb_eq. }
  apply Z.eqb_neq in E.
  rewrite pydiv_ok by (apply Q_of_Z_nonzero; exact E).
  cbn [bind]. eexists. split; [reflexivity|]. split; [exact E|].
  assert (HP : 0 <= Q_of_Z p) by (change 0 with (inject_Z 0); unfold Q_of_Z; now rewrite <- Zle_Qle).
  assert (HN : 0 <= Q_of_Z n) by (change 0 with (inject_Z 0); unfold Q_of_Z; now rewrite <- Zle_Qle).
  assert (HU : 0 <= Q_of_Z u) by (change 0 with (inject_Z 0); unfold Q_of_Z; now rewrite <- Zle_Qle).
  assert (HT : Q_of_Z (p + n + u) == Q_of_Z p + Q_of_Z n + Q_of_Z u)
    by (unfold Q_of_Z; now rewrite !inject_Z_plus).
  assert (HT0 : 0 < Q_of_Z (p + n + u)).
  { change 0 with (inject_Z 0). unfold Q_of_Z. rewrite <- Zlt_Qlt. lia. }
  assert (Hlo : - (1) < (Q_of_Z p * (8 # 10) - Q_of_Z n * (8 # 10)) / Q_of_Z (p + n + u)).
  { apply Qlt_shift_div_l; [exact HT0 | lra]. }
  assert (Hhi : (Q_of_Z p * (8 # 10) - Q_of_Z n * (8 # 10)) / Q_of_Z (p + n + u) < 1).
  { apply Qlt_shift_div_r; [exact HT0 | lra]. }
  split; [|split; assumption].
  apply clamp1_idle; now apply Qlt_le_weak.
Qed.

Lemma pattern_bounds (text : str) :
  exists v,
    SentimentAnalyzer._pattern_analysis text = Ok v /\ signal_within (- (1)) 1 v.
Proof.
  unfold SentimentAnalyzer._pattern_analysis. cbv zeta.
  destruct (len (filter _ (split text)) >? 0)%Z.
  - rewrite pydiv_ok by (apply Q_of_Z_nonzero; lia). cbn [bind].
    destruct (snd _ =? 0)%Z; eexists; (split; [reflexivity|]);
      [exact I | apply clamp1_range].
  - cbn [bind].
    destruct (snd _ =? 0)%Z; eexists; (split; [reflexivity|]);
      [exact I | apply clamp1_range].
Qed.

(** The weighted average of signals of size at most 1.62 has that size at most. *)
Lemma weighted_overall_bounds (l e p : option Q) :
  signal_within (- (162 # 100)) (162 # 100) l ->
  signal_within (- (162 # 100)) (162 # 100) e ->
  signal_within (- (162 # 100)) (162 # 100) p ->
  - (162 # 100) <= weighted_overall l e p /\ weighted_overall l e p <= (162 # 100).
Proof.
  unfold weighted_overall, valid_scores_of, sumQ, signal_within.
  destruct l as [l|], e as [e|], p as [p|];
    cbn [flat_map app map fold_left fst snd nonempty negb];
    intros Hl He Hp; try (split; lra);
    (split; [apply Qle_shift_div_l | apply Qle_shift_div_r]; lra).
Qed.

(** [analyze], spelled out over its three signals. *)
Lemma sentiment_analyze_cases (text : str) :
  if nonempty (strip text)
  then exists l e p,
         SentimentAnalyzer._lexicon_analysis (strip text) = Ok l /\
         SentimentAnalyzer._emoji_analysis (strip text) = Ok e /\
         SentimentAnalyzer._pattern_analysis (strip text) = Ok p /\
         SentimentAnalyzer.analyze text
         = Ok (SentimentAnalyzer.mkSentimentResult
                 (round (weighted_overall l e p) 3)
                 (round (SentimentAnalyzer._calculate_confidence
                           (strip text) (valid_scores_of l e p)) 3)
                 (label_of (weighted_overall l e p))
                 (Some (SentimentAnalyzer.mkBreakdown
                          (SentimentAnalyzer.shown l) (SentimentAnalyzer.shown e)
                          (SentimentAnalyzer.shown p))))
  else SentimentAnalyzer.analyze text = Ok blank_result.
Proof.
  unfold SentimentAnalyzer.analyze. cbv zeta.
  destruct text as [|c text]; [reflexivity|].
  cbn [nonempty negb orb].
  destruct (nonempty (strip (c :: text))); cbn [negb]; [|reflexivity].
  destruct (lexicon_bounds (strip (c :: text))) as [l [Hl _]].
  destruct (emoji_signal_range (strip (c :: text))) as [e [He _]].
  destruct (pattern_bounds (strip (c :: text))) as [p [Hp _]].
  exists l, e, p. rewrite Hl, He, Hp. cbn [bind].
  repeat split.
  fold (valid_scores_of l e p). unfold weighted_overall, label_of.
  destruct (nonempty (valid_scores_of l e p)) eqn:Hv; cbn [negb].
  - rewrite pydiv_ok by (now apply SentimentFacts.total_weight_nonzero). reflexivity.
  - reflexivity.
Qed.

Lemma signal_within_weaken (lo hi lo' hi' : Q) (v : option Q) :
  lo' <= lo -> hi <= hi' -> signal_within lo hi v -> signal_within lo' hi' v.
Proof.
  intros H1 H2. destruct v as [v|]; [|trivial]. cbn. intros [Ha Hb]. split; lra.
Qed.

Lemma text_overall_bounds (text : str) :
  exists l e p,
    SentimentAnalyzer._lexicon_analysis text = Ok l /\
    SentimentAnalyzer._emoji_analysis text = Ok e /\
    SentimentAnalyzer._pattern_analysis text = Ok p /\
    - (162 # 100) <= weighted_overall l e p /\ weighted_overall l e p <= (162 # 100).
Proof.
  destruct (lexicon_bounds text) as [l [Hl Bl]].
  destruct (emoji_signal_range text) as [e [He Be]].
  destruct (pattern_bounds text) as [p [Hp Bp]].
  assert (Be' : signal_within (- (162 # 100)) (162 # 100) e).
  { apply (signal_within_weaken (- (8 # 10)) (8 # 10)); [lra | lra | exact Be]. }
  assert (Bp' : signal_within (- (162 # 100)) (162 # 100) p).
  { apply (signal_within_weaken (- (1)) 1); [lra | lra | exact Bp]. }
  exists l, e, p.
  split; [exact Hl|]. split; [exact He|]. split; [exact Hp|].
  now apply weighted_overall_bounds.
Qed.

(** X7: for every text the overall value [analyze] returns lies in
    [-1.62, 1.62]: nothing clamps the lexicon signal, but no word scores
    more than 0.9 * 1.8. *)
Theorem sentiment_overall_bounds (text : str) :
  exists r,
    SentimentAnalyzer.analyze text = Ok r /\
    - (162 # 100) <= SentimentAnalyzer.overall r /\
    SentimentAnalyzer.overall r <= (162 # 100).
Proof.
  pose proof (sentiment_analyze_cases text) as H.
  destruct (nonempty (strip text)).
  - destruct H as [l [e [p [Hl [He [Hp Hr]]]]]].
    eexists. split; [exact Hr|]. cbn [SentimentAnalyzer.overall].
    destruct (text_overall_bounds (strip text)) as [l' [e' [p' [Hl' [He' [Hp' [B1 B2]]]]]]].
    assert (l' = l) by congruence. assert (e' = e) by congruence.
    assert (p' = p) by congruence. subst.
    destruct (round_bounds (weighted_overall l e p) 3 (-1620) 1620) as [R1 R2].
    + change (inject_Z (-1620) / inject_Z (10 ^ Z.of_nat 3)) with (-1620 # 1000). lra.
    + change (inject_Z 1620 / inject_Z (10 ^ Z.of_nat 3)) with (1620 # 1000). lra.
    + change (inject_Z (-1620) / inject_Z (10 ^ Z.of_nat 3)) with (-1620 # 1000) in R1.
      change (inject_Z 1620 / inject_Z (10 ^ Z.of_nat 3)) with (1620 # 1000) in R2.
      split; lra.
  - exists blank_result. split; [exact H|]. cbn. split; lra.
Qed.

(** X8: the label agrees with the overall value returned beside it:
    positive only with an overall of at least 0.2, negative only with one
    of at most -0.2, neutral only with one in [-0.2, 0.2]. *)
Theorem sentiment_label_agrees_with_overall (text : str) :
  exists r,
    SentimentAnalyzer.analyze text = Ok r /\
    match SentimentAnalyzer.label r with
    | SentimentAnalyzer.positive => (2 # 10) <= SentimentAnalyzer.overall r
    | SentimentAnalyzer.negative => SentimentAnalyzer.overall r <= - (2 # 10)
    | SentimentAnalyzer.neutral =>
        - (2 # 10) <= SentimentAnalyzer.overall r /\ SentimentAnalyzer.overall r <= (2 # 10)
    end.
Proof.
  pose proof (sentiment_analyze_cases text) as H.
  destruct (nonempty (strip text)).
  2:{ exists blank_result. split; [exact H|]. cbn. split; lra. }
  destruct H as [l [e [p [Hl [He [Hp Hr]]]]]].
  eexists. split; [exact Hr|].
  cbn [SentimentAnalyzer.overall SentimentAnalyzer.label].
  destruct (text_overall_bounds (strip text)) as [l' [e' [p' [Hl' [He' [Hp' [B1 B2]]]]]]].
  assert (l' = l) by congruence. assert (e' = e) by congruence.
  assert (p' = p) by congruence. subst.
  set (o := weighted_overall l e p) in *.
  unfold label_of.
  destruct (Qgtb o (2 # 10)) eqn:G.
  - apply Qgtb_gt in G.
    destruct (round_bounds o 3 200 1620) as [R1 _].
    + change (inject_Z 200 / inject_Z (10 ^ Z.of_nat 3)) with (200 # 1000). lra.
    + change (inject_Z 1620 / inject_Z (10 ^ Z.of_nat 3)) with (1620 # 1000). lra.
    + change (inject_Z 200 / inject_Z (10 ^ Z.of_nat 3)) with (200 # 1000) in R1. lra.
  - assert (Hle : o <= (2 # 10)).
    { apply Qnot_lt_le. intro H. apply Qgtb_gt in H. congruence. }
    destruct (Qltb o (- (2 # 10))) eqn:L.
    + apply Qltb_lt in L.
      destruct (round_bounds o 3 (-1620) (-200)) as [_ R2].
      * change (inject_Z (-1620) / inject_Z (10 ^ Z.of_nat 3)) with (-1620 # 1000). lra.
      * change (inject_Z (-200) / inject_Z (10 ^ Z.of_nat 3)) with (-200 # 1000). lra.
      * change (inject_Z (-200) / inject_Z (10 ^ Z.of_nat 3)) with (-200 # 1000) in R2. lra.
    + assert (Hge : - (2 # 10) <= o).
      { apply Qnot_lt_le. intro H. apply Qltb_lt in H. congruence. }
      destruct (round_bounds o 3 (-200) 200) as [R1 R2].
      * change (inject_Z (-200) / inject_Z (10 ^ Z.of_nat 3)) with (-200 # 1000). lra.
      * change (inject_Z 200 / inject_Z (10 ^ Z.of_nat 3)) with (200 # 1000). lra.
      * change (inject_Z (-200) / inject_Z (10 ^ Z.of_nat 3)) with (-200 # 1000) in R1.
        change (inject_Z 200 / inject_Z (10 ^ Z.of_nat 3)) with (200 # 1000) in R2.
        split; lra.
Qed.

(** ** Surrounding whitespace *)

Lemma lstrip_split (x : str) : exists pre, x = pre ++ lstrip x.
Proof.
  induction x as [|c x [pre IH]]; [exists []; reflexivity|].
  simpl. destruct (is_space c).
  - exists (c :: pre). simpl. now rewrite <- IH.
  - exists []. reflexivity.
Qed.

Lemma lstrip_head (x : str) (c : char) (rest : str) :
  lstrip x = c :: rest -> is_space c = false.
Proof.
  induction x as [|d x IH]; simpl; [discriminate|].
  destruct (is_space d) eqn:E; [exact IH|].
  intro H. injection H as <- _. exact E.
Qed.

Lemma lstrip_fixed (x : str) :
  match x with c :: _ => is_space c = false | [] => True end -> lstrip x = x.
Proof. destruct x as [|c x]; [reflexivity|]. simpl. now intros ->. Qed.

Lemma strip_idem (x : str) : strip (strip x) = strip x.
Proof.
  unfold strip.
  set (y := lstrip x).
  set (z := lstrip (rev y)).
  assert (Hz : lstrip z = z).
  { apply lstrip_fixed. destruct z as [|c z'] eqn:E; [exact I|].
    apply (lstrip_head (rev y) c z'). exact E. }
  assert (Hrz : lstrip (rev z) = rev z).
  { apply lstrip_fixed. destruct (rev z) as [|c w] eqn:E; [exact I|].
    destruct (lstrip_split (rev y)) as [pre Hpre]. fold z in Hpre.
    assert (Hy : y = rev z ++ rev pre).
    { rewrite <- (rev_involutive y), Hpre, rev_app_distr. reflexivity. }
    rewrite E in Hy. simpl in Hy.
    apply (lstrip_head x c (w ++ rev pre)). exact Hy. }
  rewrite Hrz, rev_involutive, Hz. reflexivity.
Qed.

(** X9: [analyze] does not see whitespace around the text: a text and
    its stripped form get the same result. *)
Theorem sentiment_ignores_surrounding_whitespace (text : str) :
  SentimentAnalyzer.analyze (strip text) = SentimentAnalyzer.analyze text.
Proof.
  unfold SentimentAnalyzer.analyze. cbv zeta.
  rewrite strip_idem.
  destruct text as [|c text]; [reflexivity|].
  cbn [nonempty negb orb].
  destruct (strip (c :: text)) as [|d rest] eqn:E; reflexivity.
Qed.

(** X10: [analyze_batch] returns one result per text, in the order of
    the texts, each the result [analyze] gives for that text. *)
Theorem analyze_batch_elementwise (texts : list str) :
  exists results,
    SentimentAnalyzer.analyze_batch texts = Ok results /\
    Forall2 (fun text r => SentimentAnalyzer.analyze text = Ok r) texts results.
Proof.
  unfold SentimentAnalyzer.analyze_batch.
  induction texts as [|text texts [results [Hr Hall]]]; simpl.
  - exists []. split; [reflexivity | constructor].
  - destruct (SentimentFacts.sentiment_analyze_ok text) as [r [Ha _]].
    rewrite Ha. cbn [bind]. rewrite Hr. cbn [bind].
    exists (r :: results). split; [reflexivity | now constructor].
Qed.

(** ** Sorting by a comparison *)

Section SortBy.
Context {A : Type} (le : A -> A -> bool).

Lemma insert_by_perm (x : A) (l : list A) : Permutation (x :: l) (insert le x l).
Proof.
  induction l as [|y l IH]; simpl; [reflexivity|].
  destruct (le x y); [reflexivity|].
  rewrite perm_swap. now apply perm_skip.
Qed.

Lemma sort_by_perm (l : list A) : Permutation l (sort le l).
Proof.
  induction l as [|x l IH]; simpl; [reflexivity|].
  rewrite <- insert_by_perm. now apply perm_skip.
Qed.

Hypothesis le_total : forall x y, le x y = false -> le y x = true.
Hypothesis le_trans : forall x y z, le x y = true -> le y z = true -> le x z = true.

Lemma insert_by_sorted (x : A) (l : list A) :
  StronglySorted (fun a b => le a b = true) l ->
  StronglySorted (fun a b => le a b = true) (insert le x l).
Proof.
  induction 1 as [|y l Hl IH Hy]; simpl.
  - constructor; constructor.
  - destruct (le x y) eqn:E.
    + constructor; [now constructor|].
      constructor; [exact E|].
      eapply Forall_impl; [|exact Hy].
      intros z Hz. now apply (le_trans x y z).
    + constructor; [exact IH|].
      apply (Permutation_Forall (insert_by_perm x l)).
      constructor; [now apply le_total | exact Hy].
Qed.

Lemma sort_by_sorted (l : list A) : StronglySorted (fun a b => le a b = true) (sort le l).
Proof.
  induction l as [|x l IH]; simpl; [constructor | now apply insert_by_sorted].
Qed.
End SortBy.

Lemma In_firstn {A : Type} (n : nat) (l : list A) (x : A) : In x (firstn n l) -> In x l.
Proof.
  intro H. rewrite <- (firstn_skipn n l). apply in_or_app. now left.
Qed.

Lemma Forall_firstn_of {A : Type} (P : A -> Prop) (n : nat) (l : list A) :
  Forall P l -> Forall P (firstn n l).
Proof.
  rewrite !Forall_forall. intros H x Hx. apply H. now apply (In_firstn n).
Qed.

Lemma StronglySorted_firstn {A : Type} (R : A -> A -> Prop) (n : nat) (l : list A) :
  StronglySorted R l -> StronglySorted R (firstn n l).
Proof.
  intro H. revert n. induction H as [|x l Hl IH Hx]; intro n.
  - rewrite firstn_nil. constructor.
  - destruct n as [|n]; simpl; [constructor|].
    constructor; [apply IH|]. now apply Forall_firstn_of.
Qed.

Lemma StronglySorted_map {A B : Type} (f : A -> B) (R : B -> B -> Prop) (l : list A) :
  StronglySorted (fun x y => R (f x) (f y)) l -> StronglySorted R (map f l).
Proof.
  induction 1 as [|x l Hl IH Hx]; simpl; constructor; [exact IH|].
  rewrite Forall_map. exact Hx.
Qed.

Lemma NoDup_firstn_of {A : Type} (n : nat) (l : list A) : NoDup l -> NoDup (firstn n l).
Proof.
  intro H. rewrite <- (firstn_skipn n l) in H. now apply NoDup_app_remove_r in H.
Qed.

(** ** interest_extractor.py *)

Lemma lookup_In {V : Type} (key : str) (d : list (str * V)) (v : V) :
  lookup key d = Some v -> In (key, v) d.
Proof.
  induction d as [|[k w] d IH]; simpl; [discriminate|].
  destruct (str_eqb key k) eqn:E.
  - apply str_eqb_eq in E. intro H. injection H as <-. subst. now left.
  - intro H. right. now apply IH.
Qed.

Lemma keyword_categories_named :
  forallb (fun kv => mem (snd kv) category_names) InterestExtractor._keyword_to_category = true.
Proof. vm_compute. reflexivity. Qed.

(** X11: [get_category] answers "general" or one of the eight categories
    of the table, and does not see the case of the interest. *)
Theorem get_category_range (interest : str) :
  (InterestExtractor.get_category interest = InterestExtractor.general \/
   In (InterestExtractor.get_category interest) category_names) /\
  InterestExtractor.get_category (lower interest) = InterestExtractor.get_category interest.
Proof.
  unfold InterestExtractor.get_category. rewrite lower_idem. split; [|reflexivity].
  destruct (lookup (lower interest) InterestExtractor._keyword_to_category) as [c|] eqn:E;
    cbn [get]; [right | now left].
  apply lookup_In in E.
  pose proof keyword_categories_named as H. rewrite forallb_forall in H.
  apply H in E. cbn [snd] in E. now apply mem_In.
Qed.

Lemma table_keywords_filed :
  forallb filed_where_listed (flat_map snd InterestExtractor.INTEREST_CATEGORIES) = true.
Proof. vm_compute. reflexivity. Qed.

(** X12: every keyword of the category table is filed by [get_category]
    under a category of the table that lists it (a keyword listed twice
    is filed under one of its two categories). *)
Theorem table_keyword_category (keyword : str) :
  In keyword (flat_map snd InterestExtractor.INTEREST_CATEGORIES) ->
  exists keywords,
    In (InterestExtractor.get_category keyword, keywords) InterestExtractor.INTEREST_CATEGORIES /\
    In keyword keywords.
Proof.
  intro H.
  pose proof table_keywords_filed as Hall. rewrite forallb_forall in Hall.
  apply Hall in H. unfold filed_where_listed in H.
  apply existsb_exists in H. destruct H as [[c kws] [Hin Hck]].
  apply andb_true_iff in Hck. destruct Hck as [Hc Hk].
  apply str_eqb_eq in Hc. apply mem_In in Hk. cbn [fst snd] in *. subst c.
  exists kws. now split.
Qed.

(** "startup" stands under technology and under business; it is filed
    under business. *)
Lemma table_keyword_category_witness :
  In (lit "startup") (flat_map snd InterestExtractor.INTEREST_CATEGORIES) /\
  exists keywords,
    In (InterestExtractor.get_category (lit "startup"), keywords)
       InterestExtractor.INTEREST_CATEGORIES /\
    In (lit "startup") keywords.
Proof.
  assert (H : In (lit "startup") (flat_map snd InterestExtractor.INTEREST_CATEGORIES)).
  { apply mem_In. vm_compute. reflexivity. }
  split; [exact H|].
  exact (table_keyword_category (lit "startup") H).
Defined.

(** X13: [find_common_interests] is symmetric: swapping the two lists
    gives the same interests and markers, possibly in another order. *)
Theorem find_common_interests_symmetric (a b : list str) :
  Permutation (InterestExtractor.find_common_interests a b)
              (InterestExtractor.find_common_interests b a).
Proof.
  unfold InterestExtractor.find_common_interests. cbv zeta.
  rewrite !InterestFacts.append_markers.
  apply Permutation_app.
  - apply NoDup_Permutation; try (apply InterestFacts.inter_NoDup, set_of_NoDup).
    intro x. rewrite !InterestFacts.inter_In. tauto.
  - apply Permutation_map, filter_perm.
    apply NoDup_Permutation; try (apply InterestFacts.inter_NoDup, set_of_NoDup).
    intro x. rewrite !InterestFacts.inter_In. tauto.
Qed.

(** Storing under a key and reading keys back. *)
Lemma lookup_dict_set_same {V : Type} (key : str) (v : V) (d : list (str * V)) :
  lookup key (dict_set key v d) = Some v.
Proof.
  induction d as [|[k w] d IH]; simpl.
  - now rewrite str_eqb_refl.
  - destruct (str_eqb key k) eqn:E; simpl; rewrite ?str_eqb_refl, ?E; [reflexivity | exact IH].
Qed.

Lemma lookup_dict_set_other {V : Type} (key key' : str) (v : V) (d : list (str * V)) :
  key' <> key -> lookup key' (dict_set key v d) = lookup key' d.
Proof.
  intro Hne.
  assert (Hf : str_eqb key' key = false).
  { destruct (str_eqb key' key) eqn:E; [|reflexivity]. apply str_eqb_eq in E. contradiction. }
  induction d as [|[k w] d IH]; simpl.
  - now rewrite Hf.
  - destruct (str_eqb key k) eqn:E; simpl.
    + apply str_eqb_eq in E. subst k. now rewrite Hf.
    + destruct (str_eqb key' k); [reflexivity | exact IH].
Qed.

Lemma categorize_step_holds (categorized : list (str * list str)) (done : list str)
    (interest : str) :
  holds categorized done ->
  holds (InterestExtractor.categorize_step categorized interest) (done ++ [interest]).
Proof.
  intros H category. unfold InterestExtractor.categorize_step. cbv zeta.
  set (c := InterestExtractor.get_category interest).
  unfold of_category. rewrite filter_app. cbn [filter]. fold c.
  fold (of_category category done).
  destruct (list_eq_dec N.eq_dec category c) as [->|Hne].
  - rewrite str_eqb_refl, lookup_dict_set_same.
    specialize (H c).
    destruct (lookup c categorized) as [l|] eqn:E.
    + rewrite E. cbn [get].
      destruct (of_category c done) as [|x xs]; [discriminate|].
      injection H as ->. reflexivity.
    + rewrite lookup_dict_set_same. cbn [get].
      destruct (of_category c done) as [|x xs]; [reflexivity | discriminate].
  - assert (Hf : str_eqb c category = false).
    { destruct (str_eqb c category) eqn:E; [|reflexivity].
      apply str_eqb_eq in E. congruence. }
    rewrite Hf, app_nil_r, lookup_dict_set_other by exact Hne.
    destruct (lookup c categorized); [apply H|].
    rewrite lookup_dict_set_other by exact Hne. apply H.
Qed.

(** X14: [categorize_interests] files every interest under its category
    and nowhere else: a category holds exactly the interests of the input
    that [get_category] sends to it, in the order of the input, and a
    category without interest is absent. *)
Theorem categorize_interests_partition (interests : list str) (category : str) :
  lookup category (InterestExtractor.categorize_interests interests)
  = match of_category category interests with
    | [] => None
    | listed => Some listed
    end.
Proof.
  unfold InterestExtractor.categorize_interests.
  assert (H : forall l categorized done,
             holds categorized done ->
             holds (fold_left InterestExtractor.categorize_step l categorized) (done ++ l)).
  { induction l as [|i l IH]; intros categorized done Hh; simpl.
    - now rewrite app_nil_r.
    - replace (done ++ i :: l) with ((done ++ [i]) ++ l) by (now rewrite <- app_assoc).
      apply IH. now apply categorize_step_holds. }
  apply (H interests [] []). intro c. reflexivity.
Qed.

Lemma StronglySorted_weaken {A : Type} (R R' : A -> A -> Prop) (l : list A) :
  (forall x y, In x l -> In y l -> R x y -> R' x y) ->
  StronglySorted R l -> StronglySorted R' l.
Proof.
  intros H Hs. induction Hs as [|x l Hl IH Hx]; constructor.
  - apply IH. intros a b Ha Hb. apply H; now right.
  - rewrite Forall_forall in *. intros y Hy. apply H; [now left | now right | now apply Hx].
Qed.

Lemma higher_total {A : Type} (x y : A * Z) :
  InterestExtractor.higher x y = false -> InterestExtractor.higher y x = true.
Proof. unfold InterestExtractor.higher. rewrite Z.leb_gt, Z.leb_le. lia. Qed.

Lemma higher_trans {A : Type} (x y z : A * Z) :
  InterestExtractor.higher x y = true -> InterestExtractor.higher y z = true ->
  InterestExtractor.higher x z = true.
Proof. unfold InterestExtractor.higher. rewrite !Z.leb_le. lia. Qed.

(** [_rank_interests] rearranges its interests so that the score never
    increases along the list. *)
Lemma rank_interests_perm (interests : list str) (text : str) :
  Permutation interests (InterestExtractor._rank_interests interests text).
Proof.
  unfold InterestExtractor._rank_interests.
  destruct interests as [|i interests]; [reflexivity|]. cbn [nonempty negb].
  set (scored := map (fun interest => (interest, InterestExtractor.interest_score text interest))
                     (i :: interests)).
  rewrite <- (sort_by_perm InterestExtractor.higher scored).
  subst scored. rewrite map_map. cbn [fst]. now rewrite map_id.
Qed.

Lemma rank_interests_sorted (interests : list str) (text : str) :
  StronglySorted
    (fun x y => (InterestExtractor.interest_score text y
                 <= InterestExtractor.interest_score text x)%Z)
    (InterestExtractor._rank_interests interests text).
Proof.
  unfold InterestExtractor._rank_interests.
  destruct interests as [|i interests]; [constructor|]. cbn [nonempty negb].
  set (scored := map (fun interest => (interest, InterestExtractor.interest_score text interest))
                     (i :: interests)).
  apply StronglySorted_map.
  apply (StronglySorted_weaken (fun a b => InterestExtractor.higher a b = true)).
  2:{ apply sort_by_sorted; [apply higher_total | apply higher_trans]. }
  assert (Hpair : forall a, In a (sort InterestExtractor.higher scored) ->
                            snd a = InterestExtractor.interest_score text (fst a)).
  { intros a Ha. apply (Permutation_in _ (Permutation_sym (sort_by_perm _ scored))) in Ha.
    subst scored. apply in_map_iff in Ha. destruct Ha as [j [<- _]]. reflexivity. }
  intros a b Ha Hb Hab. unfold InterestExtractor.higher in Hab. apply Z.leb_le in Hab.
  now rewrite <- (Hpair a Ha), <- (Hpair b Hb).
Qed.

Lemma table_keywords_lowercase :
  forallb (fun k => str_eqb (lower k) k) (flat_map snd InterestExtractor.INTEREST_CATEGORIES)
  = true.
Proof. vm_compute. reflexivity. Qed.

Lemma entities_lowercase (prev : option str) (words : list str) :
  Forall (fun c => lower c = c) (InterestExtractor.entities_from prev words).
Proof.
  revert prev. induction words as [|w words IH]; intro prev; simpl; [constructor|].
  apply Forall_app. split; [|apply IH].
  destruct (match prev with None => true | Some p => endswith_char (ch ".") p end);
    [constructor|].
  destruct (_ && _)%bool; [|constructor].
  destruct (negb _); constructor; [apply lower_idem | constructor].
Qed.

Lemma candidates_lowercase (text : str) :
  Forall (fun c => lower c = c) (InterestExtractor.candidates text).
Proof.
  unfold InterestExtractor.candidates. cbv zeta.
  apply Forall_app. split; [|apply Forall_app; split].
  - apply Forall_forall. intros c Hc. apply filter_In in Hc. destruct Hc as [Hc _].
    apply in_map_iff in Hc. destruct Hc as [t [<- _]]. apply lower_idem.
  - apply Forall_forall. intros c Hc. apply filter_In in Hc. destruct Hc as [Hc _].
    pose proof table_keywords_lowercase as H. rewrite forallb_forall in H.
    now apply str_eqb_eq, H.
  - apply entities_lowercase.
Qed.

Lemma extract_shape_facts (text : str) :
  (length (InterestExtractor.extract text) <= 15)%nat /\
  NoDup (InterestExtractor.extract text) /\
  Forall (fun i => lower i = i /\ In i (InterestExtractor.candidates text))
         (InterestExtractor.extract text).
Proof.
  unfold InterestExtractor.extract. cbv zeta.
  destruct (nonempty text); cbn [negb].
  2:{ repeat split; simpl; try lia; constructor. }
  set (interests := set_of (InterestExtractor.candidates text)).
  pose proof (rank_interests_perm interests (lower text)) as Hperm.
  split; [apply firstn_le_length|].
  split.
  - apply NoDup_firstn_of. apply (Permutation_NoDup Hperm). apply set_of_NoDup.
  - apply Forall_forall. intros i Hi. apply In_firstn in Hi.
    apply (Permutation_in _ (Permutation_sym Hperm)) in Hi.
    subst interests. apply (proj1 (set_of_In _ _)) in Hi. split; [|exact Hi].
    pose proof (candidates_lowercase text) as H. rewrite Forall_forall in H. now apply H.
Qed.

(** X15: [extract] returns at most 15 interests, none twice, each in
    lowercase and each one of the hashtags, table keywords or capitalized
    words found in the text. *)
Theorem extract_shape (text : str) :
  (length (InterestExtractor.extract text) <= 15)%nat /\
  NoDup (InterestExtractor.extract text) /\
  Forall (fun i => lower i = i /\ In i (InterestExtractor.candidates text))
         (InterestExtractor.extract text).
Proof.
  intros. now apply extract_shape_facts.
Qed.

(** X16: the interests [extract] returns stand in descending order of
    their relevance score: twice the number of occurrences, plus 5 for
    a table keyword, plus 2 for more than eight characters. *)
Theorem extract_ranked (text : str) :
  StronglySorted
    (fun x y => (InterestExtractor.interest_score (lower text) y
                 <= InterestExtractor.interest_score (lower text) x)%Z)
    (InterestExtractor.extract text).
Proof.
  unfold InterestExtractor.extract. cbv zeta.
  destruct (nonempty text); cbn [negb]; [|constructor].
  apply StronglySorted_firstn, rank_interests_sorted.
Qed.

(** X17: when the text holds at most 15 different candidates, [extract]
    returns every one of them. *)
Theorem extract_complete (text : str) (interest : str) :
  text <> [] ->
  (length (set_of (InterestExtractor.candidates text)) <= 15)%nat ->
  In interest (InterestExtractor.candidates text) ->
  In interest (InterestExtractor.extract text).
Proof.
  intros Ht Hlen Hin. unfold InterestExtractor.extract. cbv zeta.
  destruct text as [|c text]; [congruence|]. cbn [nonempty negb].
  set (interests := set_of (InterestExtractor.candidates (c :: text))) in *.
  pose proof (rank_interests_perm interests (lower (c :: text))) as Hperm.
  rewrite firstn_all2 by (rewrite <- (Permutation_length Hperm); exact Hlen).
  apply (Permutation_in _ Hperm). now apply set_of_In.
Qed.

(** The text of scenario E and its hashtag "machinelearning". *)
Lemma extract_complete_witness :
  lit "Love #AI and #MachineLearning work" <> [] /\
  (length (set_of (InterestExtractor.candidates (lit "Love #AI and #MachineLearning work")))
   <= 15)%nat /\
  In (lit "machinelearning")
     (InterestExtractor.candidates (lit "Love #AI and #MachineLearning work")) /\
  In (lit "machinelearning")
     (InterestExtractor.extract (lit "Love #AI and #MachineLearning work")).
Proof.
  assert (H1 : lit "Love #AI and #MachineLearning work" <> []) by discriminate.
  assert (H2 : (length (set_of (InterestExtractor.candidates
                                  (lit "Love #AI and #MachineLearning work"))) <= 15)%nat)
    by (vm_compute; lia).
  assert (H3 : In (lit "machinelearning")
                  (InterestExtractor.candidates (lit "Love #AI and #MachineLearning work"))).
  { apply (proj1 (mem_In _ _)). vm_compute. reflexivity. }
  exact (conj H1 (conj H2 (conj H3 (extract_complete _ _ H1 H2 H3)))).
Defined.

Lemma category_names_distinct : NoDup category_names.
Proof.
  apply (NoDup_map_inv (fun c => c)). rewrite map_id.
  assert (H : set_of category_names = category_names) by (vm_compute; reflexivity).
  rewrite <- H. apply set_of_NoDup.
Qed.

Lemma found_matches (text_lower : str) (keywords : list str) :
  flat_map (fun keyword =>
              let n := count keyword text_lower in
              if (n >? 0)%Z then [InterestExtractor.mkKeywordMatch keyword n] else [])
           keywords
  = map (fun k => InterestExtractor.mkKeywordMatch k (count k text_lower))
        (filter (occurs text_lower) keywords).
Proof.
  induction keywords as [|k ks IH]; [reflexivity|].
  cbn [flat_map filter]. cbv zeta in IH |- *. unfold occurs at 1.
  destruct (count k text_lower >? 0)%Z; cbn [map app]; now rewrite IH.
Qed.

Lemma In_skipn_of {A : Type} (n : nat) (l : list A) (x : A) : In x (skipn n l) -> In x l.
Proof.
  intro H. rewrite <- (firstn_skipn n l). apply in_or_app. now right.
Qed.

Lemma sorted_firstn_skipn {A : Type} (R : A -> A -> Prop) (n : nat) (l : list A) (x y : A) :
  StronglySorted R l -> In x (firstn n l) -> In y (skipn n l) -> R x y.
Proof.
  revert n. induction l as [|a l IH]; intros n Hs Hx Hy.
  - rewrite firstn_nil in Hx. contradiction.
  - destruct n as [|n]; [contradiction|]. cbn [firstn skipn] in *.
    inversion Hs as [|? ? Hs' Ha]; subst. destruct Hx as [<-|Hx].
    + rewrite Forall_forall in Ha. apply Ha. apply (In_skipn_of n l y Hy).
    + now apply (IH n).
Qed.

Lemma category_topic_ok (text_lower : str) (ck : str * list str) :
  In ck InterestExtractor.INTEREST_CATEGORIES ->
  Forall (topic_ok text_lower) (InterestExtractor.category_topic text_lower ck).
Proof.
  intro Hck. unfold InterestExtractor.category_topic. rewrite found_matches. cbv zeta.
  set (found := map _ (filter (occurs text_lower) (snd ck))).
  assert (Hfound : Forall (fun m => In (InterestExtractor.keyword m) (snd ck) /\
                     InterestExtractor.occurrences m
                     = count (InterestExtractor.keyword m) text_lower /\
                     (0 < InterestExtractor.occurrences m)%Z) found).
  { subst found. apply Forall_forall. intros m Hm. apply in_map_iff in Hm.
    destruct Hm as [k [<- Hk]]. apply filter_In in Hk. destruct Hk as [Hk Ho].
    cbn. unfold occurs in Ho. repeat split; [exact Hk | lia]. }
  destruct (nonempty found) eqn:Hne; [|constructor].
  constructor; [|constructor].
  set (le := fun x y : InterestExtractor.KeywordMatch =>
               (InterestExtractor.occurrences y <=? InterestExtractor.occurrences x)%Z).
  pose proof (sort_by_perm le found) as Hperm.
  assert (Hsorted : StronglySorted
            (fun x y => (InterestExtractor.occurrences y <= InterestExtractor.occurrences x)%Z)
            (sort le found)).
  { apply (StronglySorted_weaken (fun a b => le a b = true)).
    + intros a b _ _ H. subst le. cbn in H. now apply Z.leb_le.
    + apply sort_by_sorted; subst le; cbn.
      * intros x y. rewrite Z.leb_gt, Z.leb_le. lia.
      * intros x y z. rewrite !Z.leb_le. lia. }
  assert (Hlen : (1 <= length found)%nat) by (destruct found; [discriminate | simpl; lia]).
  exists (snd ck).
  cbn [InterestExtractor.category InterestExtractor.matches InterestExtractor.confidence].
  split; [now rewrite <- surjective_pairing|].
  split; [apply Forall_firstn_of, (Permutation_Forall Hperm), Hfound|].
  split; [rewrite length_firstn, <- (Permutation_length Hperm); lia|].
  split; [now apply StronglySorted_firstn|].
  split.
  { intros k Hk Ho.
    assert (Hin : In (InterestExtractor.mkKeywordMatch k (count k text_lower)) (sort le found)).
    { apply (Permutation_in _ Hperm). subst found.
      apply (in_map (fun k => InterestExtractor.mkKeywordMatch k (count k text_lower))).
      now apply filter_In. }
    rewrite <- (firstn_skipn 5 (sort le found)) in Hin. apply in_app_or in Hin.
    destruct Hin as [Hin|Hin].
    - left. apply in_map_iff. eexists. split; [|exact Hin]. reflexivity.
    - right. split.
      + rewrite length_firstn. destruct (Nat.le_gt_cases 5 (length (sort le found))) as [H5|H5];
          [lia|]. rewrite skipn_all2 in Hin by lia. contradiction.
      + apply Forall_forall. intros m Hm.
        apply (sorted_firstn_skipn _ 5 (sort le found) m _ Hsorted Hm Hin). }
  assert (Hlf : len found = len (filter (occurs text_lower) (snd ck))).
  { subst found. unfold len. now rewrite length_map. }
  rewrite <- Hlf. split; [reflexivity|].
  assert (Hn : 1 <= Q_of_Z (len found)).
  { change 1 with (inject_Z 1). unfold Q_of_Z, len. rewrite <- Zle_Qle. lia. }
  assert (Hc : (2 # 10) <= Qmin (Q_of_Z (len found) / 5) 1 /\
               Qmin (Q_of_Z (len found) / 5) 1 <= 1).
  { split; [|apply Q.le_min_r].
    apply Q.min_glb; [|lra]. apply Qle_shift_div_l; lra. }
  destruct (round_bounds (Qmin (Q_of_Z (len found) / 5) 1) 2 20 100) as [R1 R2].
  + change (inject_Z 20 / inject_Z (10 ^ Z.of_nat 2)) with (20 # 100). lra.
  + change (inject_Z 100 / inject_Z (10 ^ Z.of_nat 2)) with (100 # 100). lra.
  + change (inject_Z 20 / inject_Z (10 ^ Z.of_nat 2)) with (20 # 100) in R1.
    change (inject_Z 100 / inject_Z (10 ^ Z.of_nat 2)) with (100 # 100) in R2.
    split; lra.
Qed.

(** At most one topic per category, in the order of the table. *)
Lemma topics_categories (text_lower : str) (table : list (str * list str)) :
  NoDup (map fst table) ->
  NoDup (map InterestExtractor.category
             (flat_map (InterestExtractor.category_topic text_lower) table)) /\
  forall c, In c (map InterestExtractor.category
                      (flat_map (InterestExtractor.category_topic text_lower) table)) ->
            In c (map fst table).
Proof.
  induction table as [|ck table IH]; intro Hnd; simpl.
  - split; [constructor | tauto].
  - inversion Hnd as [|c l Hnotin Hnd' E]. subst.
    destruct (IH Hnd') as [IH1 IH2].
    unfold InterestExtractor.category_topic at 1 3. cbv zeta.
    destruct (nonempty _); cbn [app map InterestExtractor.category].
    + split.
      * constructor; [|exact IH1]. intro H. apply Hnotin. now apply IH2.
      * intros c [<-|H]; [now left | right; now apply IH2].
    + split; [exact IH1 | intros c H; right; now apply IH2].
Qed.

(** X18: [extract_topics] returns at most five topics, no category twice,
    in descending order of confidence; each topic names a category of the
    table and lists the (at most five) most frequent keywords of that
    category that occur in the lowercased text, each with its number of
    occurrences, the most frequent first; its confidence is a fifth of the
    number of keywords of the category that occur, at most 1. *)
Theorem extract_topics_shape (text : str) :
  (length (InterestExtractor.extract_topics text) <= 5)%nat /\
  Forall (topic_ok (lower text)) (InterestExtractor.extract_topics text) /\
  NoDup (map InterestExtractor.category (InterestExtractor.extract_topics text)) /\
  StronglySorted
    (fun x y => InterestExtractor.confidence y <= InterestExtractor.confidence x)
    (InterestExtractor.extract_topics text).
Proof.
  unfold InterestExtractor.extract_topics. cbv zeta.
  destruct (nonempty text); cbn [negb].
  2:{ repeat split; simpl; try lia; constructor. }
  set (topics := flat_map (InterestExtractor.category_topic (lower text))
                          InterestExtractor.INTEREST_CATEGORIES).
  set (le := fun x y : InterestExtractor.Topic =>
               Qle_bool (InterestExtractor.confidence y) (InterestExtractor.confidence x)).
  pose proof (sort_by_perm le topics) as Hperm.
  split; [apply firstn_le_length|].
  split.
  { apply Forall_firstn_of, (Permutation_Forall Hperm).
    subst topics. apply Forall_forall. intros t Ht. apply in_flat_map in Ht.
    destruct Ht as [ck [Hck Ht]].
    pose proof (category_topic_ok (lower text) ck Hck) as H.
    rewrite Forall_forall in H. now apply H. }
  split.
  { rewrite <- firstn_map. apply NoDup_firstn_of.
    apply (Permutation_NoDup (Permutation_map InterestExtractor.category Hperm)).
    apply (topics_categories (lower text) InterestExtractor.INTEREST_CATEGORIES).
    exact category_names_distinct. }
  apply StronglySorted_firstn.
  apply (StronglySorted_weaken (fun a b => le a b = true)).
  - intros a b _ _ H. subst le. cbn in H. now apply Qle_bool_iff.
  - apply sort_by_sorted; subst le; cbn.
    + intros x y H. apply Qle_bool_iff. apply Qlt_le_weak, Qnot_le_lt.
      intro Hle. apply Qle_bool_iff in Hle. congruence.
    + intros x y z H1 H2. apply Qle_bool_iff in H1, H2. apply Qle_bool_iff.
      eapply Qle_trans; eassumption.
Qed.

(** ** profile_scorer.py *)

Lemma clamp100_range (z : Z) : (0 <= ProfileScorer.clamp100 z <= 100)%Z.
Proof. unfold ProfileScorer.clamp100. lia. Qed.

Lemma engagement_range (metadata : Metadata) :
  exists e, ProfileScorer._calculate_engagement_score metadata = Ok e /\ (0 <= e <= 100)%Z.
Proof.
  unfold ProfileScorer._calculate_engagement_score. cbv zeta.
  destruct (get (following metadata) 0 >? 0)%Z eqn:E.
  - rewrite pydiv_ok by (apply Q_of_Z_nonzero; lia). cbn [bind].
    eexists. split; [reflexivity | apply clamp100_range].
  - cbn [bind]. eexists. split; [reflexivity | apply clamp100_range].
Qed.

Lemma accessibility_range (metadata : Metadata) (sentiment_overall : option Q) :
  (0 <= ProfileScorer._calculate_accessibility_score metadata sentiment_overall <= 100)%Z.
Proof.
  unfold ProfileScorer._calculate_accessibility_score. cbv zeta. apply clamp100_range.
Qed.

(** A loop that only ever adds to its score. *)
Lemma fold_grows {A : Type} (g : Z -> A -> Z) (l : list A) (s : Z) :
  (forall s a, (s <= g s a)%Z) -> (s <= fold_left g l s)%Z.
Proof.
  intro H. revert s. induction l as [|a l IH]; intro s; simpl; [lia|].
  specialize (IH (g s a)). specialize (H s a). lia.
Qed.

Lemma fold_grows_by {A : Type} (g : Z -> A -> Z) (d : Z) (l : list A) (a : A) (s : Z) :
  (forall s a, (s <= g s a)%Z) -> In a l -> (forall s, (s + d <= g s a)%Z) ->
  (s + d <= fold_left g l s)%Z.
Proof.
  intros H Hin Hd. revert s. induction l as [|b l IH]; intro s; [contradiction|].
  simpl. destruct Hin as [->|Hin].
  - pose proof (fold_grows g l (g s a) H). specialize (Hd s). lia.
  - specialize (IH Hin (g s b)). specialize (H s b). lia.
Qed.

Lemma relevance_range (profile_interests target_interests : list str) :
  (30 <= ProfileScorer._calculate_relevance_score profile_interests target_interests <= 100)%Z.
Proof.
  unfold ProfileScorer._calculate_relevance_score. cbv zeta.
  destruct (nonempty profile_interests); cbn [negb]; [|lia].
  destruct (nonempty target_interests); cbn [negb]; [|lia].
  set (matches := InterestExtractor.inter _ _).
  pose proof (len_nonneg matches) as Hm.
  match goal with |- (30 <= ProfileScorer.clamp100 ?x <= 100)%Z =>
    assert (Hx : (30 + len matches * 15 <= x)%Z) end.
  { apply fold_grows. intros s p. apply fold_grows. intros s' t.
    destruct (_ || _)%bool; lia. }
  unfold ProfileScorer.clamp100. lia.
Qed.

Lemma str_in_refl (x : str) : str_in x x = true.
Proof.
  destruct x as [|c x]; [reflexivity|].
  cbn [str_in]. rewrite <- (app_nil_r (c :: x)) at 2.
  now rewrite startswith_refl_app.
Qed.

(** X19: an interest that the profile and the campaign share, whatever
    its case, brings the relevance score to at least 50. *)
Theorem shared_interest_relevance (profile_interests target_interests : list str)
    (interest : str) :
  In interest (map lower profile_interests) ->
  In interest (map lower target_interests) ->
  (50 <= ProfileScorer._calculate_relevance_score profile_interests target_interests <= 100)%Z.
Proof.
  intros Hp Ht.
  pose proof (relevance_range profile_interests target_interests) as Hr.
  split; [|lia]. clear Hr.
  unfold ProfileScorer._calculate_relevance_score. cbv zeta.
  destruct profile_interests as [|p0 ps]; [contradiction|].
  destruct target_interests as [|t0 ts]; [contradiction|].
  cbn [nonempty negb].
  set (profile_set := set_of (map lower (p0 :: ps))) in *.
  set (target_set := set_of (map lower (t0 :: ts))) in *.
  assert (Hps : In interest profile_set) by (now apply set_of_In).
  assert (Hts : In interest target_set) by (now apply set_of_In).
  assert (Hm : (1 <= len (InterestExtractor.inter profile_set target_set))%Z).
  { assert (Hin : In interest (InterestExtractor.inter profile_set target_set))
      by (now apply InterestFacts.inter_In).
    destruct (InterestExtractor.inter profile_set target_set); [contradiction|].
    unfold len. simpl. lia. }
  match goal with |- (50 <= ProfileScorer.clamp100 ?x)%Z =>
    assert (Hx : (30 + len (InterestExtractor.inter profile_set target_set) * 15 + 5 <= x)%Z) end.
  { apply (fold_grows_by _ 5 profile_set interest).
    - intros s p. apply fold_grows. intros s' t. destruct (_ || _)%bool; lia.
    - exact Hps.
    - intro s. apply (fold_grows_by _ 5 target_set interest).
      + intros s' t. destruct (_ || _)%bool; lia.
      + exact Hts.
      + intro s'. rewrite str_in_refl. cbn [orb]. lia. }
  unfold ProfileScorer.clamp100. lia.
Qed.

(** A profile interested in "Yoga" and a campaign about "yoga". *)
Lemma shared_interest_relevance_witness :
  In (lit "yoga") (map lower [lit "Yoga"; lit "travel"]) /\
  In (lit "yoga") (map lower [lit "yoga"]) /\
  (50 <= ProfileScorer._calculate_relevance_score [lit "Yoga"; lit "travel"] [lit "yoga"]
   <= 100)%Z.
Proof.
  assert (H1 : In (lit "yoga") (map lower [lit "Yoga"; lit "travel"])) by (now left).
  assert (H2 : In (lit "yoga") (map lower [lit "yoga"])) by (now left).
  exact (conj H1 (conj H2 (shared_interest_relevance _ _ _ H1 H2))).
Defined.

(** [score], spelled out over its four components. *)
Lemma score_shape (profile_data : ProfileScorer.ProfileData) :
  exists e q,
    ProfileScorer._calculate_engagement_score
      (get (ProfileScorer.metadata profile_data) empty_metadata) = Ok e /\
    ProfileScorer.score profile_data = Ok q /\
    let a := Qmax 0 (100 - get (ProfileScorer.bot_score profile_data) 50) in
    let r := ProfileScorer._calculate_relevance_score
               (get (ProfileScorer.interests profile_data) [])
               (get (ProfileScorer.target_interests profile_data) []) in
    let c := ProfileScorer._calculate_accessibility_score
               (get (ProfileScorer.metadata profile_data) empty_metadata)
               (ProfileScorer.sentiment_overall profile_data) in
    ProfileScorer.overall q = round (quality_raw a e r c) 1 /\
    ProfileScorer.components q
    = ProfileScorer.mkComponents (round a 1) (round (Q_of_Z e) 1)
                                 (round (Q_of_Z r) 1) (round (Q_of_Z c) 1) /\
    ProfileScorer.recommendation q = recommendation_of (quality_raw a e r c) /\
    ProfileScorer.tier q = ProfileScorer._get_tier (quality_raw a e r c).
Proof.
  unfold ProfileScorer.score. cbv zeta.
  destruct (engagement_range (get (ProfileScorer.metadata profile_data) empty_metadata))
    as [e [He _]].
  exists e. rewrite He. cbn [bind].
  fold (quality_raw (Qmax 0 (100 - get (ProfileScorer.bot_score profile_data) 50)) e
          (ProfileScorer._calculate_relevance_score
             (get (ProfileScorer.interests profile_data) [])
             (get (ProfileScorer.target_interests profile_data) []))
          (ProfileScorer._calculate_accessibility_score
             (get (ProfileScorer.metadata profile_data) empty_metadata)
             (ProfileScorer.sentiment_overall profile_data))).
  unfold recommendation_of.
  destruct (Qle_bool 75 _); [|destruct (Qle_bool 50 _); [|destruct (Qle_bool 30 _)]];
    eexists; repeat split; reflexivity.
Qed.

Lemma quality_raw_eq (a : Q) (e r c : Z) :
  quality_raw a e r c
  == a * (30 # 100) + inject_Z e * (25 # 100) + inject_Z r * (25 # 100)
     + inject_Z c * (20 # 100).
Proof. unfold quality_raw, sumQ, Q_of_Z. cbn [fold_left]. ring. Qed.

Lemma inject_Z_range (z lo hi : Z) :
  (lo <= z <= hi)%Z -> inject_Z lo <= inject_Z z /\ inject_Z z <= inject_Z hi.
Proof. intros [H1 H2]. split; now rewrite <- Zle_Qle. Qed.

(** Rounding to one digit keeps a number of [lo, hi] in [lo, hi], for
    integers [lo] and [hi]. *)
Lemma round1_range (q : Q) (lo hi : Z) :
  inject_Z lo <= q -> q <= inject_Z hi ->
  inject_Z lo <= round q 1 /\ round q 1 <= inject_Z hi.
Proof.
  intros H1 H2.
  destruct (round_bounds q 1 (lo * 10) (hi * 10)) as [R1 R2].
  - change (inject_Z (10 ^ Z.of_nat 1)) with 10. rewrite inject_Z_mult.
    change (inject_Z 10) with 10. field_simplify. lra.
  - change (inject_Z (10 ^ Z.of_nat 1)) with 10. rewrite inject_Z_mult.
    change (inject_Z 10) with 10. field_simplify. lra.
  - change (inject_Z (10 ^ Z.of_nat 1)) with 10 in R1, R2.
    rewrite inject_Z_mult in R1, R2. change (inject_Z 10) with 10 in R1, R2.
    assert (E1 : inject_Z lo * 10 / 10 == inject_Z lo) by field.
    assert (E2 : inject_Z hi * 10 / 10 == inject_Z hi) by field.
    rewrite E1 in R1. rewrite E2 in R2. now split.
Qed.

Lemma quality_ranges (a : Q) (e r c : Z) :
  0 <= a -> a <= 100 -> (0 <= e <= 100)%Z -> (30 <= r <= 100)%Z -> (0 <= c <= 100)%Z ->
  components_in_range
    (ProfileScorer.mkComponents (round a 1) (round (Q_of_Z e) 1)
                                (round (Q_of_Z r) 1) (round (Q_of_Z c) 1)) /\
  0 <= quality_raw a e r c /\ quality_raw a e r c <= 100 /\
  0 <= round (quality_raw a e r c) 1 /\ round (quality_raw a e r c) 1 <= 100.
Proof.
  intros Ha0 Ha1 He Hr Hc.
  apply (inject_Z_range e 0 100) in He. apply (inject_Z_range r 30 100) in Hr.
  apply (inject_Z_range c 0 100) in Hc.
  change (inject_Z 0) with 0 in *. change (inject_Z 100) with 100 in *.
  change (inject_Z 30) with 30 in *.
  pose proof (quality_raw_eq a e r c) as E.
  assert (Hraw : 0 <= quality_raw a e r c /\ quality_raw a e r c <= 100) by (split; lra).
  unfold components_in_range, Q_of_Z.
  cbn [ProfileScorer.authenticity ProfileScorer.engagement ProfileScorer.relevance
       ProfileScorer.accessibility].
  split; [|split; [|split]]; try tauto.
  - split; [|split; [|split]].
    + apply (round1_range a 0 100); assumption.
    + apply (round1_range (inject_Z e) 0 100); tauto.
    + apply (round1_range (inject_Z r) 30 100); tauto.
    + apply (round1_range (inject_Z c) 0 100); tauto.
  - apply (round1_range (quality_raw a e r c) 0 100); tauto.
Qed.

Lemma quality_score_range (profile_data : ProfileScorer.ProfileData) :
  0 <= get (ProfileScorer.bot_score profile_data) 50 ->
  get (ProfileScorer.bot_score profile_data) 50 <= 100 ->
  exists q,
    ProfileScorer.score profile_data = Ok q /\
    components_in_range (ProfileScorer.components q) /\
    0 <= ProfileScorer.overall q /\ ProfileScorer.overall q <= 100.
Proof.
  intros Hb0 Hb1.
  destruct (score_shape profile_data) as [e [q [He [Hq H]]]]. cbv zeta in H.
  destruct H as [Ho [Hc _]].
  exists q. split; [exact Hq|]. rewrite Ho, Hc.
  destruct (engagement_range (get (ProfileScorer.metadata profile_data) empty_metadata))
    as [e' [He' Hr]].
  assert (e' = e) by congruence. subst e'.
  assert (Ha : 0 <= Qmax 0 (100 - get (ProfileScorer.bot_score profile_data) 50) /\
               Qmax 0 (100 - get (ProfileScorer.bot_score profile_data) 50) <= 100).
  { split; [apply Q.le_max_l | apply Q.max_lub; lra]. }
  destruct (quality_ranges _ e _ _ (proj1 Ha) (proj2 Ha) Hr
              (relevance_range (get (ProfileScorer.interests profile_data) [])
                               (get (ProfileScorer.target_interests profile_data) []))
              (accessibility_range (get (ProfileScorer.metadata profile_data) empty_metadata)
                                   (ProfileScorer.sentiment_overall profile_data)))
    as [H1 [_ [_ [H2 H3]]]].
  split; [exact H1 | split; [exact H2 | exact H3]].
Qed.

(** X20: for a bot score in [0, 100] (or none given) and metadata whose
    values are numbers, the overall value that [score] computes and its
    four components lie in [0, 100], the relevance being at least 30. *)
Theorem quality_score_in_range (profile_data : ProfileScorer.ProfileData) :
  0 <= get (ProfileScorer.bot_score profile_data) 50 ->
  get (ProfileScorer.bot_score profile_data) 50 <= 100 ->
  exists q,
    ProfileScorer.score profile_data = Ok q /\
    components_in_range (ProfileScorer.components q) /\
    0 <= ProfileScorer.overall q /\ ProfileScorer.overall q <= 100.
Proof.
  intros. now apply quality_score_range.
Qed.

(** A verified account with a bot score of 24, one interest of the two
    targets and a mildly positive sentiment. *)
Lemma quality_score_in_range_witness :
  0 <= get (ProfileScorer.bot_score sample_profile_data) 50 /\
  get (ProfileScorer.bot_score sample_profile_data) 50 <= 100 /\
  exists q,
    ProfileScorer.score sample_profile_data = Ok q /\
    components_in_range (ProfileScorer.components q) /\
    0 <= ProfileScorer.overall q /\ ProfileScorer.overall q <= 100.
Proof.
  assert (H1 : 0 <= get (ProfileScorer.bot_score sample_profile_data) 50) by (cbn; lra).
  assert (H2 : get (ProfileScorer.bot_score sample_profile_data) 50 <= 100) by (cbn; lra).
  exact (conj H1 (conj H2 (quality_score_in_range _ H1 H2))).
Defined.

(** X21: the bot score of [BotDetector.analyze] is always a fit input
    of [ProfileScorer.score]: whatever the metadata, interests and
    sentiment that go with it, the quality components and the overall
    value lie in [0, 100]. *)
Theorem bot_score_feeds_quality_score (fromisoformat : str -> option datetime)
    (profile : Profile) (metadata : option Metadata)
    (interests target_interests : option (list str)) (sentiment_overall : option Q) :
  exists bot q,
    BotDetector.analyze fromisoformat profile = Ok bot /\
    ProfileScorer.score
      (ProfileScorer.mkProfileData (Some (BotDetector.score bot)) metadata interests
                                   target_interests sentiment_overall) = Ok q /\
    components_in_range (ProfileScorer.components q) /\
    0 <= ProfileScorer.overall q /\ ProfileScorer.overall q <= 100.
Proof.
  destruct (bot_scores_range fromisoformat profile) as [bot [Hbot [H0 [H100 _]]]].
  destruct (quality_score_range
              (ProfileScorer.mkProfileData (Some (BotDetector.score bot)) metadata interests
                                           target_interests sentiment_overall) H0 H100)
    as [q Hq].
  exists bot, q. split; [exact Hbot | exact Hq].
Qed.

(** X22: recommendation and tier never contradict each other: a high
    priority comes with tier S or A, a good target with A or B, a profile
    to consider with C or D, and a profile to skip with D. *)
Theorem recommendation_agrees_with_tier (profile_data : ProfileScorer.ProfileData) :
  exists q,
    ProfileScorer.score profile_data = Ok q /\
    match ProfileScorer.recommendation q with
    | ProfileScorer.high_priority =>
        ProfileScorer.tier q = ProfileScorer.S \/ ProfileScorer.tier q = ProfileScorer.A
    | ProfileScorer.good_target =>
        ProfileScorer.tier q = ProfileScorer.A \/ ProfileScorer.tier q = ProfileScorer.B
    | ProfileScorer.consider =>
        ProfileScorer.tier q = ProfileScorer.C \/ ProfileScorer.tier q = ProfileScorer.D
    | ProfileScorer.skip => ProfileScorer.tier q = ProfileScorer.D
    end.
Proof.
  destruct (score_shape profile_data) as [e [q [_ [Hq H]]]]. cbv zeta in H.
  destruct H as [_ [_ [Hrec Htier]]].
  exists q. split; [exact Hq|]. rewrite Hrec, Htier.
  set (raw := quality_raw _ _ _ _).
  unfold recommendation_of, ProfileScorer._get_tier.
  destruct (Qle_bool 75 raw) eqn:E75; destruct (Qle_bool 50 raw) eqn:E50;
    destruct (Qle_bool 30 raw) eqn:E30; destruct (Qle_bool 80 raw) eqn:E80;
    destruct (Qle_bool 65 raw) eqn:E65; destruct (Qle_bool 35 raw) eqn:E35;
    try (left; reflexivity); try (right; reflexivity); try reflexivity; exfalso;
    repeat match goal with
           | H : Qle_bool _ raw = true |- _ => apply Qle_bool_iff in H
           | H : Qle_bool ?k raw = false |- _ =>
               assert (raw < k)
                 by (apply Qnot_le_lt; intro Hle; apply Qle_bool_iff in Hle; congruence);
               clear H
           end; lra.
Qed.

Lemma StronglySorted_filter {A : Type} (R : A -> A -> Prop) (f : A -> bool) (l : list A) :
  StronglySorted R l -> StronglySorted R (filter f l).
Proof.
  induction 1 as [|x l Hl IH Hx]; simpl; [constructor|].
  destruct (f x); [|exact IH].
  constructor; [exact IH|].
  rewrite Forall_forall in *. intros y Hy. apply filter_In in Hy. now apply Hx.
Qed.

(** X23: [filter_profiles] returns at most [max_count] profiles of the
    ranking, each with an overall value of at least [min_score], in
    descending order; unless it stops at [max_count], it returns every
    ranked profile that reaches [min_score]. *)
Theorem filter_profiles_spec (profiles : list ProfileScorer.ProfileData) (min_score : Q)
    (max_count : nat) :
  exists ranked kept,
    ProfileScorer.rank_profiles profiles = Ok ranked /\
    ProfileScorer.filter_profiles profiles min_score max_count = Ok kept /\
    (length kept <= max_count)%nat /\
    Forall (fun x => min_score <= overall_of x /\ In x ranked) kept /\
    StronglySorted (not_below overall_of) kept /\
    (length kept = max_count \/
     kept = filter (fun x => Qle_bool min_score (overall_of x)) ranked).
Proof.
  destruct (ProfileScorerFacts.attach_all_ok profiles) as [scored [Hs _]].
  unfold ProfileScorer.filter_profiles, ProfileScorer.rank_profiles.
  rewrite Hs. cbn [bind].
  set (ranked := sort ProfileScorer.before scored).
  set (filtered := filter _ ranked).
  exists ranked, (firstn max_count filtered).
  split; [reflexivity|]. split; [reflexivity|].
  split; [apply firstn_le_length|].
  split.
  { apply Forall_firstn_of. apply Forall_forall. intros x Hx.
    subst filtered. apply filter_In in Hx. destruct Hx as [Hin Hle].
    split; [now apply Qle_bool_iff | exact Hin]. }
  split.
  { apply StronglySorted_firstn, StronglySorted_filter.
    apply (sort_sorted overall_of). }
  destruct (Nat.le_gt_cases (length filtered) max_count) as [H|H].
  - right. now apply firstn_all2.
  - left. rewrite length_firstn. lia.
Qed.

(** X24: the verified mark never lowers the engagement score and never
    raises the accessibility score of otherwise equal metadata. *)
Theorem verified_engagement_accessibility (fo fi pc : option Z)
    (sentiment_overall : option Q) :
  exists ev eu,
    ProfileScorer._calculate_engagement_score (mkMetadata fo fi pc (Some true)) = Ok ev /\
    ProfileScorer._calculate_engagement_score (mkMetadata fo fi pc (Some false)) = Ok eu /\
    (eu <= ev)%Z /\
    (ProfileScorer._calculate_accessibility_score
       (mkMetadata fo fi pc (Some true)) sentiment_overall
     <= ProfileScorer._calculate_accessibility_score
          (mkMetadata fo fi pc (Some false)) sentiment_overall)%Z.
Proof.
  unfold ProfileScorer._calculate_engagement_score,
         ProfileScorer._calculate_accessibility_score. cbv zeta.
  cbn [followers following posts_count verified]. cbn [get].
  set (a := get fo 0%Z). set (b := get fi 0%Z). set (c := get pc 0%Z).
  destruct (b >? 0)%Z eqn:E.
  - rewrite !pydiv_ok by (apply Q_of_Z_nonzero; lia). cbn [bind].
    eexists. eexists. split; [reflexivity|]. split; [reflexivity|].
    unfold ProfileScorer.clamp100.
    split; repeat match goal with |- context [if ?c then _ else _] => destruct c end; lia.
  - cbn [bind].
    eexists. eexists. split; [reflexivity|]. split; [reflexivity|].
    unfold ProfileScorer.clamp100.
    split; repeat match goal with |- context [if ?c then _ else _] => destruct c end; lia.
Qed.

(** ** main.py *)

(** X25: [_analyze_activity_pattern] never answers "inactive": without
    posts it answers "unknown", and only then. *)
Theorem activity_pattern_never_inactive {A : Type} (posts : option (list A)) :
  Main._analyze_activity_pattern posts <> Main.inactive /\
  (Main._analyze_activity_pattern posts = Main.unknown <-> get posts [] = []).
Proof.
  unfold Main._analyze_activity_pattern. cbv zeta.
  destruct (get posts []) as [|p ps] eqn:E; cbn [nonempty negb].
  - split; [discriminate | tauto].
  - assert (H : (len (p :: ps) >? 0)%Z = true).
    { apply Z.gtb_lt. unfold len. simpl. lia. }
    destruct (len (p :: ps) >? 50)%Z; [split; [discriminate | split; discriminate]|].
    destruct (len (p :: ps) >? 20)%Z; [split; [discriminate | split; discriminate]|].
    destruct (len (p :: ps) >? 5)%Z; [split; [discriminate | split; discriminate]|].
    rewrite H. split; [discriminate | split; discriminate].
Qed.

Lemma filter_Exists {A : Type} (f : A -> bool) (l : list A) :
  (0 < len (filter f l))%Z -> Exists (fun x => f x = true) l.
Proof.
  unfold len. induction l as [|x l IH]; simpl; [lia|].
  destruct (f x) eqn:E; [intros _; now left | intro H; right; now apply IH].
Qed.

(** X26: a text is called formal only if it holds one of the formal
    words, and casual only if it holds one of the casual words or more
    than three emoji. *)
Theorem communication_style_needs_evidence (text : str) :
  match Main._detect_communication_style text with
  | Main.formal => Exists (fun word => str_in word (lower text) = true) Main.FORMAL_WORDS
  | Main.casual =>
      Exists (fun word => str_in word (lower text) = true) Main.CASUAL_WORDS \/
      (3 < len (filter (N.ltb 127462) text))%Z
  | Main.balanced => True
  end.
Proof.
  unfold Main._detect_communication_style. cbv zeta.
  destruct (nonempty text); cbn [negb]; [|exact I].
  set (casual_count := len (filter _ Main.CASUAL_WORDS)).
  set (formal_count := len (filter _ Main.FORMAL_WORDS)).
  assert (Hc : (0 <= casual_count)%Z) by apply len_nonneg.
  assert (Hf : (0 <= formal_count)%Z) by apply len_nonneg.
  destruct (casual_count >? formal_count * 2)%Z eqn:E1.
  - cbn [orb]. left. apply filter_Exists. fold casual_count. lia.
  - cbn [orb]. destruct (len (filter (N.ltb 127462) text) >? 3)%Z eqn:E2.
    + right. lia.
    + destruct (formal_count >? casual_count * 2)%Z eqn:E3; [|exact I].
      apply filter_Exists. fold formal_count. lia.
Qed.

(** X27: in a message context the common interests are lowercase
    interests of the campaign list, at most 15; there are at most three
    talking points; the personalization score lies in [0, 330] and is at
    least 40 as soon as there is a common interest. *)
Theorem message_context_spec (request : Main.MessageContextRequest) :
  Forall (fun i => lower i = i /\ In i (get (Main.campaign_interests request) []))
         (Main.common_interests (Main.generate_message_context request)) /\
  (length (Main.common_interests (Main.generate_message_context request)) <= 15)%nat /\
  (length (Main.talking_points (Main.generate_message_context request)) <= 3)%nat /\
  (0 <= Main.personalization_score (Main.generate_message_context request) <= 330)%Z /\
  (Main.common_interests (Main.generate_message_context request) = [] \/
   (40 <= Main.personalization_score (Main.generate_message_context request))%Z).
Proof.
  unfold Main.generate_message_context. cbv zeta.
  cbn [Main.common_interests Main.talking_points Main.personalization_score].
  set (text := Main.combined_text _ _).
  set (interests := if nonempty text then InterestExtractor.extract text else []).
  assert (Hi : (length interests <= 15)%nat /\ Forall (fun i => lower i = i) interests).
  { subst interests. destruct (nonempty text); [|split; [simpl; lia | constructor]].
    destruct (extract_shape_facts text) as [H1 [_ H2]]. split; [exact H1|].
    eapply Forall_impl; [|exact H2]. now intros i [H _]. }
  destruct Hi as [Hlen Hlow]. clearbody interests.
  set (common := if nonempty (get (Main.campaign_interests request) [])
                 then filter (fun i => mem i (get (Main.campaign_interests request) []))
                             interests
                 else []).
  assert (Hc : Forall (fun i => lower i = i /\ In i (get (Main.campaign_interests request) []))
                      common /\ (length common <= length interests)%nat).
  { subst common. destruct (nonempty _); [|split; [constructor | simpl; lia]].
    split; [|apply filter_length_le].
    apply Forall_forall. intros i Hin. apply filter_In in Hin. destruct Hin as [Hin Hm].
    rewrite Forall_forall in Hlow. split; [now apply Hlow | now apply mem_In]. }
  destruct Hc as [Hcf Hcl]. clearbody common.
  split; [exact Hcf|]. split; [lia|].
  unfold len. rewrite !length_app.
  assert (Hinterests : common <> [] -> interests <> []).
  { intros Hne E. rewrite E in Hcl. destruct common; [congruence | simpl in Hcl; lia]. }
  destruct common as [|c0 cs]; destruct interests as [|i0 rest];
    destruct (get (Main.profile_verified request) false); simpl length in *;
    try (exfalso; apply Hinterests; [discriminate | reflexivity]);
    (split; [lia|]); (split; [lia|]); solve [left; reflexivity | right; lia].
Qed.

(** ** bot_detector.py: missing data *)

Lemma timestamps_of_none (fromisoformat : str -> option datetime) (posts : list Post) :
  Forall (fun p => forall ts, timestamp p = Some ts ->
                   fromisoformat (replace_char (ch "Z") (lit "+00:00") ts) = None) posts ->
  BotDetector.timestamps_of fromisoformat posts = [].
Proof.
  induction 1 as [|p ps Hp _ IH]; [reflexivity|].
  unfold BotDetector.timestamps_of in *. cbn [flat_map]. rewrite IH.
  destruct (timestamp p) as [ts|]; [|reflexivity].
  rewrite (Hp ts eq_refl). now destruct (nonempty ts).
Qed.

(** X28: when no post carries a timestamp that parses, the temporal
    analysis answers 30 with the flag "insufficient_temporal_data",
    however many posts there are. *)
Theorem temporal_without_timestamps (fromisoformat : str -> option datetime)
    (posts : list Post) :
  Forall (fun p => forall ts, timestamp p = Some ts ->
                   fromisoformat (replace_char (ch "Z") (lit "+00:00") ts) = None) posts ->
  BotDetector._analyze_temporal fromisoformat posts
  = Ok (30%Z, [lit "insufficient_temporal_data"]).
Proof.
  intro H. unfold BotDetector._analyze_temporal. cbv zeta.
  rewrite (timestamps_of_none fromisoformat posts H).
  now destruct (negb (nonempty posts) || (len posts <? 3)%Z)%bool.
Qed.

Lemma temporal_without_timestamps_witness :
  BotDetector._analyze_temporal (fun _ => None)
    [mkPost (Some (lit "a")) None; mkPost None (Some (lit "yesterday"));
     mkPost (Some (lit "b")) (Some []); mkPost None None]
  = Ok (30%Z, [lit "insufficient_temporal_data"]).
Proof.
  apply temporal_without_timestamps.
  repeat constructor.
Defined.

(** X29: with the same bio and metadata, a profile with at least as many
    posts never gets a lower confidence. *)
Theorem bot_confidence_grows_with_posts (name name' about : option str)
    (meta : option Metadata) (ps ps' : list Post) :
  (length ps <= length ps')%nat ->
  BotDetector._calculate_confidence (mkProfile name about meta (Some ps))
  <= BotDetector._calculate_confidence (mkProfile name' about meta (Some ps')).
Proof.
  intro H. unfold BotDetector._calculate_confidence. cbv zeta.
  cbn [bio metadata posts].
  change (get (Some ps) []) with ps. change (get (Some ps') []) with ps'.
  assert (Hn : nonempty ps = true -> nonempty ps' = true).
  { destruct ps, ps'; simpl in *; try reflexivity; try discriminate; lia. }
  assert (Hl : (len ps <= len ps')%Z) by (unfold len; lia).
  destruct (nonempty (get about []));
    destruct (metadata_nonempty (get meta empty_metadata));
    destruct (nonempty ps);
    try (rewrite (Hn eq_refl)); destruct (nonempty ps');
    destruct (len ps >? 10)%Z eqn:E1; destruct (len ps >? 3)%Z eqn:E2;
    destruct (len ps' >? 10)%Z eqn:E3; destruct (len ps' >? 3)%Z eqn:E4;
    try lia; qle.
Qed.

Lemma bot_confidence_grows_with_posts_witness :
  BotDetector._calculate_confidence
    (mkProfile None (Some (lit "hello")) None (Some [mkPost None None]))
  <= BotDetector._calculate_confidence
       (mkProfile (Some (lit "x")) (Some (lit "hello")) None
                  (Some [mkPost None None; mkPost None None; mkPost None None;
                         mkPost None None])).
Proof.
  apply bot_confidence_grows_with_posts. simpl. lia.
Defined.
